(** * Moodle scraper: a shallow embedding of the extraction engine and of
    the authentication / session logic, with the properties of its
    specification.

    Sources embedded:
    - [src/scraper/extractors.ts]: [extractAssignment], [extractGrade],
      [extractFile], [extractZybookIntegration], [cleanText], [parseDate];
    - [src/scraper/MoodleScraper.ts]: the [MoodleScraper] class;
    - [src/scraper/MoodleAuth.ts]: [performLogin] and its three field finders;
    - [src/index.ts]: [scrapeMoodle];
    - the two-factor guide: [detect2FA], [isOnDashboard],
      [waitFor2FACompletion].

    Conventions.  A JavaScript string is the list of its UTF-16 code units
    ([jsstring]); a JavaScript number is an IEEE-754 binary64 value, the
    kernel's primitive [float]; [async] methods are computations of a state
    and exception monad over the scraper object and the browser. *)

From Stdlib Require Import ZArith NArith List String Ascii Bool Lia.
From Stdlib Require Import PrimFloat SpecFloat FloatOps.
From Equations Require Import Equations.
Import ListNotations.

Open Scope string_scope.
Open Scope list_scope.
Open Scope bool_scope.

(* ===================================================================== *)
(** ** JavaScript strings *)
(* ===================================================================== *)

Module JS.

(** A code unit and a string of code units. *)
Definition jschar := N.
Definition jsstring := list jschar.

(** A literal of the source: its ASCII characters as code units. *)
Definition js (s : string) : jsstring :=
  List.map N_of_ascii (list_ascii_of_string s).

Definition jseqb (a b : jsstring) : bool :=
  if list_eq_dec N.eq_dec a b then true else false.

(** [s || d] on strings: the empty string is falsy. *)
Definition orElse (s d : jsstring) : jsstring :=
  match s with [] => d | _ => s end.

(** Truthiness of a string. *)
Definition truthy (s : jsstring) : bool :=
  match s with [] => false | _ => true end.

(** ECMAScript WhiteSpace and LineTerminator code points: what [\s] matches
    and what [trim] strips. *)
Definition is_ws (c : jschar) : bool :=
  ((9 <=? c) && (c <=? 13) ||
   (c =? 32) || (c =? 160) || (c =? 5760) ||
   (8192 <=? c) && (c <=? 8202) ||
   (c =? 8232) || (c =? 8233) || (c =? 8239) || (c =? 8287) ||
   (c =? 12288) || (c =? 65279))%N.

(** [\d] and [\w]. *)
Definition is_digit (c : jschar) : bool := ((48 <=? c) && (c <=? 57))%N.
Definition is_upper (c : jschar) : bool := ((65 <=? c) && (c <=? 90))%N.
Definition is_lower (c : jschar) : bool := ((97 <=? c) && (c <=? 122))%N.
Definition is_word (c : jschar) : bool :=
  is_digit c || is_upper c || is_lower c || (c =? 95)%N.

(** [String.prototype.trimStart] / [trimEnd] / [trim]. *)
Fixpoint trimStart (s : jsstring) : jsstring :=
  match s with
  | [] => []
  | c :: r => if is_ws c then trimStart r else s
  end.

Fixpoint trimEnd (s : jsstring) : jsstring :=
  match s with
  | [] => []
  | c :: r =>
      match trimEnd r with
      | [] => if is_ws c then [] else [c]
      | r' => c :: r'
      end
  end.

Definition trim (s : jsstring) : jsstring := trimEnd (trimStart s).

(** [String.prototype.toLowerCase] on the ASCII letters; other code units
    are kept (the full Unicode case mapping is not modelled). *)
Definition lower_char (c : jschar) : jschar :=
  if is_upper c then (c + 32)%N else c.
Definition toLowerCase (s : jsstring) : jsstring := List.map lower_char s.

(** [a.startsWith(p)] and [a.includes(p)]. *)
Fixpoint startsWith (p s : jsstring) : bool :=
  match p, s with
  | [], _ => true
  | _ :: _, [] => false
  | a :: p', b :: s' => (a =? b)%N && startsWith p' s'
  end.

Fixpoint includes (s p : jsstring) : bool :=
  startsWith p s ||
  match s with
  | [] => false
  | _ :: s' => includes s' p
  end.

(** [s.split(sep)] for a one-character separator: never empty. *)
Fixpoint split (sep : jschar) (s : jsstring) : list jsstring :=
  match s with
  | [] => [[]]
  | c :: r =>
      if (c =? sep)%N then [] :: split sep r
      else match split sep r with
           | [] => [[c]]
           | w :: ws => (c :: w) :: ws
           end
  end.

(** [arr.pop()]: the last element, [undefined] on the empty array. *)
Definition pop {A} (l : list A) : option A :=
  match rev l with [] => None | x :: _ => Some x end.

(** Decimal digits of a string of digits, most significant first. *)
Definition digit_val (c : jschar) : Z := Z.of_N (c - 48).
Definition digits_val (s : jsstring) : Z :=
  fold_left (fun acc c => 10 * acc + digit_val c)%Z s 0%Z.

End JS.
Import JS.

(* ===================================================================== *)
(** ** Regular expressions *)
(* ===================================================================== *)

(** The fragment of ECMAScript regular expressions the sources use, with
    a backtracking matcher: quantifiers are greedy, alternatives are tried
    in order, [match] returns the leftmost match. *)
Module Regex.

Inductive regex : Type :=
| RChar (c : jschar)                              (* a literal character *)
| RClass (p : jschar -> bool)                     (* [\d], [\w], [[\/\-]] *)
| RRep (p : jschar -> bool) (lo : nat) (hi : option nat)
                                                  (* class{lo,hi}; [None]: no bound *)
| ROpt (r : regex)                                (* r? *)
| RSeq (r1 r2 : regex)
| RGroup (r : regex).                             (* ( r ) *)

(** Greedy repetition of a character class, at least [lo] and at most [hi]
    times, then the continuation; backtracks to shorter repetitions. *)
Fixpoint rep {A} (p : jschar -> bool) (lo : nat) (hi : option nat)
    (s : jsstring) (k : jsstring -> option A) : option A :=
  let stop := match lo with O => k s | S _ => None end in
  let more := match hi with Some O => false | _ => true end in
  match s with
  | c :: s' =>
      if p c && more then
        match rep p (Nat.pred lo) (option_map Nat.pred hi) s' k with
        | Some a => Some a
        | None => stop
        end
      else stop
  | [] => stop
  end.

(** The text consumed between two suffixes of the same string. *)
Definition consumed (s s' : jsstring) : jsstring :=
  firstn (List.length s - List.length s') s.

Fixpoint rmatch {A} (r : regex) (s : jsstring) (caps : list jsstring)
    (k : jsstring -> list jsstring -> option A) : option A :=
  match r with
  | RChar c =>
      match s with
      | x :: s' => if (x =? c)%N then k s' caps else None
      | [] => None
      end
  | RClass p =>
      match s with
      | x :: s' => if p x then k s' caps else None
      | [] => None
      end
  | RRep p lo hi => rep p lo hi s (fun s' => k s' caps)
  | ROpt r' =>
      match rmatch r' s caps k with
      | Some a => Some a
      | None => k s caps
      end
  | RSeq r1 r2 => rmatch r1 s caps (fun s' caps' => rmatch r2 s' caps' k)
  | RGroup r' =>
      rmatch r' s caps (fun s' caps' => k s' (caps' ++ [consumed s s']))
  end.

(** The result of [str.match(re)] for a regular expression without the
    [g] flag: the whole match and the captured groups, in order. *)
Record MatchResult : Type := mkMatch {
  whole : jsstring;
  groups : list jsstring
}.

Definition match_here (r : regex) (s : jsstring) : option MatchResult :=
  rmatch r s [] (fun s' caps => Some (mkMatch (consumed s s') caps)).

Fixpoint jsmatch (r : regex) (s : jsstring) : option MatchResult :=
  match match_here r s with
  | Some m => Some m
  | None =>
      match s with
      | [] => None
      | _ :: s' => jsmatch r s'
      end
  end.

(** [m[i]] for [i >= 1]: [None] is [undefined]. *)
Definition group (m : MatchResult) (i : nat) : option jsstring :=
  nth_error (groups m) (Nat.pred i).

Fixpoint seq_of (rs : list regex) : regex :=
  match rs with
  | [] => RRep (fun _ => false) 0 (Some 0)
  | [r] => r
  | r :: rs' => RSeq r (seq_of rs')
  end.

Definition lit (s : string) : regex := seq_of (List.map RChar (js s)).

Definition chr (s : string) : jschar :=
  match js s with c :: _ => c | [] => 0%N end.

(** The class [[\/\-]]. *)
Definition is_date_sep (c : jschar) : bool :=
  (c =? chr "/")%N || (c =? chr "-")%N.

(** [(\d{1,2}[\/\-]\d{1,2}[\/\-]\d{2,4})] *)
Definition re_numeric_date : regex :=
  RGroup (seq_of [RRep is_digit 1 (Some 2); RClass is_date_sep;
                  RRep is_digit 1 (Some 2); RClass is_date_sep;
                  RRep is_digit 2 (Some 4)]).

(** [(\w+ \d{1,2}, \d{4})] *)
Definition re_month_day_year : regex :=
  RGroup (seq_of [RRep is_word 1 None; RChar (chr " ");
                  RRep is_digit 1 (Some 2); RChar (chr ","); RChar (chr " ");
                  RRep is_digit 4 (Some 4)]).

(** [(\d{4}-\d{2}-\d{2})] *)
Definition re_iso_date : regex :=
  RGroup (seq_of [RRep is_digit 4 (Some 4); RChar (chr "-");
                  RRep is_digit 2 (Some 2); RChar (chr "-");
                  RRep is_digit 2 (Some 2)]).

(** [(\d{1,2} \w+ \d{4})] *)
Definition re_day_month_year : regex :=
  RGroup (seq_of [RRep is_digit 1 (Some 2); RChar (chr " ");
                  RRep is_word 1 None; RChar (chr " ");
                  RRep is_digit 4 (Some 4)]).

(** [\d+\.?\d*] *)
Definition re_decimal : regex :=
  seq_of [RRep is_digit 1 None; ROpt (RChar (chr ".")); RRep is_digit 0 None].

(** The group [( \d+\.?\d* )]. *)
Definition re_number : regex := RGroup re_decimal.

(** The class [[\s\/]]. *)
Definition is_ws_or_slash (c : jschar) : bool := is_ws c || (c =? chr "/")%N.

(** [( \d+\.?\d* )[\s\/]* ( \d+\.?\d* )?]: a number, separators, and
    an optional second number. *)
Definition re_grade_pair : regex :=
  seq_of [RGroup re_decimal; RRep is_ws_or_slash 0 None;
          ROpt (RGroup re_decimal)].

(** [id=(\d+)] *)
Definition re_id : regex :=
  RSeq (lit "id=") (RGroup (RRep is_digit 1 None)).

(** [(\d+)%] *)
Definition re_percent : regex :=
  RSeq (RGroup (RRep is_digit 1 None)) (RChar (chr "%")).

End Regex.
Import Regex.

(* ===================================================================== *)
(** ** Numbers and dates *)
(* ===================================================================== *)

Module Num.

(** The binary64 value nearest to [m / 10^k], ties to even: the value of a
    decimal literal with digits [m] and [k] digits after the point. *)
Definition of_decimal (m : Z) (k : nat) : float :=
  match m with
  | Zpos p =>
      SF2Prim (SFdiv prec emax (S754_finite false p 0)
                 (S754_finite false (Z.to_pos (10 ^ Z.of_nat k)) 0))
  | _ => 0%float
  end.

(** Splits a string at the end of its leading run of digits. *)
Fixpoint span_digits (s : jsstring) : jsstring * jsstring :=
  match s with
  | c :: r =>
      if is_digit c then let (d, rest) := span_digits r in (c :: d, rest)
      else ([], s)
  | [] => ([], [])
  end.

(** [parseFloat] on an unsigned decimal literal without exponent, which is
    all the regular expressions above capture: the longest prefix
    [digits], [digits.], [digits.digits] or [.digits]; [NaN] when there is
    none. *)
Definition parseFloat (s : jsstring) : float :=
  let (ip, rest) := span_digits s in
  let fp := match rest with
            | c :: r => if (c =? chr ".")%N then fst (span_digits r) else []
            | [] => []
            end in
  match ip, fp with
  | [], [] => nan
  | _, _ => of_decimal (digits_val (ip ++ fp)) (List.length fp)
  end.

(** [parseInt(s, 10)] on a string of digits. *)
Definition parseInt (s : jsstring) : float :=
  match fst (span_digits s) with
  | [] => nan
  | d => of_decimal (digits_val d) 0
  end.

(** [isNaN], [isFinite]. *)
Definition isNaN (x : float) : bool := negb (PrimFloat.eqb x x).
Definition isFinite (x : float) : bool :=
  negb (isNaN x) && negb (PrimFloat.eqb x infinity)
  && negb (PrimFloat.eqb x neg_infinity).

End Num.
Import Num.

Module Dates.

(** The time value of a [Date]: [NaN] for an invalid date, else the
    milliseconds since the epoch. *)
Inductive TimeValue : Type :=
| NaNTime
| Ms (t : Z).

Record Date : Type := mkDate { getTime : TimeValue }.

Definition isInvalid (d : Date) : bool :=
  match getTime d with NaNTime => true | Ms _ => false end.

End Dates.
Import Dates.

(* ===================================================================== *)
(** ** Results of fallible operations *)
(* ===================================================================== *)

(** A resolved promise or a returned value, or a thrown [Error] with its
    message. *)
Inductive Result (A : Type) : Type :=
| Ok (a : A)
| Throw (msg : string).
Arguments Ok {A} a.
Arguments Throw {A} msg.

Definition is_ok {A} (r : Result A) : bool :=
  match r with Ok _ => true | Throw _ => false end.

Module DateOps.

(** An ISO-8601 text as [toISOString] prints it, kept as the instant it
    denotes: [new Date(d.toISOString())] has the time value of [d]. *)
Definition ISOString := Z.

(** [d.toISOString()] throws a [RangeError] on an invalid date. *)
Definition toISOString (d : Date) : Result ISOString :=
  match getTime d with
  | Ms t => Ok t
  | NaNTime => Throw "Invalid time value"
  end.

Definition ofISOString (t : ISOString) : Date := mkDate (Ms t).

End DateOps.
Import DateOps.

(* ===================================================================== *)
(** ** The document *)
(* ===================================================================== *)

Module DOM.

(** An element as the extractors see it: its text, the attributes they
    read, and what [querySelector] answers for a selector.  Selectors are
    the source's, with ['] where the source has a double quote. *)
#[local] Unset Elimination Schemes.
Inductive Element : Type := mkElement {
  textContent : jsstring;
  href : jsstring;          (* [''] when the element has none *)
  className : jsstring;
  src : jsstring;
  styleWidth : jsstring;    (* [style.width] *)
  querySelector : string -> option Element
}.
#[local] Set Elimination Schemes.

(** A puppeteer [ElementHandle]: live, or one whose element is gone from
    the document, in which case every access rejects. *)
Inductive ElementHandle : Type :=
| Live (el : Element)
| Detached (reason : string).

(** [handle.evaluate(f)]. *)
Definition evaluate {A} (h : ElementHandle) (f : Element -> Result A)
  : Result A :=
  match h with
  | Live el => f el
  | Detached reason => Throw reason
  end.

(** [e?.textContent?.trim()]: [None] is [undefined]. *)
Definition trimmedText (e : option Element) : option jsstring :=
  option_map (fun e => trim (textContent e)) e.

(** [x || d] where [x] may be [undefined]. *)
Definition orDefault (x : option jsstring) (d : jsstring) : jsstring :=
  match x with
  | Some s => orElse s d
  | None => d
  end.

(** [x || null]. *)
Definition orNull (x : option jsstring) : option jsstring :=
  match x with
  | Some (_ :: _ as s) => Some s
  | _ => None
  end.

(** [el.querySelector(sel) || el]. *)
Definition queryOrSelf (el : Element) (sel : string) : Element :=
  match querySelector el sel with
  | Some l => l
  | None => el
  end.

(** An element with no text, no attributes and no descendants. *)
Definition emptyElement : Element :=
  mkElement [] [] [] [] [] (fun _ => None).

End DOM.
Import DOM.

(* ===================================================================== *)
(** ** The records of [types.ts] *)
(* ===================================================================== *)

Inductive SubmissionStatus : Type := submitted | not_submitted | late.

Record Assignment : Type := mkAssignment {
  a_id : jsstring;
  a_title : jsstring;
  a_description : jsstring;
  a_dueDate : option Date;
  a_submissionStatus : SubmissionStatus;
  a_maxGrade : float;
  a_currentGrade : option float;
  a_url : jsstring
}.

(** [itemName] is declared a string; [extractGrade] stores [null] in it,
    hence the option. *)
Record Grade : Type := mkGrade {
  g_itemName : option jsstring;
  g_grade : jsstring;
  g_maxGrade : jsstring;
  g_percentage : option float;
  g_feedback : option jsstring;
  g_dateModified : option Date
}.

Record MoodleFile : Type := mkMoodleFile {
  f_name : jsstring;
  f_url : jsstring;
  f_size : jsstring;
  f_type : jsstring;
  f_downloadUrl : jsstring
}.

Record ZybookIntegration : Type := mkZybook {
  z_title : jsstring;
  z_url : jsstring;
  z_dueDate : option Date;
  z_completionStatus : jsstring;
  z_progress : option float
}.

Record ScrapedData : Type := mkScrapedData {
  assignments : list Assignment;
  grades : list Grade;
  files : list MoodleFile;
  zybookIntegrations : list ZybookIntegration
}.

Record MoodleCredentials : Type := mkCredentials {
  email : jsstring;
  password : jsstring;
  classUrl : jsstring
}.

(* ===================================================================== *)
(** ** [extractors.ts] *)
(* ===================================================================== *)

Section Extractors.

(** The runtime's [new Date(text)], and the text of one draw of
    [Math.random().toString()]. *)
Variable newDate : jsstring -> Date.
Variable mathRandom : jsstring.

(** [m[i]] where the group always takes part in the match. *)
Definition capture (m : MatchResult) (i : nat) : jsstring :=
  nth (Nat.pred i) (groups m) [].

(** The due date the assignment and integration extractors read: the first
    numeric date of the text, when the runtime accepts it. *)
Definition dueDateOf (dueDateElement : option Element) : option ISOString :=
  match dueDateElement with
  | Some e =>
      let dueDateText := trim (textContent e) in
      if truthy dueDateText then
        match jsmatch re_numeric_date dueDateText with
        | Some datePattern =>
            let parsed := newDate (capture datePattern 1) in
            if negb (isInvalid parsed) then
              match toISOString parsed with
              | Ok iso => Some iso
              | Throw _ => None
              end
            else None
        | None => None
        end
      else None
  | None => None
  end.

Definition submissionStatusOf (statusElement : option Element)
  : SubmissionStatus :=
  match statusElement with
  | Some e =>
      let statusText := toLowerCase (textContent e) in
      if includes statusText (js "submitted")
         || includes statusText (js "complete") then submitted
      else if includes statusText (js "late")
              || includes statusText (js "overdue") then late
      else not_submitted
  | None => not_submitted
  end.

(** What the callback of [extractAssignment] returns. *)
Record AssignmentData : Type := mkAssignmentData {
  ad_id : jsstring;
  ad_title : jsstring;
  ad_description : jsstring;
  ad_dueDate : option ISOString;
  ad_submissionStatus : SubmissionStatus;
  ad_maxGrade : float;
  ad_currentGrade : option float;
  ad_url : jsstring
}.

Definition idOf (url : jsstring) : jsstring :=
  match jsmatch re_id url with
  | Some m => orElse (capture m 1) mathRandom
  | None => mathRandom
  end.

Definition extractAssignment_callback (el : Element) : AssignmentData :=
  let titleElement :=
    querySelector el ".instancename, .activity-name, h3, .assignment-title" in
  let linkElement := queryOrSelf el "a[href*='assign']" in
  let title := orDefault (trimmedText titleElement) (js "Unknown Assignment") in
  let url := href linkElement in
  let id := idOf url in
  let dueDateElement :=
    querySelector el ".due-date, .duedate, .assignment-due, [class*='due']" in
  let dueDate := dueDateOf dueDateElement in
  let statusElement :=
    querySelector el ".status, .submission-status, [class*='status']" in
  let submissionStatus := submissionStatusOf statusElement in
  let descElement :=
    querySelector el ".assignment-description, .description, .summary" in
  let description := orDefault (trimmedText descElement) [] in
  let gradeElement := querySelector el ".grade, .points, .score" in
  let '(currentGrade, maxGrade) :=
    match gradeElement with
    | Some g =>
        let gradeText := trim (textContent g) in
        match jsmatch re_grade_pair gradeText with
        | Some gradeMatch =>
            (Some (parseFloat (capture gradeMatch 1)),
             match group gradeMatch 2 with
             | Some (_ :: _ as g2) => parseFloat g2
             | _ => 100%float
             end)
        | None => (None, 0%float)
        end
    | None => (None, 0%float)
    end in
  mkAssignmentData id title description dueDate submissionStatus
    maxGrade currentGrade url.

Definition assignmentOfData (data : AssignmentData) : Assignment :=
  mkAssignment (ad_id data) (ad_title data) (ad_description data)
    (option_map ofISOString (ad_dueDate data))
    (ad_submissionStatus data) (ad_maxGrade data) (ad_currentGrade data)
    (ad_url data).

(** [extractAssignment]: [None] is the [null] of the [catch] branch. *)
Definition extractAssignment (element : ElementHandle) : option Assignment :=
  match evaluate element (fun el => Ok (extractAssignment_callback el)) with
  | Ok data => Some (assignmentOfData data)
  | Throw _ => None
  end.

(** What the callback of [extractGrade] returns. *)
Record GradeData : Type := mkGradeData {
  gd_itemName : option jsstring;
  gd_grade : jsstring;
  gd_maxGrade : jsstring;
  gd_percentage : option float;
  gd_feedback : option jsstring;
  gd_dateModified : option ISOString
}.

(** The numeric value of a grade text: its first decimal number. *)
Definition numberIn (text : jsstring) : option float :=
  option_map (fun m => parseFloat (capture m 1)) (jsmatch re_number text).

Definition extractGrade_callback (el : Element) : GradeData :=
  let itemNameElement :=
    querySelector el ".gradeitemheader, .item-name, .gradeitem, td:first-child" in
  let itemName := orNull (trimmedText itemNameElement) in
  let gradeElement :=
    querySelector el ".grade, .points, .percentage, .finalgrade" in
  let maxGradeElement :=
    querySelector el ".max-grade, .total-points, .out-of" in
  let gradeText := orDefault (trimmedText gradeElement) (js "0") in
  let maxGradeText := orDefault (trimmedText maxGradeElement) (js "0") in
  let gradeMatch := numberIn gradeText in
  let maxGradeMatch := numberIn maxGradeText in
  let gradeValue :=
    match gradeMatch with Some v => v | None => 0%float end in
  let maxGradeValue :=
    match maxGradeMatch with Some v => v | None => 100%float end in
  let percentage :=
    if (0 <? maxGradeValue)%float
    then (gradeValue / maxGradeValue * 100)%float
    else 0%float in
  let feedbackElement :=
    querySelector el ".feedback, .comment, .grade-feedback" in
  let feedback := orNull (trimmedText feedbackElement) in
  let dateElement :=
    querySelector el ".date-modified, .last-modified, .timestamp, .grade-date" in
  let dateModified :=
    match dateElement with
    | Some e =>
        let dateText := trim (textContent e) in
        if truthy dateText then
          let parsed := newDate dateText in
          if negb (isInvalid parsed) then
            match toISOString parsed with
            | Ok iso => Some iso
            | Throw _ => None
            end
          else None
        else None
    | None => None
    end in
  mkGradeData itemName gradeText maxGradeText (Some percentage)
    feedback dateModified.

Definition gradeOfData (data : GradeData) : Grade :=
  mkGrade (gd_itemName data) (gd_grade data) (gd_maxGrade data)
    (gd_percentage data) (gd_feedback data)
    (option_map ofISOString (gd_dateModified data)).

Definition extractGrade (element : ElementHandle) : option Grade :=
  match evaluate element (fun el => Ok (extractGrade_callback el)) with
  | Ok data => Some (gradeOfData data)
  | Throw _ => None
  end.

(** The icon vocabulary of [extractFile], in the order it is tried. *)
Definition iconTypes : list string :=
  ["pdf"; "document"; "spreadsheet"; "presentation"; "image"; "video"; "audio"].

Fixpoint typeFromIcon (iconSrc iconClass : jsstring) (vocab : list string)
  : option jsstring :=
  match vocab with
  | [] => None
  | w :: rest =>
      if includes iconSrc (js w) || includes iconClass (js w)
      then Some (js w)
      else typeFromIcon iconSrc iconClass rest
  end.

Definition extractFile_callback (el : Element) : MoodleFile :=
  let nameElement :=
    querySelector el ".instancename, .resource-name, .filename, .fp-filename" in
  let linkElement :=
    queryOrSelf el
      "a[href*='resource'], a[href*='pluginfile'], a[href*='folder']" in
  let name := orDefault (trimmedText nameElement) (js "Unknown File") in
  let url := href linkElement in
  let sizeElement := querySelector el ".filesize, .file-size, .size" in
  let size := orDefault (trimmedText sizeElement) (js "Unknown size") in
  let typeElement := querySelector el ".filetype, .file-type, .mimetype" in
  let type0 := orDefault (trimmedText typeElement) [] in
  let type1 :=
    if negb (truthy type0) && truthy url then
      let urlParts := split (chr ".") url in
      let extension :=
        if (1 <? List.length urlParts)%nat
        then orDefault (option_map toLowerCase (pop urlParts)) []
        else [] in
      orElse extension (js "unknown")
    else type0 in
  let type2 := if negb (truthy type1) then js "unknown" else type1 in
  let type3 :=
    if negb (truthy type2) || jseqb type2 (js "unknown") then
      match querySelector el ".iconlarge, .activityicon, .icon, img" with
      | Some iconElement =>
          match typeFromIcon (src iconElement) (className iconElement)
                  iconTypes with
          | Some t => t
          | None => type2
          end
      | None => type2
      end
    else type2 in
  mkMoodleFile name url size (orElse type3 (js "unknown")) url.

Definition extractFile (element : ElementHandle) : option MoodleFile :=
  match evaluate element (fun el => Ok (extractFile_callback el)) with
  | Ok data => Some data
  | Throw _ => None
  end.

(** What the callback of [extractZybookIntegration] returns. *)
Record ZybookData : Type := mkZybookData {
  zd_title : jsstring;
  zd_url : jsstring;
  zd_dueDate : option ISOString;
  zd_completionStatus : jsstring;
  zd_progress : option float
}.

(** The percentage of a progress text: the digits before its first [%]
    that follows digits. *)
Definition percentIn (text : jsstring) : option float :=
  option_map (fun m => parseInt (capture m 1)) (jsmatch re_percent text).

Definition extractZybookIntegration_callback (el : Element) : ZybookData :=
  let titleElement :=
    querySelector el
      ".instancename, .activity-name, .lti-title, .external-tool-title" in
  let linkElement :=
    queryOrSelf el "a[href*='zybook'], a[href*='lti'], a[href*='external']" in
  let title := orDefault (trimmedText titleElement) [] in
  let url := href linkElement in
  let dueDateElement :=
    querySelector el ".due-date, .duedate, [class*='due']" in
  let dueDate := dueDateOf dueDateElement in
  let statusElement :=
    querySelector el
      ".status, .completion-status, .completion-manual, .completion-auto" in
  let completionStatus :=
    match statusElement with
    | Some e =>
        let statusText := trim (textContent e) in
        let statusClass := className e in
        if includes (toLowerCase statusText) (js "complete")
           || includes statusClass (js "completion-y")
        then js "Completed"
        else if includes (toLowerCase statusText) (js "progress")
                || includes statusClass (js "completion-n")
        then js "In Progress"
        else js "Not started"
    | None => js "Not started"
    end in
  let progressElement :=
    querySelector el ".progress, .completion-progress, [class*='progress']" in
  let progress :=
    match progressElement with
    | Some p =>
        let progressText := trim (textContent p) in
        let progress1 :=
          if truthy progressText then percentIn progressText else None in
        match querySelector p ".progress-bar, .bar", progress1 with
        | Some progressBar, None =>
            let width := styleWidth progressBar in
            if truthy width then percentIn width else None
        | _, _ => progress1
        end
    | None => None
    end in
  mkZybookData title url dueDate completionStatus progress.

Definition zybookOfData (data : ZybookData) : ZybookIntegration :=
  mkZybook (zd_title data) (zd_url data)
    (option_map ofISOString (zd_dueDate data))
    (zd_completionStatus data) (zd_progress data).

Definition extractZybookIntegration (element : ElementHandle)
  : option ZybookIntegration :=
  match evaluate element
          (fun el => Ok (extractZybookIntegration_callback el)) with
  | Ok data => Some (zybookOfData data)
  | Throw _ => None
  end.

(** [text.replace(/\s+/g, ' ')]: every maximal run of whitespace becomes one
    space.  [in_run] tells that the previous character was whitespace. *)
Fixpoint collapse_ws (in_run : bool) (s : jsstring) : jsstring :=
  match s with
  | [] => []
  | c :: r =>
      if is_ws c then
        if in_run then collapse_ws true r else 32%N :: collapse_ws true r
      else c :: collapse_ws false r
  end.

(** [text.replace(/^\s+|\s+$/g, '')]: without the [m] flag the anchors are
    the ends of the text, so the leading and the trailing run go. *)
Definition strip_ends (s : jsstring) : jsstring := trimEnd (trimStart s).

(** [text.replace(/\n/g, ' ')]. *)
Definition newlines_to_spaces (s : jsstring) : jsstring :=
  List.map (fun c => if (c =? 10)%N then 32%N else c) s.

Definition cleanText (text : jsstring) : jsstring :=
  trim (newlines_to_spaces (strip_ends (collapse_ws false text))).

(** The patterns of [parseDate], in order. *)
Definition datePatterns : list regex :=
  [re_numeric_date; re_month_day_year; re_iso_date; re_day_month_year].

(** The [for] loop of [parseDate] over the remaining patterns. *)
Fixpoint parseDate_loop (patterns : list regex) (dateText : jsstring)
  : option Date :=
  match patterns with
  | [] => None
  | pattern :: rest =>
      match jsmatch pattern dateText with
      | Some m =>
          let parsed := newDate (capture m 1) in
          if negb (isInvalid parsed) then Some parsed
          else parseDate_loop rest dateText
      | None => parseDate_loop rest dateText
      end
  end.

Definition parseDate (dateText : jsstring) : option Date :=
  if negb (truthy dateText) then None
  else parseDate_loop datePatterns dateText.

End Extractors.

(* ===================================================================== *)
(** ** The browser and the monad of [async] methods *)
(* ===================================================================== *)

(** The browser-automation capability the scraper consumes.  [W] is the
    state of the outside world (browser, network, site).  Reading the
    document ([$], [$$], [content], [url]) does not change the world and
    may reject; every other operation may change it and may reject. *)
Record Driver (W : Type) : Type := mkDriver {
  drv_launch : W -> W * Result unit;             (* puppeteer.launch *)
  drv_newPage : W -> W * Result unit;            (* browser.newPage *)
  drv_setViewport : W -> W * Result unit;        (* page.setViewport *)
  drv_browserClose : W -> W * Result unit;       (* browser.close *)
  drv_goto : jsstring -> W -> W * Result unit;   (* page.goto *)
  drv_url : W -> jsstring;                       (* page.url *)
  drv_content : W -> Result jsstring;            (* page.content *)
  drv_query : string -> W -> Result (option ElementHandle);  (* page.$ *)
  drv_queryAll : string -> W -> Result (list ElementHandle); (* page.$$ *)
  drv_type : string -> jsstring -> W -> W * Result unit;     (* page.type *)
  drv_click : string -> W -> W * Result unit;                (* page.click *)
  drv_clickHandle : ElementHandle -> W -> W * Result unit;   (* handle.click *)
  drv_setValue : ElementHandle -> jsstring -> W -> W * Result unit;
  drv_waitForNavigation : W -> W * Result unit;
  drv_waitForSelector : string -> W -> W * Result unit;
  drv_waitForTimeout : Z -> W -> W * Result unit
}.

Arguments drv_launch {W}.
Arguments drv_newPage {W}.
Arguments drv_setViewport {W}.
Arguments drv_browserClose {W}.
Arguments drv_goto {W}.
Arguments drv_url {W}.
Arguments drv_content {W}.
Arguments drv_query {W}.
Arguments drv_queryAll {W}.
Arguments drv_type {W}.
Arguments drv_click {W}.
Arguments drv_clickHandle {W}.
Arguments drv_setValue {W}.
Arguments drv_waitForNavigation {W}.
Arguments drv_waitForSelector {W}.
Arguments drv_waitForTimeout {W}.

(** What the scraper did to the page and to browsers, for the record. *)
Inductive Action : Type :=
| ALaunch (b : nat)
| AClose (b : nat)
| AGoto (url : jsstring)
| AType (selector : string) (text : jsstring)
| AClick (selector : string)
| AClickHandle
| ASetValue (text : jsstring).

Section Monad.

Context {W : Type}.

(** The state an [async] method runs in: the outside world, the fields
    [browser] and [page] of the scraper object (a launched browser is named
    by its rank of launch), and two ghost fields: the browsers launched and
    not closed since, and the actions performed, most recent first. *)
Record St : Type := mkSt {
  world : W;
  browser : option nat;
  page : option nat;
  launched : nat;
  live : list nat;
  trace : list Action
}.

Definition M (A : Type) : Type := St -> St * Result A.

Definition ret {A} (a : A) : M A := fun s => (s, Ok a).

Definition throw {A} (msg : string) : M A := fun s => (s, Throw msg).

Definition bind {A B} (m : M A) (k : A -> M B) : M B :=
  fun s =>
    match m s with
    | (s', Ok a) => k a s'
    | (s', Throw msg) => (s', Throw msg)
    end.

(** [try { m } catch (e) { handler e.message }] *)
Definition try_catch {A} (m : M A) (handler : string -> M A) : M A :=
  fun s =>
    match m s with
    | (s', Ok a) => (s', Ok a)
    | (s', Throw msg) => handler msg s'
    end.

(** [try { m } finally { fin }]: [fin] runs on both exits; if it throws,
    its error replaces the outcome of [m]. *)
Definition try_finally {A} (m : M A) (fin : M unit) : M A :=
  fun s =>
    let (s1, r) := m s in
    match fin s1 with
    | (s2, Ok _) => (s2, r)
    | (s2, Throw msg) => (s2, Throw msg)
    end.

Definition log (a : Action) : M unit :=
  fun s =>
    (mkSt (world s) (browser s) (page s) (launched s) (live s) (a :: trace s),
     Ok tt).

(** An operation of the driver that may change the world. *)
Definition act (f : W -> W * Result unit) : M unit :=
  fun s =>
    let (w', r) := f (world s) in
    (mkSt w' (browser s) (page s) (launched s) (live s) (trace s), r).

(** A read of the driver. *)
Definition read {A} (f : W -> Result A) : M A :=
  fun s => (s, f (world s)).

End Monad.

Arguments St W : clear implicits.
Arguments M W A : clear implicits.

Declare Scope monad_scope.
Delimit Scope monad_scope with monad.
Notation "x <- m ;; k" := (bind m (fun x => k))
  (at level 61, m at next level, right associativity) : monad_scope.
Notation "m ;;; k" := (bind m (fun _ => k))
  (at level 61, right associativity) : monad_scope.
Open Scope monad_scope.

(* ===================================================================== *)
(** ** [MoodleScraper.ts] *)
(* ===================================================================== *)

Section Scraper.

Context {W : Type} (D : Driver W).
Variable newDate : jsstring -> Date.
Variable mathRandom : jsstring.
Variable credentials : MoodleCredentials.

#[local] Abbreviation M := (M W).

(** The page operations, with the ones that act on the page recorded. *)
Definition page_goto (url : jsstring) : M unit :=
  log (AGoto url) ;;; act (drv_goto D url).

Definition page_type (selector : string) (text : jsstring) : M unit :=
  log (AType selector text) ;;; act (drv_type D selector text).

Definition page_click (selector : string) : M unit :=
  log (AClick selector) ;;; act (drv_click D selector).

Definition page_query (selector : string) : M (option ElementHandle) :=
  read (drv_query D selector).

(** The state after [this.browser = await puppeteer.launch()]. *)
Definition adopt_browser : M nat :=
  fun s =>
    let b := launched s in
    (mkSt (world s) (Some b) (page s) (S b) (b :: live s)
       (ALaunch b :: trace s), Ok b).

Definition set_page (p : option nat) : M unit :=
  fun s =>
    (mkSt (world s) (browser s) p (launched s) (live s) (trace s), Ok tt).

(** The state after [this.browser = null; this.page = null] once the
    browser [b] has closed. *)
Definition forget_browser (b : nat) : M unit :=
  fun s =>
    (mkSt (world s) None None (launched s)
       (List.remove Nat.eq_dec b (live s)) (AClose b :: trace s), Ok tt).

(** [initialize].  [setDefaultTimeout] is synchronous and only configures
    the page: it is left out. *)
Definition initialize : M unit :=
  act (drv_launch D) ;;;
  b <- adopt_browser ;;
  act (drv_newPage D) ;;;
  set_page (Some b) ;;;
  act (drv_setViewport D).

(** [close]. *)
Definition close : M unit :=
  fun s =>
    match browser s with
    | Some b => (act (drv_browserClose D) ;;; forget_browser b) s
    | None => ret tt s
    end.

(** The loop shared by the selector finders: the first selector of the
    list for which [page.$] answers an element. *)
Fixpoint firstPresent (selectors : list string) : M (option string) :=
  match selectors with
  | [] => ret None
  | selector :: rest =>
      element <- page_query selector ;;
      match element with
      | Some _ => ret (Some selector)
      | None => firstPresent rest
      end
  end.

Definition orThrow {A} (m : M (option A)) (msg : string) : M A :=
  x <- m ;;
  match x with
  | Some a => ret a
  | None => throw msg
  end.

Definition loginSelectors : list string :=
  ["input[name='username']"; "input[name='email']"; "input[type='email']";
   "input[id*='email']"; "input[id*='username']"; "#username"; "#email"].

Definition findLoginSelector : M string :=
  orThrow (firstPresent loginSelectors)
    "Could not find email/username input field".

Definition passwordSelectors : list string :=
  ["input[name='password']"; "input[type='password']"; "#password"].

Definition findPasswordSelector : M string :=
  orThrow (firstPresent passwordSelectors)
    "Could not find password input field".

Definition loginButtonSelectors : list string :=
  ["button[type='submit']"; "input[type='submit']";
   "button:contains('Login')"; "button:contains('Sign in')";
   ".btn-primary"; "#loginbtn"].

Definition findLoginButton : M string :=
  orThrow (firstPresent loginButtonSelectors) "Could not find login button".

Definition verifyLogin : M unit :=
  act (drv_waitForTimeout D 2000) ;;;
  pageContent <- read (drv_content D) ;;
  if includes pageContent (js "Invalid login")
     || includes pageContent (js "Login failed")
     || includes pageContent (js "incorrect")
  then throw "Invalid credentials"
  else ret tt.

(** [Promise.all([page.waitForNavigation(), page.click(selector)])]: the
    click, then the navigation it starts; the first rejection is the
    rejection of the whole. *)
Definition click_and_wait (selector : string) : M unit :=
  page_click selector ;;; act (drv_waitForNavigation D).

Definition requirePage {A} (m : M A) : M A :=
  fun s =>
    match page s with
    | Some _ => m s
    | None => throw "Browser not initialized" s
    end.

Definition login : M bool :=
  requirePage
    (try_catch
       (page_goto (classUrl credentials) ;;;
        emailSelector <- findLoginSelector ;;
        passwordSelector <- findPasswordSelector ;;
        if String.eqb emailSelector "" || String.eqb passwordSelector ""
        then throw "Could not find login form elements"
        else
          page_type emailSelector (email credentials) ;;;
          page_type passwordSelector (password credentials) ;;;
          loginButton <- findLoginButton ;;
          click_and_wait loginButton ;;;
          verifyLogin ;;;
          ret true)
       (fun msg => throw (String.append "Login failed: " msg))).

Definition navigateToClass : M unit :=
  requirePage
    (page_goto (classUrl credentials) ;;;
     try_catch
       (act (drv_waitForSelector D
               ".course-content, .main-course-page, #page-content"))
       (fun _ =>
          throw "Could not access class page. Please verify the class URL.")).

(** The private extractors of the class. *)

Definition extractAssignmentData_callback (el : Element)
  : Result AssignmentData :=
  let titleEl :=
    querySelector el ".instancename, .activity-name, h3, .mod-indent-title" in
  let linkEl := queryOrSelf el "a[href*='assign']" in
  let dueDateEl :=
    querySelector el ".due-date, .assignment-due, [class*='due']" in
  let statusEl :=
    querySelector el ".status, .submission-status, [class*='status']" in
  let title := orDefault (trimmedText titleEl) (js "Unknown Assignment") in
  let url := href linkEl in
  let id := idOf mathRandom url in
  let dueDate : Result (option ISOString) :=
    match dueDateEl with
    | Some e =>
        let dueDateText := trim (textContent e) in
        if truthy dueDateText then
          match jsmatch re_numeric_date dueDateText with
          | Some dateMatch =>
              match toISOString (newDate (capture dateMatch 1)) with
              | Ok iso => Ok (Some iso)
              | Throw msg => Throw msg
              end
          | None => Ok None
          end
        else Ok None
    | None => Ok None
    end in
  let submissionStatus := submissionStatusOf statusEl in
  match dueDate with
  | Ok d =>
      Ok (mkAssignmentData id title [] d submissionStatus 0%float None url)
  | Throw msg => Throw msg
  end.

Definition extractAssignmentData (element : ElementHandle)
  : option Assignment :=
  match evaluate element extractAssignmentData_callback with
  | Ok data => Some (assignmentOfData data)
  | Throw _ => None
  end.

Definition extractGradeData_callback (el : Element) : Result GradeData :=
  let itemNameEl := querySelector el ".gradeitem, .item-name, td:first-child" in
  let gradeEl := querySelector el ".grade, .points, .score" in
  let maxGradeEl := querySelector el ".max-grade, .total-points, .out-of" in
  let feedbackEl := querySelector el ".feedback, .comment" in
  let dateEl :=
    querySelector el ".date-modified, .last-modified, .timestamp" in
  let itemName := orDefault (trimmedText itemNameEl) (js "Unknown Item") in
  let gradeText := orDefault (trimmedText gradeEl) (js "0") in
  let maxGradeText := orDefault (trimmedText maxGradeEl) (js "0") in
  let gradeMatch := numberIn gradeText in
  let maxGradeMatch := numberIn maxGradeText in
  let grade := match gradeMatch with Some v => v | None => 0%float end in
  let maxGrade :=
    match maxGradeMatch with Some v => v | None => 100%float end in
  let percentage :=
    if (0 <? maxGrade)%float
    then Some (grade / maxGrade * 100)%float
    else None in
  let feedback := orNull (trimmedText feedbackEl) in
  let dateModified : Result (option ISOString) :=
    match dateEl with
    | Some e =>
        let dateText := trim (textContent e) in
        if truthy dateText then
          match toISOString (newDate dateText) with
          | Ok iso => Ok (Some iso)
          | Throw msg => Throw msg
          end
        else Ok None
    | None => Ok None
    end in
  match dateModified with
  | Ok d =>
      Ok (mkGradeData (Some itemName) gradeText maxGradeText percentage
            feedback d)
  | Throw msg => Throw msg
  end.

Definition extractGradeData (element : ElementHandle) : option Grade :=
  match evaluate element extractGradeData_callback with
  | Ok data => Some (gradeOfData data)
  | Throw _ => None
  end.

Definition extractFileData_callback (el : Element) : MoodleFile :=
  let linkEl := queryOrSelf el "a[href*='resource'], a[href*='mod_resource']" in
  let nameEl := querySelector el ".instancename, .resource-name, .filename" in
  let sizeEl := querySelector el ".filesize, .file-size, [class*='size']" in
  let typeEl := querySelector el ".filetype, .file-type, .mimetype" in
  let name := orDefault (trimmedText nameEl) (js "Unknown File") in
  let url := href linkEl in
  let size := orDefault (trimmedText sizeEl) (js "Unknown size") in
  let type0 := orDefault (trimmedText typeEl) [] in
  let type1 :=
    if negb (truthy type0) && truthy url then
      let extension := option_map toLowerCase (pop (split (chr ".") url)) in
      orDefault extension (js "unknown")
    else type0 in
  mkMoodleFile name url size type1 url.

Definition extractFileData (element : ElementHandle) : option MoodleFile :=
  match evaluate element (fun el => Ok (extractFileData_callback el)) with
  | Ok data => Some data
  | Throw _ => None
  end.

Definition extractZybookData_callback (el : Element) : Result ZybookData :=
  let titleEl := querySelector el ".instancename, .activity-name, .lti-title" in
  let linkEl := queryOrSelf el "a[href*='zybook'], a[href*='lti']" in
  let dueDateEl := querySelector el ".due-date, [class*='due']" in
  let statusEl :=
    querySelector el ".status, .completion-status, [class*='status']" in
  let progressEl :=
    querySelector el ".progress, .completion, [class*='progress']" in
  let title := orDefault (trimmedText titleEl) (js "Zybook Activity") in
  let url := href linkEl in
  let dueDate : Result (option ISOString) :=
    match dueDateEl with
    | Some e =>
        let dueDateText := trim (textContent e) in
        if truthy dueDateText then
          match jsmatch re_numeric_date dueDateText with
          | Some dateMatch =>
              match toISOString (newDate (capture dateMatch 1)) with
              | Ok iso => Ok (Some iso)
              | Throw msg => Throw msg
              end
          | None => Ok None
          end
        else Ok None
    | None => Ok None
    end in
  let completionStatus :=
    orDefault (trimmedText statusEl) (js "Not started") in
  let progress :=
    match progressEl with
    | Some p => percentIn (trim (textContent p))
    | None => None
    end in
  match dueDate with
  | Ok d => Ok (mkZybookData title url d completionStatus progress)
  | Throw msg => Throw msg
  end.

Definition extractZybookData (element : ElementHandle)
  : option ZybookIntegration :=
  match evaluate element extractZybookData_callback with
  | Ok data => Some (zybookOfData data)
  | Throw _ => None
  end.

(** The [for] loop of the four [scrape] methods: each element goes through
    the extractor inside its own [try]; a record is pushed when the
    extractor returned one, and a [null] or a rejection moves on to the
    next element. *)
Fixpoint extractEach {A} (extract : ElementHandle -> Result (option A))
    (elements : list ElementHandle) (acc : list A) : list A :=
  match elements with
  | [] => acc
  | element :: rest =>
      match extract element with
      | Ok (Some a) => extractEach extract rest (acc ++ [a])
      | Ok None => extractEach extract rest acc
      | Throw _ => extractEach extract rest acc
      end
  end.

Definition scrapeAssignments : M (list Assignment) :=
  requirePage
    (try_catch
       (assignmentElements <-
          read (drv_queryAll D
                  "a[href*='assign'], a[href*='assignment'], .activity.assign") ;;
        ret (extractEach (fun e => Ok (extractAssignmentData e))
               assignmentElements []))
       (fun _ => ret [])).

Definition scrapeGrades : M (list Grade) :=
  requirePage
    (try_catch
       (gradesLink <-
          page_query
            "a[href*='grade'], a:contains('Grade'), a:contains('Gradebook')" ;;
        match gradesLink with
        | Some link =>
            log AClickHandle ;;;
            act (drv_clickHandle D link) ;;;
            act (drv_waitForNavigation D) ;;;
            gradeRows <- read (drv_queryAll D "tr.graderow, .gradestable tr") ;;
            ret (extractEach (fun e => Ok (extractGradeData e)) gradeRows [])
        | None => ret []
        end)
       (fun _ => ret [])).

Definition scrapeFiles : M (list MoodleFile) :=
  requirePage
    (try_catch
       (fileElements <-
          read (drv_queryAll D
                  "a[href*='resource'], a[href*='folder'], .activity.resource") ;;
        ret (extractEach (fun e => Ok (extractFileData e)) fileElements []))
       (fun _ => ret [])).

Definition scrapeZybookIntegrations : M (list ZybookIntegration) :=
  requirePage
    (try_catch
       (zybookElements <-
          read (drv_queryAll D
                  "a[href*='zybook'], a[href*='zybooks'], .activity.lti") ;;
        ret (extractEach (fun e => Ok (extractZybookData e))
               zybookElements []))
       (fun _ => ret [])).

(** [scrapeAll].  The four methods given to [Promise.all] share one page;
    they are run one after the other, in the order of the array. *)
Definition scrapeAll : M ScrapedData :=
  initialize ;;;
  login ;;;
  navigateToClass ;;;
  a <- scrapeAssignments ;;
  g <- scrapeGrades ;;
  f <- scrapeFiles ;;
  z <- scrapeZybookIntegrations ;;
  close ;;;
  ret (mkScrapedData a g f z).

Definition loginIndicators : list string :=
  ["input[name='username']"; "input[name='password']"; ".login-form";
   "#loginform"].

(** The [for] loop of [isSessionValid]: [false] at the first indicator
    found, [true] when none is. *)
Fixpoint noneFound (selectors : list string) : M bool :=
  match selectors with
  | [] => ret true
  | selector :: rest =>
      element <- page_query selector ;;
      match element with
      | Some _ => ret false
      | None => noneFound rest
      end
  end.

Definition isSessionValid : M bool :=
  fun s =>
    match page s with
    | None => ret false s
    | Some _ =>
        try_catch
          (page_goto (classUrl credentials) ;;; noneFound loginIndicators)
          (fun _ => ret false) s
    end.

(** The scraper object [new MoodleScraper(credentials, options)] in the
    world [w]: no browser, no page. *)
Definition newScraper (w : W) : St W := mkSt w None None 0 [] [].

(** [scrapeMoodle] of [index.ts], on a fresh scraper object. *)
Definition scrapeMoodle : M ScrapedData :=
  try_finally
    (initialize ;;;
     login ;;;
     scrapeAll)
    close.

(* ===================================================================== *)
(** ** [MoodleAuth.ts]: [performLogin] *)
(* ===================================================================== *)

Definition usernameFieldSelectors : list string :=
  ["input[name='username']"; "input[name='email']"; "input[type='email']";
   "input[id='username']"; "input[id='email']";
   "input[placeholder*='username' i]"; "input[placeholder*='email' i]";
   "input[aria-label*='username' i]"; "input[aria-label*='email' i]";
   ".form-group input[type='text']:first-of-type";
   "form input[type='text']:first-of-type"].

Definition findUsernameField : M (option string) :=
  firstPresent usernameFieldSelectors.

Definition passwordFieldSelectors : list string :=
  ["input[name='password']"; "input[type='password']"; "input[id='password']";
   "input[placeholder*='password' i]"; "input[aria-label*='password' i]"].

Definition findPasswordField : M (option string) :=
  firstPresent passwordFieldSelectors.

Definition submitButtonSelectors : list string :=
  ["input[type='submit']"; "button[type='submit']";
   "button:contains('Login')"; "button:contains('Sign in')";
   "button:contains('Log in')"; "input[value*='login' i]";
   "input[value*='sign in' i]"; ".btn-primary"; ".login-btn"; "#loginbtn";
   "form button:last-of-type"].

Definition findSubmitButton : M (option string) :=
  firstPresent submitButtonSelectors.

(** [page.click(selector, { clickCount: 3 })] is recorded as the click it
    is. *)
Definition performLogin (csrfToken : option jsstring) : M unit :=
  usernameSelector <- findUsernameField ;;
  passwordSelector <- findPasswordField ;;
  submitSelector <- findSubmitButton ;;
  match usernameSelector, passwordSelector, submitSelector with
  | Some usernameSelector, Some passwordSelector, Some submitSelector =>
      page_click usernameSelector ;;;
      page_type usernameSelector (email credentials) ;;;
      page_click passwordSelector ;;;
      page_type passwordSelector (password credentials) ;;;
      match csrfToken with
      | Some (_ :: _ as token) =>
          tokenField <-
            page_query "input[name='logintoken'], input[name='_token']" ;;
          match tokenField with
          | Some field =>
              log (ASetValue token) ;;; act (drv_setValue D field token)
          | None => ret tt
          end
      | _ => ret tt
      end ;;;
      click_and_wait submitSelector
  | _, _, _ =>
      throw "Could not locate all required login form elements"
  end.

(* ===================================================================== *)
(** ** The two-factor guide: [detect2FA], [isOnDashboard],
       [waitFor2FACompletion] *)
(* ===================================================================== *)

Definition twoFactorSelectors : list string :=
  ["input[name='pin']"; "input[name='code']"; "input[name='token']";
   "input[name='verification_code']"; ".two-factor"; ".2fa"; ".mfa";
   "[class*='authenticator']"; "input[placeholder*='code' i]";
   "input[placeholder*='token' i]"; ".duo-frame"; "#duo_iframe";
   "[src*='duosecurity.com']"; ".duo-auth"; ".duo-login";
   "iframe[title*='duo' i]"].

Definition twoFactorIndicators : list string :=
  ["two-factor"; "authentication code"; "verification code";
   "authenticator app"; "text message"; "SMS code"; "duo mobile";
   "duo security"; "duo authentication"; "duosecurity.com";
   "push notification"; "duo push"; "checking for request";
   "waiting for response"].

(** The [for] loop of [detect2FA] and of [isOnDashboard]: is there an
    element for one of the selectors? *)
Fixpoint anyPresent (selectors : list string) : M bool :=
  match selectors with
  | [] => ret false
  | selector :: rest =>
      element <- page_query selector ;;
      match element with
      | Some _ => ret true
      | None => anyPresent rest
      end
  end.

Definition detect2FA : M bool :=
  found <- anyPresent twoFactorSelectors ;;
  if found then ret true
  else
    pageContent <- read (drv_content D) ;;
    ret (existsb (fun indicator =>
                    includes (toLowerCase pageContent) (js indicator))
           twoFactorIndicators).

Definition dashboardSelectors : list string :=
  [".dashboard"; ".course-overview"; ".block_myoverview";
   "[data-region='view-overview']"].

Definition isOnDashboard : M bool := anyPresent dashboardSelectors.

Definition maxWaitTime : Z := 300000.
Definition checkInterval : Z := 2000.

(** The Duo check of the loop body: [duoDetected] after it. *)
Definition detectDuo (duoDetected : bool) : M bool :=
  if duoDetected then ret true
  else
    pageContent <- read (drv_content D) ;;
    ret (includes (toLowerCase pageContent) (js "duo")
         || includes (toLowerCase pageContent) (js "push notification")).

(** One round of checks of the loop: [Some duoDetected] when the wait goes
    on, [None] when the challenge is over. *)
Definition pollOnce (duoDetected : bool) : M (option bool) :=
  still2FA <- detect2FA ;;
  onDashboard <- isOnDashboard ;;
  duoDetected' <- detectDuo duoDetected ;;
  if negb still2FA || onDashboard then ret None
  else ret (Some duoDetected').

(** A turn of the loop brings [elapsed] nearer to [maxWaitTime]. *)
Lemma waitLoop_decreases (elapsed : Z) :
  (elapsed < maxWaitTime)%Z ->
  Z.to_nat (maxWaitTime - (elapsed + checkInterval))
  < Z.to_nat (maxWaitTime - elapsed).
Proof. unfold maxWaitTime, checkInterval. lia. Qed.

Opaque maxWaitTime checkInterval.

(** The [while (elapsed < maxWaitTime)] loop of [waitFor2FACompletion],
    from the values of [elapsed] and [duoDetected] at its head.  The
    messages it prints are left out. *)
Equations? waitLoop (elapsed : Z) (duoDetected : bool) (s : St W)
  : St W * Result unit by wf (Z.to_nat (maxWaitTime - elapsed)) lt :=
  waitLoop elapsed duoDetected s with Z_lt_dec elapsed maxWaitTime := {
    | right _ =>
        throw "2FA timeout - please complete authentication faster" s
    | left _ with pollOnce duoDetected s := {
        | (s1, Throw msg) => (s1, Throw msg)
        | (s1, Ok None) => (s1, Ok tt)
        | (s1, Ok (Some duoDetected')) with
            act (drv_waitForTimeout D checkInterval) s1 := {
            | (s2, Throw msg) => (s2, Throw msg)
            | (s2, Ok _) =>
                waitLoop (elapsed + checkInterval) duoDetected' s2
          }
      }
  }.
Proof.
  apply waitLoop_decreases; assumption.
Qed.

Transparent maxWaitTime checkInterval.

Definition waitFor2FACompletion : M unit := waitLoop 0 false.

End Scraper.

(* ===================================================================== *)
(** ** Vocabulary of the properties *)
(* ===================================================================== *)

(** Whitespace of a text is normal when every whitespace character is a
    space and no two are adjacent; [prev_ws] tells that the text follows a
    whitespace character (so it may not begin with one). *)
Fixpoint ws_normal (prev_ws : bool) (s : jsstring) : bool :=
  match s with
  | [] => true
  | c :: r =>
      if is_ws c then (c =? 32)%N && negb prev_ws && ws_normal true r
      else ws_normal false r
  end.

Fixpoint last_is_ws (s : jsstring) : bool :=
  match s with
  | [] => false
  | [c] => is_ws c
  | _ :: r => last_is_ws r
  end.

(** A clean text: single spaces between words, none at either end. *)
Definition is_clean (s : jsstring) : bool :=
  ws_normal true s && negb (last_is_ws s).

(** The words of a text: its maximal runs of non-whitespace characters.
    [cur] is the word being read. *)
Fixpoint words_from (cur : jsstring) (s : jsstring) : list jsstring :=
  match s with
  | [] => match cur with [] => [] | _ => [cur] end
  | c :: r =>
      if is_ws c then
        match cur with
        | [] => words_from [] r
        | _ => cur :: words_from [] r
        end
      else words_from (cur ++ [c]) r
  end.

Definition words (s : jsstring) : list jsstring := words_from [] s.

(** The words joined by single spaces. *)
Fixpoint unwords (ws : list jsstring) : jsstring :=
  match ws with
  | [] => []
  | [w] => w
  | w :: rest => w ++ 32%N :: unwords rest
  end.

(** Elements and runtimes the statements below are about. *)

(** An element that holds a text and nothing else. *)
Definition textElement (text : jsstring) : Element :=
  mkElement text [] [] [] [] (fun _ => None).

(** A link to [url] with no text, no type field and no icon. *)
Definition fileLink (url : jsstring) : Element :=
  mkElement [] url [] [] [] (fun _ => None).

(** A gradebook row whose grade cell holds [gradeText] and whose
    maximum-grade cell holds [maxGradeText], and nothing else. *)
Definition gradeRow (gradeText maxGradeText : jsstring) : Element :=
  mkElement [] [] [] [] []
    (fun selector =>
       if String.eqb selector ".grade, .points, .score"
          || String.eqb selector ".grade, .points, .percentage, .finalgrade"
       then Some (textElement gradeText)
       else if String.eqb selector ".max-grade, .total-points, .out-of"
       then Some (textElement maxGradeText)
       else None).

(** A runtime whose [Date] accepts no text, for elements without dates. *)
Definition noDate : jsstring -> Date := fun _ => mkDate NaNTime.

(** The records the extractor keeps of a list of elements, in order. *)
Definition successes {A} (extract : ElementHandle -> option A)
    (elements : list ElementHandle) : list A :=
  flat_map (fun e => match extract e with Some a => [a] | None => [] end)
    elements.

Definition is_detached (h : ElementHandle) : bool :=
  match h with Detached _ => true | Live _ => false end.

(** The numeric value [extractGradeData] and [extractGrade] give a grade
    text and a maximum-grade text. *)
Definition gradeValueOf (gradeText : jsstring) : float :=
  match numberIn gradeText with Some v => v | None => 0%float end.

Definition maxGradeValueOf (maxGradeText : jsstring) : float :=
  match numberIn maxGradeText with Some v => v | None => 100%float end.

(** A 310-digit grade, beyond the range of binary64. *)
Definition hugeGradeText : jsstring := 49%N :: repeat 48%N 309.

(** The value of [elapsed] at the head of the loop after [i] turns. *)
Definition elapsedAfter (i : nat) : Z := (checkInterval * Z.of_nat i)%Z.

Section Objects.

Context {W : Type}.

(** The scraper object and the live browsers are the same in two
    states. *)
Definition same_object (s s' : St W) : Prop :=
  browser s' = browser s /\ page s' = page s
  /\ launched s' = launched s /\ live s' = live s.

(** A computation that leaves them alone, however it ends. *)
Definition keeps_object {A} (m : M W A) : Prop :=
  forall s s' r, m s = (s', r) -> same_object s s'.

End Objects.

Section Views.

Context {W : Type} (D : Driver W).

(** The state [s] in the world [w]. *)
Definition with_world (s : St W) (w : W) : St W :=
  mkSt w (browser s) (page s) (launched s) (live s) (trace s).

(** The state [s] after the actions [acts], the first of them first. *)
Definition with_actions (s : St W) (w : W) (acts : list Action) : St W :=
  mkSt w (browser s) (page s) (launched s) (live s) (rev acts ++ trace s).

(** What the selector finders answer in a world. *)
Fixpoint firstPresentIn (w : W) (selectors : list string)
  : Result (option string) :=
  match selectors with
  | [] => Ok None
  | selector :: rest =>
      match drv_query D selector w with
      | Ok (Some _) => Ok (Some selector)
      | Ok None => firstPresentIn w rest
      | Throw msg => Throw msg
      end
  end.

Fixpoint anyPresentIn (w : W) (selectors : list string) : Result bool :=
  match selectors with
  | [] => Ok false
  | selector :: rest =>
      match drv_query D selector w with
      | Ok (Some _) => Ok true
      | Ok None => anyPresentIn w rest
      | Throw msg => Throw msg
      end
  end.

(** What [detect2FA] and [isOnDashboard] answer in a world. *)
Definition challengeMarkers (w : W) : Result bool :=
  match anyPresentIn w twoFactorSelectors with
  | Ok true => Ok true
  | Ok false =>
      match drv_content D w with
      | Ok pageContent =>
          Ok (existsb (fun indicator =>
                         includes (toLowerCase pageContent) (js indicator))
                twoFactorIndicators)
      | Throw msg => Throw msg
      end
  | Throw msg => Throw msg
  end.

Definition dashboardMarkers (w : W) : Result bool :=
  anyPresentIn w dashboardSelectors.

(** The world after one wait of the polling loop, and after [n]. *)
Definition afterWait (w : W) : W := fst (drv_waitForTimeout D checkInterval w).

Fixpoint waits (n : nat) (w : W) : W :=
  match n with
  | O => w
  | S n' => afterWait (waits n' w)
  end.

(** A poll in the world [w] sees the challenge and no dashboard, and the
    wait that follows it resolves. *)
Definition challengePending (w : W) : Prop :=
  challengeMarkers w = Ok true
  /\ dashboardMarkers w = Ok false
  /\ is_ok (drv_content D w) = true
  /\ snd (drv_waitForTimeout D checkInterval w) = Ok tt.

(** A poll in the world [w] sees the challenge gone or the dashboard. *)
Definition challengeOver (w : W) : Prop :=
  exists still2FA onDashboard,
    challengeMarkers w = Ok still2FA
    /\ dashboardMarkers w = Ok onDashboard
    /\ negb still2FA || onDashboard = true
    /\ is_ok (drv_content D w) = true.

(** The number of polls of the loop: [maxWaitTime / checkInterval]. *)
Definition maxPolls : nat := 150.

End Views.

(** Drivers for the examples: the world is [unit], every action resolves,
    [present] tells which selectors have an element, [elements] is what
    every enumeration answers. *)
Definition scriptedDriver (present : string -> bool) (pageContent : jsstring)
    (elements : list ElementHandle) : Driver unit :=
  mkDriver unit
    (fun w => (w, Ok tt)) (fun w => (w, Ok tt)) (fun w => (w, Ok tt))
    (fun w => (w, Ok tt))
    (fun _ w => (w, Ok tt))
    (fun _ => [])
    (fun _ => Ok pageContent)
    (fun selector _ =>
       Ok (if present selector then Some (Live emptyElement) else None))
    (fun _ _ => Ok elements)
    (fun _ _ w => (w, Ok tt))
    (fun _ w => (w, Ok tt))
    (fun _ w => (w, Ok tt))
    (fun _ _ w => (w, Ok tt))
    (fun w => (w, Ok tt))
    (fun _ w => (w, Ok tt))
    (fun _ w => (w, Ok tt)).

(** A page with nothing on it. *)
Definition blankDriver : Driver unit :=
  scriptedDriver (fun _ => false) [] [].

(** A login page with its two fields and no submit control. *)
Definition noSubmitDriver : Driver unit :=
  scriptedDriver
    (fun selector =>
       String.eqb selector "input[name='username']"
       || String.eqb selector "input[name='password']") [] [].

(** A page that accepts the login: the two fields and a submit button. *)
Definition loginPageDriver : Driver unit :=
  scriptedDriver
    (fun selector =>
       String.eqb selector "input[name='username']"
       || String.eqb selector "input[name='password']"
       || String.eqb selector "button[type='submit']") [] [].

(** A page that shows a one-time-code field for ever. *)
Definition stuckChallengeDriver : Driver unit :=
  scriptedDriver (fun selector => String.eqb selector "input[name='pin']")
    [] [].

(** A page that has left the challenge behind. *)
Definition dashboardDriver : Driver unit :=
  scriptedDriver (fun selector => String.eqb selector ".dashboard") [] [].

(** A course page listing a detached element and a live, empty one. *)
Definition listingDriver : Driver unit :=
  scriptedDriver (fun _ => false) []
    [Detached "Element not attached to DOM"; Live emptyElement].

(** A scraper object after [initialize], holding browser and page 0. *)
Definition initializedScraper : St unit :=
  mkSt tt (Some 0) (Some 0) 1 [0] [ALaunch 0].

Definition sampleCredentials : MoodleCredentials :=
  mkCredentials (js "student@example.com") (js "secret")
    (js "https://moodle.example.com/course/view.php?id=7").

(* ===================================================================== *)
(** ** [MoodleAuth.ts]: the other methods *)
(* ===================================================================== *)

Module Auth.

Section Auth.

Context {W : Type} (D : Driver W).
Variable credentials : MoodleCredentials.

(** The runtime's [new URL(text).origin], which throws on a text that is
    no absolute URL; [handle.getProperty('value')] read as a string; and
    the rendering of a page text inside the message of an [Error]. *)
Variable originOf : jsstring -> Result jsstring.
Variable valueOf : ElementHandle -> Result jsstring.
Variable messageOf : jsstring -> string.

#[local] Abbreviation M := (M W).

(** A value or a rejection that does not touch the state. *)
Definition lift {A} (r : Result A) : M A := fun s => (s, r).

Definition page_url : M jsstring := read (fun w => Ok (drv_url D w)).

Definition loginIndicators : list string :=
  ["input[name='username']"; "input[name='password']"; ".loginform";
   "#login"; ".login-container"].

Definition loggedInIndicators : list string :=
  [".usermenu"; ".user-menu"; "[data-region='user-menu']";
   ".navbar-nav .dropdown"; "a[href*='logout']"].

Definition isAlreadyLoggedIn : M bool :=
  try_catch
    (noLoginForm <- noneFound D loginIndicators ;;
     if noLoginForm then anyPresent D loggedInIndicators else ret false)
    (fun _ => ret false).

Definition loginPaths : list string :=
  ["/login/index.php"; "/login/"; "/auth/login.php"; "/user/login.php";
   "/login.php"].

Definition loginFormSelector : string :=
  "input[name='username'], input[name='password']".

(** [await (await link.getProperty('href')).jsonValue()]. *)
Definition hrefOf (link : ElementHandle) : Result jsstring :=
  evaluate link (fun el => Ok (href el)).

(** The [for] loop of [findLoginUrl] over the common login paths: a path
    whose navigation or lookup rejects is passed over. *)
Fixpoint tryLoginPaths (baseUrl : jsstring) (paths : list string)
  : M (option jsstring) :=
  match paths with
  | [] => ret None
  | path :: rest =>
      let testUrl := baseUrl ++ js path in
      hasForm <-
        try_catch
          (page_goto D testUrl ;;;
           form <- page_query D loginFormSelector ;;
           ret (match form with Some _ => true | None => false end))
          (fun _ => ret false) ;;
      if hasForm then ret (Some testUrl) else tryLoginPaths baseUrl rest
  end.

Definition findLoginUrl : M jsstring :=
  currentUrl <- page_url ;;
  baseUrl <- lift (originOf currentUrl) ;;
  hasLoginForm <- page_query D loginFormSelector ;;
  match hasLoginForm with
  | Some _ => ret currentUrl
  | None =>
      loginLink <- page_query D "a[href*='login']" ;;
      viaLink <-
        match loginLink with
        | Some link =>
            loginUrl <- lift (hrefOf link) ;;
            ret (if truthy loginUrl then Some loginUrl else None)
        | None => ret None
        end ;;
      match viaLink with
      | Some loginUrl => ret loginUrl
      | None =>
          viaPath <- tryLoginPaths baseUrl loginPaths ;;
          match viaPath with
          | Some testUrl => ret testUrl
          | None => ret currentUrl
          end
      end
  end.

Definition tokenSelectors : list string :=
  ["input[name='logintoken']"; "input[name='_token']";
   "input[name='csrftoken']"; "input[name='authenticity_token']";
   "input[type='hidden'][name*='token']"].

(** The [for] loop of [extractCSRFToken]: the first non-empty value. *)
Fixpoint firstToken (selectors : list string) : M (option jsstring) :=
  match selectors with
  | [] => ret None
  | selector :: rest =>
      element <- page_query D selector ;;
      match element with
      | Some handle =>
          token <- lift (valueOf handle) ;;
          if truthy token then ret (Some token) else firstToken rest
      | None => firstToken rest
      end
  end.

Definition extractCSRFToken : M (option jsstring) :=
  try_catch (firstToken tokenSelectors) (fun _ => ret None).

Definition errorSelectors : list string :=
  [".error"; ".alert-danger"; ".login-error"; "[class*='error']";
   "div:contains('Invalid')"; "div:contains('incorrect')";
   "div:contains('failed')"].

Definition isErrorText (text : jsstring) : bool :=
  truthy text
  && (includes text (js "Invalid") || includes text (js "incorrect")
      || includes text (js "failed")).

(** The [for] loop of [verifyLoginSuccess] over the error selectors. *)
Fixpoint checkErrors (selectors : list string) : M unit :=
  match selectors with
  | [] => ret tt
  | selector :: rest =>
      element <- page_query D selector ;;
      match element with
      | Some handle =>
          text <- lift (evaluate handle (fun el => Ok (textContent el))) ;;
          if isErrorText text
          then throw (String.append "Login failed: " (messageOf (trim text)))
          else checkErrors rest
      | None => checkErrors rest
      end
  end.

Definition successIndicators : list string :=
  [".usermenu"; ".user-menu"; "[data-region='user-menu']";
   "a[href*='logout']"; ".navbar .dropdown"].

Definition verifyLoginSuccess : M bool :=
  try_catch
    (act (drv_waitForTimeout D 2000) ;;;
     checkErrors errorSelectors ;;;
     stillOnLogin <- page_query D loginFormSelector ;;
     match stillOnLogin with
     | Some _ => throw "Login failed - still on login page"
     | None =>
         found <- anyPresent D successIndicators ;;
         if found then ret true else ret true
     end)
    (fun msg => throw (String.append "Login verification failed: " msg)).

Definition login : M bool :=
  try_catch
    (page_goto D (classUrl credentials) ;;;
     already <- isAlreadyLoggedIn ;;
     if already then ret true
     else
       loginUrl <- findLoginUrl ;;
       currentUrl <- page_url ;;
       (if truthy loginUrl && negb (jseqb loginUrl currentUrl)
        then page_goto D loginUrl else ret tt) ;;;
       csrfToken <- extractCSRFToken ;;
       performLogin D credentials csrfToken ;;;
       verifyLoginSuccess)
    (fun msg => throw (String.append "Authentication failed: " msg)).

Definition validateSession : M bool :=
  try_catch
    (page_goto D (classUrl credentials) ;;; isAlreadyLoggedIn)
    (fun _ => ret false).

End Auth.

End Auth.

(* ===================================================================== *)
(** ** Vocabulary of the further properties *)
(* ===================================================================== *)

(** The text begins with a digit. *)
Definition digit_next (s : jsstring) : bool :=
  match s with
  | c :: _ => is_digit c
  | [] => false
  end.





(** The three values of [completionStatus] in [extractZybookIntegration]. *)
Definition completionStatuses : list jsstring :=
  [js "Completed"; js "In Progress"; js "Not started"].


Section Outcomes.

Context {W : Type}.

(** A computation that resolves to the value [v] whenever it resolves. *)
Definition only_returns {A} (v : A) (m : M W A) : Prop :=
  forall s s' a, m s = (s', Ok a) -> a = v.

End Outcomes.

(** A course page that never shows its content: every action resolves but
    [waitForSelector], which times out. *)
Definition timeoutDriver : Driver unit :=
  mkDriver unit
    (fun w => (w, Ok tt)) (fun w => (w, Ok tt)) (fun w => (w, Ok tt))
    (fun w => (w, Ok tt))
    (fun _ w => (w, Ok tt))
    (fun _ => [])
    (fun _ => Ok [])
    (fun _ _ => Ok None)
    (fun _ _ => Ok [])
    (fun _ _ w => (w, Ok tt))
    (fun _ w => (w, Ok tt))
    (fun _ w => (w, Ok tt))
    (fun _ _ w => (w, Ok tt))
    (fun w => (w, Ok tt))
    (fun _ w => (w, Throw "TimeoutError: waiting for selector failed"))
    (fun _ w => (w, Ok tt)).

(** A page of a signed-in user: a user menu and no login form. *)
Definition signedInDriver : Driver unit :=
  scriptedDriver (fun selector => String.eqb selector ".usermenu") [] [].

(** A gradebook row with a grade cell and no maximum-grade cell. *)
Definition gradeOnlyRow (gradeText : jsstring) : Element :=
  mkElement [] [] [] [] []
    (fun selector =>
       if String.eqb selector ".grade, .points, .score"
          || String.eqb selector ".grade, .points, .percentage, .finalgrade"
       then Some (textElement gradeText)
       else None).

(** An element whose only descendant is [child], found by the selectors
    [selectors] and by no other. *)
Definition parentOf (selectors : list string) (child : Element) : Element :=
  mkElement [] [] [] [] []
    (fun selector =>
       if existsb (String.eqb selector) selectors then Some child else None).


(** An external-tool entry with the status text [text]. *)
Definition toolWithStatus (text : jsstring) : Element :=
  parentOf
    [".status, .completion-status, .completion-manual, .completion-auto"]
    (textElement text).

(* ===================================================================== *)
(** * Properties *)
(* ===================================================================== *)

(** ** Text cleaning *)

Section CleanText.

Lemma ws_space : is_ws 32%N = true.
Proof. reflexivity. Qed.

Lemma ws_newline : is_ws 10%N = true.
Proof. reflexivity. Qed.

Lemma ws_normal_collapse (s : jsstring) :
  forall b, ws_normal b (collapse_ws b s) = true.
Proof.
  induction s as [|c r IH]; intros b; simpl; [reflexivity|].
  destruct (is_ws c) eqn:Hc.
  - destruct b; simpl; apply IH.
  - simpl. rewrite Hc. apply IH.
Qed.

Lemma ws_normal_weaken (s : jsstring) :
  ws_normal true s = true -> ws_normal false s = true.
Proof.
  destruct s as [|c r]; simpl; [reflexivity|].
  destruct (is_ws c); [|auto].
  rewrite andb_false_r. discriminate.
Qed.

Lemma ws_normal_trimStart (s : jsstring) :
  forall b, ws_normal b s = true -> ws_normal true (trimStart s) = true.
Proof.
  induction s as [|c r IH]; intros b H; simpl in *; [reflexivity|].
  destruct (is_ws c) eqn:Hc.
  - apply andb_prop in H. destruct H as [_ H]. apply (IH true H).
  - simpl. rewrite Hc. exact H.
Qed.

Lemma ws_normal_trimEnd (s : jsstring) :
  forall b, ws_normal b s = true -> ws_normal b (trimEnd s) = true.
Proof.
  induction s as [|c r IH]; intros b H; simpl in *; [reflexivity|].
  destruct (is_ws c) eqn:Hc.
  - apply andb_prop in H. destruct H as [H1 H2].
    specialize (IH true H2).
    destruct (trimEnd r) as [|d r'] eqn:Hr; [reflexivity|].
    simpl in *. rewrite Hc, H1. exact IH.
  - specialize (IH false H).
    destruct (trimEnd r) as [|d r'] eqn:Hr.
    + simpl. rewrite Hc. reflexivity.
    + simpl in *. rewrite Hc. exact IH.
Qed.

Lemma last_is_ws_trimEnd (s : jsstring) : last_is_ws (trimEnd s) = false.
Proof.
  induction s as [|c r IH]; simpl; [reflexivity|].
  destruct (trimEnd r) as [|d r'] eqn:Hr.
  - destruct (is_ws c) eqn:Hc; simpl; [reflexivity | exact Hc].
  - exact IH.
Qed.

Lemma ws_normal_no_newline (s : jsstring) :
  forall b, ws_normal b s = true -> newlines_to_spaces s = s.
Proof.
  unfold newlines_to_spaces.
  induction s as [|c r IH]; intros b H; simpl in *; [reflexivity|].
  destruct (is_ws c) eqn:Hc.
  - apply andb_prop in H. destruct H as [H1 H2].
    apply andb_prop in H1. destruct H1 as [H1 _].
    apply N.eqb_eq in H1. subst c. simpl. f_equal. apply (IH true H2).
  - destruct (N.eqb_spec c 10) as [E|_].
    + subst c. rewrite ws_newline in Hc. discriminate.
    + f_equal. apply (IH false H).
Qed.

Lemma trimStart_fixed (s : jsstring) :
  ws_normal true s = true -> trimStart s = s.
Proof.
  destruct s as [|c r]; simpl; [reflexivity|].
  destruct (is_ws c); [|reflexivity].
  rewrite andb_false_r. discriminate.
Qed.

Lemma trimEnd_fixed (s : jsstring) :
  last_is_ws s = false -> trimEnd s = s.
Proof.
  induction s as [|c r IH]; intros H; simpl in *; [reflexivity|].
  destruct r as [|d r'].
  - simpl. rewrite H. reflexivity.
  - rewrite (IH H). reflexivity.
Qed.

Lemma collapse_fixed (s : jsstring) :
  forall b, ws_normal b s = true -> collapse_ws b s = s.
Proof.
  induction s as [|c r IH]; intros b H; simpl in *; [reflexivity|].
  destruct (is_ws c) eqn:Hc.
  - apply andb_prop in H. destruct H as [H1 H2].
    apply andb_prop in H1. destruct H1 as [H1 H3].
    apply N.eqb_eq in H1. subst c.
    destruct b; [discriminate|].
    f_equal. apply (IH true H2).
  - f_equal. apply (IH false H).
Qed.

(** The two later steps of [cleanText] find nothing left to do. *)
Lemma cleanText_strip_collapse (x : jsstring) :
  cleanText x = strip_ends (collapse_ws false x).
Proof.
  unfold cleanText, strip_ends, trim.
  set (t := trimEnd (trimStart (collapse_ws false x))).
  assert (Hn : ws_normal true t = true).
  { apply ws_normal_trimEnd.
    apply (ws_normal_trimStart _ false), ws_normal_collapse. }
  assert (Hl : last_is_ws t = false) by apply last_is_ws_trimEnd.
  rewrite (ws_normal_no_newline t true Hn).
  rewrite (trimStart_fixed t Hn). apply (trimEnd_fixed t Hl).
Qed.

Lemma cleanText_is_clean (x : jsstring) : is_clean (cleanText x) = true.
Proof.
  rewrite cleanText_strip_collapse. unfold is_clean, strip_ends.
  rewrite last_is_ws_trimEnd.
  rewrite ws_normal_trimEnd; [reflexivity|].
  apply (ws_normal_trimStart _ false), ws_normal_collapse.
Qed.

Lemma clean_fixed (t : jsstring) : is_clean t = true -> cleanText t = t.
Proof.
  unfold is_clean. intros H. apply andb_prop in H. destruct H as [Hn Hl].
  apply negb_true_iff in Hl.
  rewrite cleanText_strip_collapse. unfold strip_ends.
  rewrite (collapse_fixed t false (ws_normal_weaken t Hn)).
  rewrite (trimStart_fixed t Hn). apply (trimEnd_fixed t Hl).
Qed.

(** *** Words are kept *)

Lemma words_from_collapse (s : jsstring) :
  forall b cur, (b = true -> cur = []) ->
    words_from cur (collapse_ws b s) = words_from cur s.
Proof.
  induction s as [|c r IH]; intros b cur Hb; simpl; [reflexivity|].
  destruct (is_ws c) eqn:Hc.
  - destruct b.
    + rewrite (Hb eq_refl). apply IH. reflexivity.
    + simpl.
      destruct cur; rewrite (IH true []); reflexivity.
  - simpl. rewrite Hc. apply IH. discriminate.
Qed.

Lemma words_trimStart (s : jsstring) :
  words_from [] (trimStart s) = words_from [] s.
Proof.
  induction s as [|c r IH]; simpl; [reflexivity|].
  destruct (is_ws c) eqn:Hc; [exact IH|].
  simpl. rewrite Hc. reflexivity.
Qed.

Lemma trimEnd_nil_words (s : jsstring) :
  trimEnd s = [] -> forall cur, words_from cur s = words_from cur [].
Proof.
  induction s as [|c r IH]; intros H cur; [reflexivity|].
  simpl in H. destruct (trimEnd r) eqn:Hr; [|discriminate].
  destruct (is_ws c) eqn:Hc; [|discriminate].
  simpl. rewrite Hc. destruct cur; rewrite (IH eq_refl); reflexivity.
Qed.

Lemma words_trimEnd (s : jsstring) :
  forall cur, words_from cur (trimEnd s) = words_from cur s.
Proof.
  induction s as [|c r IH]; intros cur; [reflexivity|].
  simpl. destruct (trimEnd r) as [|d r'] eqn:Hr.
  - pose proof (trimEnd_nil_words r Hr) as Hw.
    destruct (is_ws c) eqn:Hc.
    + destruct cur; rewrite Hw; reflexivity.
    + simpl. rewrite Hc, Hw. reflexivity.
  - change (words_from cur (c :: d :: r')) with
      (if is_ws c
       then match cur with
            | [] => words_from [] (d :: r')
            | _ => cur :: words_from [] (d :: r')
            end
       else words_from (cur ++ [c]) (d :: r')).
    destruct (is_ws c); [destruct cur|]; rewrite IH; reflexivity.
Qed.

Lemma cleanText_words (x : jsstring) : words (cleanText x) = words x.
Proof.
  rewrite cleanText_strip_collapse. unfold words, strip_ends.
  rewrite words_trimEnd, words_trimStart.
  apply words_from_collapse. discriminate.
Qed.

(** *** A clean text is its words joined by single spaces *)

Lemma words_from_nonempty (s : jsstring) :
  forall cur c, is_ws c = false -> words_from cur (c :: s) <> [].
Proof.
  induction s as [|d r IH]; intros cur c Hc; simpl; rewrite Hc.
  - destruct cur; discriminate.
  - destruct (is_ws d) eqn:Hd.
    + destruct cur; discriminate.
    + specialize (IH (cur ++ [c]) d Hd). simpl in IH. rewrite Hd in IH.
      exact IH.
Qed.

Lemma unwords_words_from (s : jsstring) :
  forall b cur,
    ws_normal b s = true -> last_is_ws s = false ->
    (cur = [] -> b = true) ->
    unwords (words_from cur s) = cur ++ s.
Proof.
  induction s as [|c r IH]; intros b cur Hn Hl Hcur.
  - simpl. rewrite app_nil_r. destruct cur; reflexivity.
  - simpl in Hn. simpl words_from. destruct (is_ws c) eqn:Hc.
    + apply andb_prop in Hn. destruct Hn as [H1 H2].
      apply andb_prop in H1. destruct H1 as [H1 H3].
      apply N.eqb_eq in H1. subst c.
      destruct b; [discriminate|].
      destruct cur as [|a cur']; [specialize (Hcur eq_refl); discriminate|].
      destruct r as [|d r']; [simpl in Hl; discriminate|].
      assert (Hd : is_ws d = false).
      { simpl in H2. destruct (is_ws d); [|reflexivity].
        rewrite andb_false_r in H2. discriminate. }
      pose proof (words_from_nonempty r' [] d Hd) as Hne.
      specialize (IH true [] H2 Hl (fun _ => eq_refl)).
      destruct (words_from [] (d :: r')) as [|w ws] eqn:Hw; [contradiction|].
      change (unwords ((a :: cur') :: w :: ws))
        with ((a :: cur') ++ 32%N :: unwords (w :: ws)).
      rewrite IH. reflexivity.
    + assert (Hl' : last_is_ws r = false).
      { destruct r; [reflexivity | exact Hl]. }
      rewrite (IH false (cur ++ [c]) Hn Hl').
      * rewrite <- app_assoc. reflexivity.
      * intros E. destruct cur; discriminate.
Qed.

Lemma clean_unwords (t : jsstring) :
  is_clean t = true -> t = unwords (words t).
Proof.
  unfold is_clean, words. intros H. apply andb_prop in H.
  destruct H as [Hn Hl]. apply negb_true_iff in Hl.
  symmetry. apply (unwords_words_from t true [] Hn Hl). reflexivity.
Qed.

(** C9.  [cleanText] is idempotent; its result is clean (every whitespace
    character of it is a single space between two words, and it neither
    begins nor ends with whitespace); it has the words of the input, and is
    those words joined by single spaces. *)
Theorem cleanText_idempotent_collapses (x : jsstring) :
  cleanText (cleanText x) = cleanText x
  /\ is_clean (cleanText x) = true
  /\ words (cleanText x) = words x
  /\ cleanText x = unwords (words x).
Proof.
  pose proof (cleanText_is_clean x) as Hc.
  repeat split.
  - apply clean_fixed, Hc.
  - exact Hc.
  - apply cleanText_words.
  - rewrite <- cleanText_words. apply clean_unwords, Hc.
Qed.

End CleanText.

(** ** Date parsing *)

Section ParseDate.

Variable newDate : jsstring -> Date.

Lemma parseDate_loop_valid (patterns : list regex) (dateText : jsstring)
    (d : Date) :
  parseDate_loop newDate patterns dateText = Some d -> isInvalid d = false.
Proof.
  induction patterns as [|p rest IH]; simpl; [discriminate|].
  destruct (jsmatch p dateText) as [m|]; [|exact IH].
  destruct (isInvalid (newDate (capture m 1))) eqn:Hv; simpl; [exact IH|].
  intros E. injection E as <-. exact Hv.
Qed.

Lemma parseDate_loop_unmatched (patterns : list regex) (dateText : jsstring) :
  Forall (fun p => jsmatch p dateText = None) patterns ->
  parseDate_loop newDate patterns dateText = None.
Proof.
  induction 1 as [|p rest Hp _ IH]; simpl; [reflexivity|].
  rewrite Hp. exact IH.
Qed.

(** What holds of [parseDate] whatever the runtime's [Date] does: a
    returned date is never the invalid date; the empty text, and a text
    that no pattern matches, give [null]. *)
Lemma parseDate_null_or_valid (dateText : jsstring) :
  (forall d, parseDate newDate dateText = Some d -> isInvalid d = false)
  /\ parseDate newDate [] = None
  /\ (Forall (fun p => jsmatch p dateText = None) datePatterns ->
      parseDate newDate dateText = None).
Proof.
  unfold parseDate. repeat split.
  - destruct (truthy dateText); cbn [negb]; [|discriminate].
    apply parseDate_loop_valid.
  - intros H. destruct (truthy dateText); cbn [negb]; [|reflexivity].
    apply parseDate_loop_unmatched, H.
Qed.

(** C1.  The text "2/29/2023" names no day of the calendar, and
    [parseDate] returns for it whatever instant the runtime's [Date] makes
    of it: a runtime that rolls the day over (V8 answers 1 March 2023) gets
    that date back, not [null]. *)
Theorem parseDate_calendar_overflow_returned (t : Z) :
  newDate (js "2/29/2023") = mkDate (Ms t) ->
  parseDate newDate (js "2/29/2023") = Some (mkDate (Ms t)).
Proof.
  intros H. unfold parseDate, datePatterns.
  change (truthy (js "2/29/2023")) with true. cbn [negb parseDate_loop].
  replace (jsmatch re_numeric_date (js "2/29/2023"))
    with (Some (mkMatch (js "2/29/2023") [js "2/29/2023"]))
    by (vm_compute; reflexivity).
  change (capture (mkMatch (js "2/29/2023") [js "2/29/2023"]) 1)
    with (js "2/29/2023").
  rewrite H. reflexivity.
Qed.

End ParseDate.

(** The instant V8 makes of "2/29/2023" in UTC: 2023-03-01T00:00:00Z. *)
Lemma parseDate_calendar_overflow_witness :
  parseDate (fun _ => mkDate (Ms 1677628800000)) (js "2/29/2023")
  = Some (mkDate (Ms 1677628800000)).
Proof.
  apply (parseDate_calendar_overflow_returned
           (fun _ => mkDate (Ms 1677628800000)) 1677628800000).
  reflexivity.
Defined.

(** ** Grades *)

Section Percentage.

Variable newDate : jsstring -> Date.

Lemma extractGradeData_percentage (el : Element) (data : GradeData) :
  extractGradeData_callback newDate el = Ok data ->
  gd_percentage data =
    if (0 <? maxGradeValueOf (gd_maxGrade data))%float
    then Some (gradeValueOf (gd_grade data)
               / maxGradeValueOf (gd_maxGrade data) * 100)%float
    else None.
Proof.
  unfold extractGradeData_callback.
  match goal with
  | |- match ?d with _ => _ end = _ -> _ => destruct d; [|discriminate]
  end.
  intros E. injection E as <-. reflexivity.
Qed.

Lemma extractGrade_percentage (el : Element) :
  let data := extractGrade_callback newDate el in
  gd_percentage data =
    Some (if (0 <? maxGradeValueOf (gd_maxGrade data))%float
          then (gradeValueOf (gd_grade data)
                / maxGradeValueOf (gd_maxGrade data) * 100)%float
          else 0%float).
Proof. reflexivity. Qed.

(** C2, as amended.  In [extractGradeData] the percentage is [null] when
    the first number of the maximum-grade text is not above zero, zero
    included; when that text holds no number the denominator is 100 and the
    percentage is a number; a percentage that is not [null] is the ratio
    over a denominator above zero.  In [extractGrade] a denominator above
    zero gives the same ratio. *)
Theorem percentage_division_guarded (el : Element) (data : GradeData) :
  extractGradeData_callback newDate el = Ok data ->
  let grade := gradeValueOf (gd_grade data) in
  let maxGrade := maxGradeValueOf (gd_maxGrade data) in
  (forall v, numberIn (gd_maxGrade data) = Some v ->
             (0 <? v)%float = false -> gd_percentage data = None)
  /\ (numberIn (gd_maxGrade data) = Some 0%float ->
      gd_percentage data = None)
  /\ (numberIn (gd_maxGrade data) = None ->
      gd_percentage data = Some (grade / 100 * 100)%float)
  /\ (forall p, gd_percentage data = Some p ->
        (0 <? maxGrade)%float = true /\ p = (grade / maxGrade * 100)%float)
  /\ (let data' := extractGrade_callback newDate el in
      (0 <? maxGradeValueOf (gd_maxGrade data'))%float = true ->
      gd_percentage data'
      = Some (gradeValueOf (gd_grade data')
              / maxGradeValueOf (gd_maxGrade data') * 100)%float).
Proof.
  intros Hd grade maxGrade.
  pose proof (extractGradeData_percentage el data Hd) as Hp.
  fold grade maxGrade in Hp.
  repeat split.
  - intros v Hv Hle. rewrite Hp. unfold maxGrade, maxGradeValueOf.
    rewrite Hv, Hle. reflexivity.
  - intros Hv. rewrite Hp. unfold maxGrade, maxGradeValueOf.
    rewrite Hv. reflexivity.
  - intros Hv. rewrite Hp. unfold maxGrade, maxGradeValueOf.
    rewrite Hv. reflexivity.
  - rewrite Hp in H. destruct (0 <? maxGrade)%float; [reflexivity|discriminate].
  - rewrite Hp in H.
    destruct (0 <? maxGrade)%float; [|discriminate].
    injection H as <-. reflexivity.
  - cbv zeta. intros Hpos. rewrite extractGrade_percentage. cbv zeta.
    rewrite Hpos. reflexivity.
Qed.

End Percentage.

Lemma percentage_division_guarded_witness :
  exists data,
    extractGradeData_callback noDate (gradeRow (js "7") (js "0")) = Ok data
    /\ numberIn (gd_maxGrade data) = Some 0%float
    /\ gd_percentage data = None.
Proof.
  assert (H : extractGradeData_callback noDate (gradeRow (js "7") (js "0"))
              = Ok (mkGradeData (Some (js "Unknown Item")) (js "7") (js "0")
                      None None None))
    by (vm_compute; reflexivity).
  eexists. split; [exact H|].
  assert (Hz : numberIn (js "0") = Some 0%float) by (vm_compute; reflexivity).
  split; [exact Hz|].
  exact (proj1 (proj2 (percentage_division_guarded noDate _ _ H)) Hz).
Defined.

(** C2, the claim as stated fails: with a maximum-grade text that holds no
    number the percentage is a number, in both extractors; and a grade
    beyond the range of binary64 gives the percentage [Infinity]. *)
Lemma percentage_unparsed_maxGrade_counterexample :
  numberIn (js "Pass/Fail") = None
  /\ option_map g_percentage
       (extractGradeData noDate (Live (gradeRow (js "50") (js "Pass/Fail"))))
     = Some (Some 50%float)
  /\ option_map g_percentage
       (extractGrade noDate (Live (gradeRow (js "50") (js "Pass/Fail"))))
     = Some (Some 50%float)
  /\ option_map g_percentage
       (extractGradeData noDate (Live (gradeRow hugeGradeText (js "1"))))
     = Some (Some infinity).
Proof. repeat split; vm_compute; reflexivity. Qed.

(** In [extractGrade] a maximum grade of zero gives the percentage 0 where
    [extractGradeData] gives [null]. *)
Lemma extractGrade_zero_maxGrade :
  option_map g_percentage
    (extractGrade noDate (Live (gradeRow (js "100") (js "0"))))
  = Some (Some 0%float)
  /\ option_map g_percentage
       (extractGradeData noDate (Live (gradeRow (js "100") (js "0"))))
     = Some None.
Proof. split; vm_compute; reflexivity. Qed.

(** ** Defaults *)

(** C3.  On an element with no content [extractGrade] leaves the item name
    [null] and [extractZybookIntegration] leaves the title empty, and
    [extractFileData] leaves the type empty; the other fields, and the
    sibling extractors, hold the defaults. *)
Theorem extractors_on_empty_element (newDate : jsstring -> Date)
    (mathRandom : jsstring) :
  option_map g_itemName (extractGrade newDate (Live emptyElement))
  = Some None
  /\ option_map z_title
       (extractZybookIntegration newDate (Live emptyElement))
     = Some []
  /\ option_map f_type (extractFileData (Live emptyElement)) = Some []
  /\ option_map g_itemName (extractGradeData newDate (Live emptyElement))
     = Some (Some (js "Unknown Item"))
  /\ option_map z_title (extractZybookData newDate (Live emptyElement))
     = Some (js "Zybook Activity")
  /\ option_map z_completionStatus
       (extractZybookIntegration newDate (Live emptyElement))
     = Some (js "Not started")
  /\ option_map f_type (extractFile (Live emptyElement))
     = Some (js "unknown")
  /\ option_map a_title
       (extractAssignment newDate mathRandom (Live emptyElement))
     = Some (js "Unknown Assignment").
Proof. repeat split. Qed.

(** ** File types *)

(** C8.  A link to "https://test.com/file", with no type field and no
    icon: the type is the text after the last dot of the URL, "com/file",
    in both extractors; and an extension outside any vocabulary is kept as
    it is. *)
Theorem file_type_of_url_without_extension :
  option_map f_type (extractFile (Live (fileLink (js "https://test.com/file"))))
  = Some (js "com/file")
  /\ option_map f_type
       (extractFileData (Live (fileLink (js "https://test.com/file"))))
     = Some (js "com/file")
  /\ option_map f_type
       (extractFile (Live (fileLink (js "https://test.com/notes.XYZ"))))
     = Some (js "xyz").
Proof. repeat split; vm_compute; reflexivity. Qed.

(** ** The monad and the reads of the page *)

Section ScraperProperties.

Context {W : Type} (D : Driver W).
Variable newDate : jsstring -> Date.
Variable mathRandom : jsstring.
Variable credentials : MoodleCredentials.

Lemma firstPresent_read (selectors : list string) (s : St W) :
  firstPresent D selectors s = (s, firstPresentIn D (world s) selectors).
Proof.
  induction selectors as [|sel rest IH]; simpl; [reflexivity|].
  unfold bind, page_query, read.
  destruct (drv_query D sel (world s)) as [[h|]|msg]; auto.
Qed.

Lemma anyPresent_read (selectors : list string) (s : St W) :
  anyPresent D selectors s = (s, anyPresentIn D (world s) selectors).
Proof.
  induction selectors as [|sel rest IH]; simpl; [reflexivity|].
  unfold bind, page_query, read.
  destruct (drv_query D sel (world s)) as [[h|]|msg]; auto.
Qed.

Lemma firstPresentIn_member (w : W) (selectors : list string) (e : string) :
  firstPresentIn D w selectors = Ok (Some e) -> In e selectors.
Proof.
  induction selectors as [|sel rest IH]; simpl; [discriminate|].
  destruct (drv_query D sel w) as [[h|]|msg]; try discriminate.
  - intros E. injection E as <-. left. reflexivity.
  - intros E. right. exact (IH E).
Qed.

Lemma noneFound_spec (selectors : list string) (s : St W) :
  exists r,
    noneFound D selectors s = (s, r)
    /\ (r = Ok true <->
        Forall (fun sel => drv_query D sel (world s) = Ok None) selectors).
Proof.
  induction selectors as [|sel rest IH]; simpl.
  - exists (Ok true). split; [reflexivity|]. split; auto.
  - unfold bind, page_query, read.
    destruct (drv_query D sel (world s)) as [[h|]|msg] eqn:Hq.
    + exists (Ok false). split; [reflexivity|].
      split; [discriminate|]. intros H. inversion H. congruence.
    + destruct IH as [r [Hr Hiff]]. exists r. split; [exact Hr|].
      rewrite Hiff. split.
      * intros H. constructor; assumption.
      * intros H. inversion H. assumption.
    + exists (Throw msg). split; [reflexivity|].
      split; [discriminate|]. intros H. inversion H. congruence.
Qed.

(** ** Session validity *)

(** C10.  [isSessionValid] never throws.  Without a page it answers
    [false] and touches nothing.  It answers [true] exactly when there is a
    page, the navigation to the class URL resolves, and each of the four
    lookups of a login indicator resolves to no element.  So a rejected
    navigation, a rejected lookup and an indicator that is found each give
    [false]. *)
Theorem isSessionValid_never_throws (s : St W) :
  exists s' b,
    isSessionValid D credentials s = (s', Ok b)
    /\ (page s = None -> s' = s /\ b = false)
    /\ (b = true <->
        page s <> None
        /\ exists w',
             drv_goto D (classUrl credentials) (world s) = (w', Ok tt)
             /\ Forall (fun sel => drv_query D sel w' = Ok None)
                  loginIndicators)
    /\ (forall w' msg,
          drv_goto D (classUrl credentials) (world s) = (w', Throw msg) ->
          b = false)
    /\ (forall w' sel,
          drv_goto D (classUrl credentials) (world s) = (w', Ok tt) ->
          In sel loginIndicators ->
          drv_query D sel w' <> Ok None ->
          b = false).
Proof.
  assert (Hmain : exists s' b,
    isSessionValid D credentials s = (s', Ok b)
    /\ (page s = None -> s' = s /\ b = false)
    /\ (b = true <->
        page s <> None
        /\ exists w',
             drv_goto D (classUrl credentials) (world s) = (w', Ok tt)
             /\ Forall (fun sel => drv_query D sel w' = Ok None)
                  loginIndicators)).
  { unfold isSessionValid. destruct (page s) as [p|] eqn:Hp.
    - cbv beta iota zeta delta [try_catch bind page_goto log act ret].
      cbn [world browser page launched live trace].
      destruct (drv_goto D (classUrl credentials) (world s))
        as [w' [[]|msg]] eqn:Hg.
      + match goal with
        | |- context [noneFound D loginIndicators ?s1] =>
            destruct (noneFound_spec loginIndicators s1) as [r [Hr Hiff]];
            rewrite Hr
        end.
        cbn [world] in Hiff.
        destruct r as [b|msg].
        * eexists _, b. split; [reflexivity|]. split; [discriminate|].
          split.
          -- intros ->. split; [discriminate|]. exists w'.
             split; [reflexivity|]. apply Hiff. reflexivity.
          -- intros [_ [w'' [E HF]]]. injection E as <-.
             apply Hiff in HF. injection HF as ->. reflexivity.
        * eexists _, false. split; [reflexivity|]. split; [discriminate|].
          split; [discriminate|].
          intros [_ [w'' [E HF]]]. injection E as <-.
          apply Hiff in HF. discriminate.
      + eexists _, false. split; [reflexivity|]. split; [discriminate|].
        split; [discriminate|].
        intros [_ [w'' [E _]]]. discriminate.
    - exists s, false. split; [reflexivity|]. split; [auto|].
      split; [discriminate|]. intros [H _]. contradiction. }
  destruct Hmain as (s' & b & Hrun & Hnone & Hiff).
  exists s', b.
  split; [exact Hrun|]. split; [exact Hnone|]. split; [exact Hiff|]. split.
  - intros w' msg Hg. destruct b; [|reflexivity].
    destruct (proj1 Hiff eq_refl) as [_ [w'' [E _]]].
    rewrite Hg in E. discriminate.
  - intros w' sel Hg Hin Hq. destruct b; [|reflexivity].
    destruct (proj1 Hiff eq_refl) as [_ [w'' [E HF]]].
    rewrite Hg in E. injection E as <-.
    rewrite Forall_forall in HF. elim Hq. apply HF, Hin.
Qed.

(** ** Enumeration of elements *)

Lemma extractEach_successes {A} (extract : ElementHandle -> option A)
    (elements : list ElementHandle) :
  forall acc,
    extractEach (fun e => Ok (extract e)) elements acc
    = acc ++ successes extract elements.
Proof.
  induction elements as [|e rest IH]; intros acc; simpl.
  - rewrite app_nil_r. reflexivity.
  - destruct (extract e) as [a|].
    + rewrite IH, <- app_assoc. reflexivity.
    + apply IH.
Qed.

Lemma successes_app {A} (extract : ElementHandle -> option A)
    (l1 l2 : list ElementHandle) :
  successes extract (l1 ++ l2) = successes extract l1 ++ successes extract l2.
Proof. unfold successes. apply flat_map_app. Qed.

Lemma successes_detached {A} (extract : ElementHandle -> option A)
    (elements : list ElementHandle) :
  (forall reason, extract (Detached reason) = None) ->
  forallb is_detached elements = true ->
  successes extract elements = [].
Proof.
  intros Hd. induction elements as [|e rest IH]; simpl; [reflexivity|].
  intros H. apply andb_prop in H. destruct H as [He Hr].
  destruct e as [el|reason]; [discriminate|].
  rewrite Hd. simpl. exact (IH Hr).
Qed.

Lemma try_catch_default_ok {A} (m : M W A) (a : A) (s : St W) :
  is_ok (snd (try_catch m (fun _ => ret a) s)) = true.
Proof.
  unfold try_catch, ret. destruct (m s) as [s' [x|msg]]; reflexivity.
Qed.

Lemma scrapeAssignments_result (s : St W) (p : nat) :
  page s = Some p ->
  scrapeAssignments D newDate mathRandom s
  = (s, Ok match drv_queryAll D
                   "a[href*='assign'], a[href*='assignment'], .activity.assign"
                   (world s) with
           | Ok elements =>
               successes (extractAssignmentData newDate mathRandom) elements
           | Throw _ => []
           end).
Proof.
  intros Hp. unfold scrapeAssignments, requirePage. rewrite Hp.
  unfold try_catch, bind, read, ret.
  destruct (drv_queryAll D _ (world s)) as [elements|msg]; [|reflexivity].
  rewrite extractEach_successes. reflexivity.
Qed.

(** C5.  With a page, [scrapeAssignments] returns a list and never an
    error: the records of the elements whose extraction succeeded, in
    order.  Extraction of an element whose access throws is [null]; such an
    element is skipped and the elements after it are still extracted; when
    every element fails, or there is none, the list is empty.  The three
    other [scrape] methods never throw either. *)
Theorem scrape_skips_failed_elements (s : St W) (p : nat) :
  page s = Some p ->
  let selector :=
    "a[href*='assign'], a[href*='assignment'], .activity.assign" in
  let extract := extractAssignmentData newDate mathRandom in
  let scrape := scrapeAssignments D newDate mathRandom in
  (exists l, scrape s = (s, Ok l))
  /\ (forall reason,
        extract (Detached reason) = None
        /\ extractAssignment newDate mathRandom (Detached reason) = None)
  /\ (forall elements,
        drv_queryAll D selector (world s) = Ok elements ->
        scrape s = (s, Ok (successes extract elements)))
  /\ (forall before reason after,
        drv_queryAll D selector (world s)
        = Ok (before ++ Detached reason :: after) ->
        scrape s
        = (s, Ok (successes extract before ++ successes extract after)))
  /\ (forall elements,
        drv_queryAll D selector (world s) = Ok elements ->
        forallb is_detached elements = true ->
        scrape s = (s, Ok []))
  /\ (drv_queryAll D selector (world s) = Ok [] -> scrape s = (s, Ok []))
  /\ is_ok (snd (scrapeGrades D newDate s)) = true
  /\ is_ok (snd (scrapeFiles D s)) = true
  /\ is_ok (snd (scrapeZybookIntegrations D newDate s)) = true.
Proof.
  intros Hp selector extract scrape.
  pose proof (scrapeAssignments_result s p Hp) as Hr.
  fold selector extract scrape in Hr.
  repeat split.
  - eexists. exact Hr.
  - intros elements Hq. rewrite Hr, Hq. reflexivity.
  - intros before reason after Hq. rewrite Hr, Hq, successes_app.
    reflexivity.
  - intros elements Hq Hall. rewrite Hr, Hq.
    rewrite (successes_detached extract elements); [reflexivity| |exact Hall].
    reflexivity.
  - intros Hq. rewrite Hr, Hq. reflexivity.
  - unfold scrapeGrades, requirePage. rewrite Hp. apply try_catch_default_ok.
  - unfold scrapeFiles, requirePage. rewrite Hp. apply try_catch_default_ok.
  - unfold scrapeZybookIntegrations, requirePage. rewrite Hp.
    apply try_catch_default_ok.
Qed.

End ScraperProperties.

(** A course page listing a detached element and then a live one: the
    first is skipped, the second is extracted. *)
Lemma scrape_skips_failed_elements_witness :
  page initializedScraper = Some 0
  /\ scrapeAssignments listingDriver noDate (js "0.42") initializedScraper
     = (initializedScraper,
        Ok [mkAssignment (js "0.42") (js "Unknown Assignment") [] None
              not_submitted 0%float None []]).
Proof.
  split; [reflexivity|].
  exact (proj1 (proj2 (proj2 (proj2
           (scrape_skips_failed_elements listingDriver noDate (js "0.42")
              initializedScraper 0 eq_refl))))
           [] "Element not attached to DOM" [Live emptyElement] eq_refl).
Defined.

(** ** The fields of the scraper object *)

Section Lifecycle.

Context {W : Type} (D : Driver W).
Variable newDate : jsstring -> Date.
Variable mathRandom : jsstring.
Variable credentials : MoodleCredentials.

Lemma same_object_refl (s : St W) : same_object s s.
Proof. repeat split. Qed.

Lemma same_object_trans (s1 s2 s3 : St W) :
  same_object s1 s2 -> same_object s2 s3 -> same_object s1 s3.
Proof.
  unfold same_object. intros (a & b & c & d) (e & f & g & h).
  repeat split; congruence.
Qed.

Lemma keeps_ret {A} (a : A) : keeps_object (ret (W:=W) a).
Proof.
  intros s s' r E. unfold ret in E. injection E as <- _.
  apply same_object_refl.
Qed.

Lemma keeps_throw {A} (msg : string) : keeps_object (throw (W:=W) (A:=A) msg).
Proof.
  intros s s' r E. unfold throw in E. injection E as <- _.
  apply same_object_refl.
Qed.

Lemma keeps_log (a : Action) : keeps_object (log (W:=W) a).
Proof.
  intros s s' r E. unfold log in E. injection E as <- _. repeat split.
Qed.

Lemma keeps_act (f : W -> W * Result unit) : keeps_object (act f).
Proof.
  intros s s' r. unfold act. destruct (f (world s)) as [w' r'].
  intros E. injection E as <- _. repeat split.
Qed.

Lemma keeps_read {A} (f : W -> Result A) : keeps_object (read f).
Proof.
  intros s s' r E. unfold read in E. injection E as <- _.
  apply same_object_refl.
Qed.

Lemma keeps_bind {A B} (m : M W A) (k : A -> M W B) :
  keeps_object m -> (forall a, keeps_object (k a)) -> keeps_object (bind m k).
Proof.
  intros Hm Hk s s' r. unfold bind.
  destruct (m s) as [s1 [a|msg]] eqn:E1; intros E.
  - eapply same_object_trans; [eapply Hm, E1 | eapply Hk, E].
  - injection E as <- _. eapply Hm, E1.
Qed.

Lemma keeps_try_catch {A} (m : M W A) (h : string -> M W A) :
  keeps_object m -> (forall msg, keeps_object (h msg)) ->
  keeps_object (try_catch m h).
Proof.
  intros Hm Hh s s' r. unfold try_catch.
  destruct (m s) as [s1 [a|msg]] eqn:E1; intros E.
  - injection E as <- _. eapply Hm, E1.
  - eapply same_object_trans; [eapply Hm, E1 | eapply Hh, E].
Qed.

Lemma keeps_requirePage {A} (m : M W A) :
  keeps_object m -> keeps_object (requirePage m).
Proof.
  intros Hm s s' r. unfold requirePage. destruct (page s).
  - apply Hm.
  - apply keeps_throw.
Qed.

Lemma keeps_firstPresent (selectors : list string) :
  keeps_object (firstPresent D selectors).
Proof.
  intros s s' r. rewrite firstPresent_read. intros E. injection E as <- _.
  apply same_object_refl.
Qed.

(** Applies the lemmas above along the structure of a method. *)
Ltac keeps :=
  repeat first
    [ apply keeps_ret | apply keeps_throw | apply keeps_log
    | apply keeps_act | apply keeps_read | apply keeps_firstPresent
    | apply keeps_requirePage
    | apply keeps_bind; [|intros ?]
    | apply keeps_try_catch; [|intros ?]
    | match goal with
      | |- keeps_object (if ?c then _ else _) => destruct c
      | |- keeps_object (match ?x with _ => _ end) => destruct x
      end ].

(** [login] neither closes nor replaces the browser: it only acts on the
    page. *)
Lemma login_keeps_object : keeps_object (login D credentials).
Proof.
  unfold login, findLoginSelector, findPasswordSelector, findLoginButton,
    orThrow, click_and_wait, verifyLogin, page_goto, page_type, page_click.
  keeps.
Qed.

Lemma initialize_adopts (s s1 : St W) :
  initialize D s = (s1, Ok tt) ->
  browser s1 = Some (launched s) /\ page s1 = Some (launched s)
  /\ live s1 = launched s :: live s.
Proof.
  cbv beta iota zeta delta [initialize bind act adopt_browser set_page].
  cbn [world browser page launched live trace].
  destruct (drv_launch D (world s)) as [w1 [[]|m1]]; cbv beta iota;
    [|discriminate].
  cbn [world browser page launched live trace].
  destruct (drv_newPage D w1) as [w2 [[]|m2]]; cbv beta iota;
    [|discriminate].
  cbn [world browser page launched live trace].
  destruct (drv_setViewport D w2) as [w3 [[]|m3]]; cbv beta iota;
    [|discriminate].
  intros E. injection E as <-. repeat split.
Qed.

(** [close] with a browser held: when the browser closes, the fields are
    cleared and the browser is no longer open; when [browser.close]
    rejects, [close] rejects with it and keeps the fields. *)
Lemma close_outcomes (s : St W) (b : nat) (w' : W) :
  browser s = Some b ->
  (drv_browserClose D (world s) = (w', Ok tt) ->
   close D s
   = (mkSt w' None None (launched s) (List.remove Nat.eq_dec b (live s))
        (AClose b :: trace s), Ok tt))
  /\ (forall msg,
        drv_browserClose D (world s) = (w', Throw msg) ->
        close D s = (with_world s w', Throw msg)).
Proof.
  intros Hb. unfold close. rewrite Hb.
  cbv beta iota zeta delta [bind act forget_browser].
  split.
  - intros ->. reflexivity.
  - intros msg ->. reflexivity.
Qed.

(** C4.  When [initialize] succeeds and [login] throws, [scrapeAll] ends
    with that error and never reaches its [close]: the scraper still holds
    the browser it launched, and that browser is still open when control
    returns to the caller. *)
Theorem scrapeAll_leaves_browser_open (s s1 s2 : St W) (msg : string) :
  initialize D s = (s1, Ok tt) ->
  login D credentials s1 = (s2, Throw msg) ->
  scrapeAll D newDate mathRandom credentials s = (s2, Throw msg)
  /\ browser s2 = Some (launched s)
  /\ In (launched s) (live s2).
Proof.
  intros Hi Hl.
  destruct (initialize_adopts s s1 Hi) as (Hb & _ & Hlive).
  destruct (login_keeps_object s1 s2 _ Hl) as (Hb2 & _ & _ & Hlive2).
  split; [|split].
  - unfold scrapeAll. unfold bind at 1. rewrite Hi.
    unfold bind at 1. rewrite Hl. reflexivity.
  - congruence.
  - rewrite Hlive2, Hlive. left. reflexivity.
Qed.

End Lifecycle.

(** [initializedScraper] is the scraper object that [initialize] makes. *)
Lemma initialize_newScraper :
  initialize blankDriver (newScraper tt) = (initializedScraper, Ok tt).
Proof. reflexivity. Qed.

(** On a blank page: the browser launched by [scrapeAll] is left open. *)
Lemma scrapeAll_leaves_browser_open_witness :
  exists s2 msg,
    scrapeAll blankDriver noDate [] sampleCredentials (newScraper tt)
    = (s2, Throw msg)
    /\ browser s2 = Some 0 /\ In 0 (live s2).
Proof.
  eexists _, _.
  refine (scrapeAll_leaves_browser_open blankDriver noDate []
            sampleCredentials (newScraper tt) _ _ _ _ _).
  - vm_compute. reflexivity.
  - vm_compute. reflexivity.
Defined.

(** [scrapeMoodle] closes the browser in its [finally], and so does what
    [scrapeAll] alone does not, when the first [login] throws; when the
    whole run succeeds, the browser of its own [initialize] is left open,
    since [scrapeAll] launches a second one and only that one is closed. *)
Lemma scrapeMoodle_browsers :
  (let (s', r) :=
     scrapeMoodle blankDriver noDate [] sampleCredentials (newScraper tt) in
   (is_ok r, browser s', live s')) = (false, None, [])
  /\ (let (s', r) :=
        scrapeMoodle loginPageDriver noDate [] sampleCredentials
          (newScraper tt) in
      (is_ok r, browser s', live s')) = (true, None, [0]).
Proof. split; vm_compute; reflexivity. Qed.

(** ** Login *)

Section Login.

Context {W : Type} (D : Driver W).
Variable credentials : MoodleCredentials.

Lemma loginSelectors_not_empty (e : string) :
  In e loginSelectors -> String.eqb e "" = false.
Proof.
  unfold loginSelectors. simpl.
  intros H. repeat (destruct H as [<-|H]; [reflexivity|]). contradiction.
Qed.

Lemma passwordSelectors_not_empty (e : string) :
  In e passwordSelectors -> String.eqb e "" = false.
Proof.
  unfold passwordSelectors. simpl.
  intros H. repeat (destruct H as [<-|H]; [reflexivity|]). contradiction.
Qed.

(** Unfolds the monad and the page operations of a method. *)
Ltac run :=
  cbv beta iota zeta delta
    [requirePage try_catch bind page_goto page_type page_click page_query
     log act ret throw read orThrow click_and_wait];
  cbn [world browser page launched live trace].

(** C6.  [MoodleScraper.login] on a page that has the two fields and no
    submit control: the navigation resolves, both fields are found and
    typed into, and only then the search for the submit control fails.
    The method throws, and both credentials were typed by then. *)
Theorem login_types_before_resolving_submit (s : St W) (p : nat)
    (w1 w2 w3 : W) (e pw : string) :
  page s = Some p ->
  drv_goto D (classUrl credentials) (world s) = (w1, Ok tt) ->
  firstPresentIn D w1 loginSelectors = Ok (Some e) ->
  firstPresentIn D w1 passwordSelectors = Ok (Some pw) ->
  drv_type D e (email credentials) w1 = (w2, Ok tt) ->
  drv_type D pw (password credentials) w2 = (w3, Ok tt) ->
  firstPresentIn D w3 loginButtonSelectors = Ok None ->
  login D credentials s
  = (with_actions s w3
       [AGoto (classUrl credentials); AType e (email credentials);
        AType pw (password credentials)],
     Throw "Login failed: Could not find login button").
Proof.
  intros Hp Hg He Hpw Ht1 Ht2 Hb.
  pose proof (loginSelectors_not_empty e (firstPresentIn_member D _ _ _ He))
    as Hne.
  pose proof (passwordSelectors_not_empty pw
                (firstPresentIn_member D _ _ _ Hpw)) as Hnpw.
  unfold login, findLoginSelector, findPasswordSelector, findLoginButton.
  run. rewrite Hp, Hg. cbv beta iota.
  rewrite firstPresent_read. cbn [world]. rewrite He. cbv beta iota.
  rewrite firstPresent_read. cbn [world]. rewrite Hpw. cbv beta iota.
  rewrite Hne, Hnpw. cbn [orb].
  cbn [world browser page launched live trace].
  rewrite Ht1. cbv beta iota.
  cbn [world browser page launched live trace].
  rewrite Ht2. cbv beta iota.
  rewrite firstPresent_read. cbn [world]. rewrite Hb. cbv beta iota.
  unfold with_actions. rewrite Hp. reflexivity.
Qed.

(** [MoodleAuth.performLogin] resolves the three controls first: when the
    lookups resolve and one of the three finds nothing, it throws with the
    state as it was, so nothing was clicked or typed. *)
Lemma performLogin_missing_elements (s : St W) (csrfToken : option jsstring)
    (u pw b : option string) :
  firstPresentIn D (world s) usernameFieldSelectors = Ok u ->
  firstPresentIn D (world s) passwordFieldSelectors = Ok pw ->
  firstPresentIn D (world s) submitButtonSelectors = Ok b ->
  u = None \/ pw = None \/ b = None ->
  performLogin D credentials csrfToken s
  = (s, Throw "Could not locate all required login form elements").
Proof.
  intros Hu Hpw Hb Hnone.
  unfold performLogin, findUsernameField, findPasswordField, findSubmitButton.
  unfold bind at 1. rewrite firstPresent_read, Hu.
  unfold bind at 1. rewrite firstPresent_read, Hpw.
  unfold bind at 1. rewrite firstPresent_read, Hb.
  destruct u, pw, b; try reflexivity.
  destruct Hnone as [H|[H|H]]; discriminate.
Qed.

End Login.

(** On the page with two fields and no submit control. *)
Lemma login_types_before_resolving_submit_witness :
  login noSubmitDriver sampleCredentials initializedScraper
  = (with_actions initializedScraper tt
       [AGoto (classUrl sampleCredentials);
        AType "input[name='username']" (email sampleCredentials);
        AType "input[name='password']" (password sampleCredentials)],
     Throw "Login failed: Could not find login button").
Proof.
  apply (login_types_before_resolving_submit noSubmitDriver sampleCredentials
           initializedScraper 0 tt tt tt);
    reflexivity.
Defined.

Lemma performLogin_missing_elements_witness :
  performLogin noSubmitDriver sampleCredentials None initializedScraper
  = (initializedScraper,
     Throw "Could not locate all required login form elements").
Proof.
  apply (performLogin_missing_elements noSubmitDriver sampleCredentials
           initializedScraper None
           (Some "input[name='username']") (Some "input[name='password']")
           None);
    try reflexivity.
  right. right. reflexivity.
Defined.

(** ** The two-factor wait loop *)

Section TwoFactor.

Context {W : Type} (D : Driver W).

Lemma with_world_same (s : St W) : with_world s (world s) = s.
Proof. destruct s. reflexivity. Qed.

Lemma waits_shift (n : nat) (w : W) :
  waits D n (afterWait D w) = afterWait D (waits D n w).
Proof.
  induction n as [|n IH]; simpl; [reflexivity|]. rewrite IH. reflexivity.
Qed.

Lemma detect2FA_read (s : St W) :
  detect2FA D s = (s, challengeMarkers D (world s)).
Proof.
  unfold detect2FA, challengeMarkers, bind. rewrite anyPresent_read.
  destruct (anyPresentIn D (world s) twoFactorSelectors) as [[|]|msg];
    try reflexivity.
  unfold read, ret. destruct (drv_content D (world s)); reflexivity.
Qed.

Lemma isOnDashboard_read (s : St W) :
  isOnDashboard D s = (s, dashboardMarkers D (world s)).
Proof. apply anyPresent_read. Qed.

Lemma detectDuo_ok (duoDetected : bool) (s : St W) :
  is_ok (drv_content D (world s)) = true ->
  exists d, detectDuo D duoDetected s = (s, Ok d).
Proof.
  intros H. unfold detectDuo. destruct duoDetected.
  - exists true. reflexivity.
  - unfold bind, read, ret.
    destruct (drv_content D (world s)); [|discriminate]. eauto.
Qed.

(** A poll reads the page and leaves the state as it is. *)
Lemma pollOnce_state (duoDetected : bool) (s : St W) :
  fst (pollOnce D duoDetected s) = s.
Proof.
  unfold pollOnce, bind. rewrite detect2FA_read.
  destruct (challengeMarkers D (world s)); [|reflexivity].
  rewrite isOnDashboard_read.
  destruct (dashboardMarkers D (world s)); [|reflexivity].
  unfold detectDuo. destruct duoDetected.
  - unfold ret. destruct (negb a || a0); reflexivity.
  - unfold bind, read, ret.
    destruct (drv_content D (world s)); [|reflexivity].
    destruct (negb a || a0); reflexivity.
Qed.

Lemma pollOnce_pending (duoDetected : bool) (s : St W) :
  challengePending D (world s) ->
  exists d, pollOnce D duoDetected s = (s, Ok (Some d)).
Proof.
  intros (Hc & Hd & Hcontent & _).
  unfold pollOnce, bind. rewrite detect2FA_read, Hc, isOnDashboard_read, Hd.
  destruct (detectDuo_ok duoDetected s Hcontent) as [d ->].
  exists d. reflexivity.
Qed.

Lemma pollOnce_over (duoDetected : bool) (s : St W) :
  challengeOver D (world s) ->
  pollOnce D duoDetected s = (s, Ok None).
Proof.
  intros (c & d & Hc & Hd & Hout & Hcontent).
  unfold pollOnce, bind. rewrite detect2FA_read, Hc, isOnDashboard_read, Hd.
  destruct (detectDuo_ok duoDetected s Hcontent) as [d' ->].
  rewrite Hout. reflexivity.
Qed.

Lemma wait_state (s : St W) :
  fst (act (drv_waitForTimeout D checkInterval) s)
  = with_world s (afterWait D (world s)).
Proof.
  unfold act, afterWait, with_world.
  destruct (drv_waitForTimeout D checkInterval (world s)); reflexivity.
Qed.

Lemma wait_pending (s : St W) :
  challengePending D (world s) ->
  act (drv_waitForTimeout D checkInterval) s
  = (with_world s (afterWait D (world s)), Ok tt).
Proof.
  intros (_ & _ & _ & Hw). unfold act, afterWait, with_world.
  destruct (drv_waitForTimeout D checkInterval (world s)) as [w r].
  simpl in *. rewrite Hw. reflexivity.
Qed.

(** One turn of the [while] loop. *)
Lemma waitLoop_step (elapsed : Z) (duoDetected : bool) (s : St W) :
  waitLoop D elapsed duoDetected s =
  if Z_lt_dec elapsed maxWaitTime then
    match pollOnce D duoDetected s with
    | (s1, Throw msg) => (s1, Throw msg)
    | (s1, Ok None) => (s1, Ok tt)
    | (s1, Ok (Some duoDetected')) =>
        match act (drv_waitForTimeout D checkInterval) s1 with
        | (s2, Throw msg) => (s2, Throw msg)
        | (s2, Ok _) =>
            waitLoop D (elapsed + checkInterval) duoDetected' s2
        end
    end
  else throw "2FA timeout - please complete authentication faster" s.
Proof.
  rewrite waitLoop_equation_1.
  destruct (Z_lt_dec elapsed maxWaitTime) as [Hlt|Hge]; simpl.
  - destruct (pollOnce D duoDetected s) as [s1 [[d|]|msg]]; simpl;
      try reflexivity.
    destruct (act (drv_waitForTimeout D checkInterval) s1) as [s2 [[]|msg]];
      simpl; reflexivity.
  - reflexivity.
Qed.

Lemma elapsedAfter_succ (i : nat) :
  (elapsedAfter i + checkInterval)%Z = elapsedAfter (S i).
Proof. unfold elapsedAfter, checkInterval. lia. Qed.

Lemma elapsedAfter_lt (i : nat) :
  i < maxPolls -> (elapsedAfter i < maxWaitTime)%Z.
Proof. unfold elapsedAfter, checkInterval, maxWaitTime, maxPolls. lia. Qed.

Lemma elapsedAfter_ge (i : nat) :
  maxPolls <= i -> ~ (elapsedAfter i < maxWaitTime)%Z.
Proof. unfold elapsedAfter, checkInterval, maxWaitTime, maxPolls. lia. Qed.

Lemma waitLoop_timeout (n : nat) :
  forall i duoDetected s,
    i + n = maxPolls ->
    (forall k, k < n -> challengePending D (waits D k (world s))) ->
    waitLoop D (elapsedAfter i) duoDetected s
    = (with_world s (waits D n (world s)),
       Throw "2FA timeout - please complete authentication faster").
Proof.
  induction n as [|n IH]; intros i d s Hi Hpend; rewrite waitLoop_step.
  - destruct (Z_lt_dec (elapsedAfter i) maxWaitTime) as [Hlt|_].
    + exfalso. apply (elapsedAfter_ge i); [lia | exact Hlt].
    + simpl. rewrite with_world_same. reflexivity.
  - destruct (Z_lt_dec (elapsedAfter i) maxWaitTime) as [_|Hge].
    + assert (H0 : challengePending D (world s)) by (apply (Hpend 0); lia).
      destruct (pollOnce_pending d s H0) as [d' ->].
      rewrite (wait_pending s H0), elapsedAfter_succ.
      rewrite (IH (S i) d' _ ltac:(lia)).
      * cbn [world with_world]. rewrite waits_shift. reflexivity.
      * intros k Hk. cbn [world with_world]. rewrite waits_shift.
        apply (Hpend (S k)). lia.
    + exfalso. apply Hge, elapsedAfter_lt. lia.
Qed.

Lemma waitLoop_completes (n : nat) :
  forall i duoDetected s,
    i + n < maxPolls ->
    (forall k, k < n -> challengePending D (waits D k (world s))) ->
    challengeOver D (waits D n (world s)) ->
    waitLoop D (elapsedAfter i) duoDetected s
    = (with_world s (waits D n (world s)), Ok tt).
Proof.
  induction n as [|n IH]; intros i d s Hi Hpend Hover; rewrite waitLoop_step;
    (destruct (Z_lt_dec (elapsedAfter i) maxWaitTime) as [_|Hge];
     [|exfalso; apply Hge, elapsedAfter_lt; lia]).
  - simpl in Hover. rewrite (pollOnce_over d s Hover), with_world_same.
    reflexivity.
  - assert (H0 : challengePending D (world s)) by (apply (Hpend 0); lia).
    destruct (pollOnce_pending d s H0) as [d' ->].
    rewrite (wait_pending s H0), elapsedAfter_succ.
    rewrite (IH (S i) d' _ ltac:(lia)).
    + cbn [world with_world]. rewrite waits_shift. reflexivity.
    + intros k Hk. cbn [world with_world]. rewrite waits_shift.
      apply (Hpend (S k)). lia.
    + cbn [world with_world]. rewrite waits_shift. exact Hover.
Qed.

Lemma waitLoop_bounded (n : nat) :
  forall i duoDetected s,
    i + n = maxPolls ->
    exists m, m <= n
      /\ fst (waitLoop D (elapsedAfter i) duoDetected s)
         = with_world s (waits D m (world s)).
Proof.
  induction n as [|n IH]; intros i d s Hi; rewrite waitLoop_step.
  - exists 0. split; [lia|].
    destruct (Z_lt_dec (elapsedAfter i) maxWaitTime) as [Hlt|_].
    + exfalso. apply (elapsedAfter_ge i); [lia | exact Hlt].
    + simpl. rewrite with_world_same. reflexivity.
  - destruct (Z_lt_dec (elapsedAfter i) maxWaitTime) as [_|Hge];
      [|exfalso; apply Hge, elapsedAfter_lt; lia].
    pose proof (pollOnce_state d s) as Hs.
    destruct (pollOnce D d s) as [s1 [[d'|]|msg]]; simpl in Hs; subst s1.
    + pose proof (wait_state s) as Hw.
      destruct (act (drv_waitForTimeout D checkInterval) s)
        as [s2 [[]|msg]]; simpl in Hw; subst s2.
      * rewrite elapsedAfter_succ.
        destruct (IH (S i) d' (with_world s (afterWait D (world s)))
                    ltac:(lia)) as [m [Hm ->]].
        exists (S m). split; [lia|].
        cbn [world with_world]. rewrite waits_shift. reflexivity.
      * exists 1. split; [lia|]. reflexivity.
    + exists 0. split; [lia|]. simpl. rewrite with_world_same. reflexivity.
    + exists 0. split; [lia|]. simpl. rewrite with_world_same. reflexivity.
Qed.

(** C7.  [waitFor2FACompletion] polls every [checkInterval] and returns
    after at most [maxPolls] waits, whatever the page does.  If each of
    the [maxPolls] polls sees the challenge markers and no dashboard, the
    result is the timeout error; if the polls see them until one, before
    the ceiling, sees the challenge gone or the dashboard, the method
    returns normally. *)
Theorem waitFor2FACompletion_bounded (s : St W) :
  (exists m, m <= maxPolls
     /\ fst (waitFor2FACompletion D s) = with_world s (waits D m (world s)))
  /\ ((forall k, k < maxPolls -> challengePending D (waits D k (world s))) ->
      waitFor2FACompletion D s
      = (with_world s (waits D maxPolls (world s)),
         Throw "2FA timeout - please complete authentication faster"))
  /\ (forall n, n < maxPolls ->
        (forall k, k < n -> challengePending D (waits D k (world s))) ->
        challengeOver D (waits D n (world s)) ->
        waitFor2FACompletion D s
        = (with_world s (waits D n (world s)), Ok tt)).
Proof.
  unfold waitFor2FACompletion.
  change 0%Z with (elapsedAfter 0).
  split; [|split].
  - apply (waitLoop_bounded maxPolls 0 false s). reflexivity.
  - intros H. apply (waitLoop_timeout maxPolls 0 false s); [reflexivity|exact H].
  - intros n Hn Hp Ho. apply (waitLoop_completes n 0 false s); assumption.
Qed.

End TwoFactor.

Lemma waits_unit (D : Driver unit) (n : nat) : waits D n tt = tt.
Proof. destruct (waits D n tt). reflexivity. Qed.

(** A challenge that never goes away times out; a page already past the
    challenge returns at the first poll. *)
Lemma waitFor2FACompletion_bounded_witness :
  waitFor2FACompletion stuckChallengeDriver initializedScraper
  = (initializedScraper,
     Throw "2FA timeout - please complete authentication faster")
  /\ waitFor2FACompletion dashboardDriver initializedScraper
     = (initializedScraper, Ok tt).
Proof.
  split.
  - refine (eq_trans
              (proj1 (proj2 (waitFor2FACompletion_bounded
                               stuckChallengeDriver initializedScraper)) _)
              _).
    + intros k _. rewrite waits_unit. repeat split.
    + rewrite waits_unit. reflexivity.
  - refine (proj2 (proj2 (waitFor2FACompletion_bounded
                            dashboardDriver initializedScraper)) 0 _ _ _).
    + unfold maxPolls. lia.
    + intros k Hk. lia.
    + exists false, true. repeat split.
Defined.

(* ===================================================================== *)
(** * Further properties of the extractors *)
(* ===================================================================== *)

(** ** Matching *)

Section Matching.

Context {A : Type}.

(** A repetition that succeeds has consumed at least [lo] characters of
    the class and handed the rest to its continuation. *)
Lemma rep_sound (p : jschar -> bool) (s : jsstring) :
  forall lo hi (k : jsstring -> option A) a,
    rep p lo hi s k = Some a ->
    exists pre s',
      s = pre ++ s' /\ forallb p pre = true
      /\ lo <= List.length pre /\ k s' = Some a.
Proof.
  induction s as [|c r IH]; intros lo hi k a H; simpl in H.
  - destruct lo; [|discriminate].
    exists [], []. repeat split; [apply le_n | exact H].
  - assert (Hstop : match lo with O => k (c :: r) | S _ => None end = Some a ->
                    exists pre s', c :: r = pre ++ s' /\ forallb p pre = true
                      /\ lo <= List.length pre /\ k s' = Some a).
    { destruct lo; [|discriminate]. intros Hk.
      exists [], (c :: r). repeat split; [apply le_n | exact Hk]. }
    destruct (p c && match hi with Some 0 => false | _ => true end) eqn:Hc;
      [|exact (Hstop H)].
    destruct (rep p (Nat.pred lo) (option_map Nat.pred hi) r k) as [a'|] eqn:Hr;
      [|exact (Hstop H)].
    injection H as <-.
    destruct (IH _ _ _ _ Hr) as (pre & s' & -> & Hp & Hlo & Hk).
    exists (c :: pre), s'. apply andb_prop in Hc. destruct Hc as [Hc _].
    repeat split; simpl; [rewrite Hc; exact Hp | lia | exact Hk].
Qed.

(** An unbounded repetition of digits before a continuation that cannot
    fail takes the whole run of digits. *)
Lemma rep_digits_greedy (s : jsstring) :
  forall lo (k : jsstring -> option A),
    (forall s', k s' <> None) ->
    rep is_digit lo None s k
    = if (lo <=? List.length (fst (span_digits s)))%nat
      then k (snd (span_digits s)) else None.
Proof.
  induction s as [|c r IH]; intros lo k Hk; simpl.
  - destruct lo; reflexivity.
  - destruct (is_digit c) eqn:Hc; simpl.
    + rewrite (IH (Nat.pred lo) k Hk).
      destruct (span_digits r) as [d rest]; simpl.
      destruct lo as [|lo]; simpl.
      * destruct (k rest) eqn:E; [reflexivity | destruct (Hk _ E)].
      * destruct (lo <=? List.length d)%nat; [|reflexivity].
        destruct (k rest) eqn:E; [reflexivity | destruct (Hk _ E)].
    + destruct lo; reflexivity.
Qed.

End Matching.

Lemma span_digits_spec (s : jsstring) :
  s = fst (span_digits s) ++ snd (span_digits s)
  /\ forallb is_digit (fst (span_digits s)) = true
  /\ digit_next (snd (span_digits s)) = false.
Proof.
  induction s as [|c r IH]; simpl; [repeat split|].
  destruct (is_digit c) eqn:Hc.
  - destruct (span_digits r) as [d rest]; simpl in *.
    destruct IH as (E & Hd & Hn). repeat split.
    + rewrite E at 1. reflexivity.
    + rewrite Hc. exact Hd.
    + exact Hn.
  - simpl. repeat split. exact Hc.
Qed.

Lemma consumed_app (pre s' : jsstring) : consumed (pre ++ s') s' = pre.
Proof.
  unfold consumed. rewrite length_app.
  replace (List.length pre + List.length s' - List.length s')
    with (List.length pre + 0) by lia.
  rewrite firstn_app_2. simpl. apply app_nil_r.
Qed.

(** [match] finds a match at some position of the text, and finds none
    only when there is none at any position. *)
Lemma jsmatch_sound (r : regex) (s : jsstring) (m : MatchResult) :
  jsmatch r s = Some m ->
  exists pre s0, s = pre ++ s0 /\ match_here r s0 = Some m.
Proof.
  induction s as [|c s' IH]; simpl.
  - destruct (match_here r []) eqn:E; [|discriminate].
    intros H. injection H as <-. exists [], []. split; [reflexivity | exact E].
  - destruct (match_here r (c :: s')) eqn:E.
    + intros H. injection H as <-. exists [], (c :: s').
      split; [reflexivity | exact E].
    + intros H. destruct (IH H) as (pre & s0 & -> & Hm).
      exists (c :: pre), s0. split; [reflexivity | exact Hm].
Qed.

Lemma jsmatch_none (r : regex) (s : jsstring) :
  jsmatch r s = None ->
  forall pre s0, s = pre ++ s0 -> match_here r s0 = None.
Proof.
  induction s as [|c s' IH]; simpl.
  - destruct (match_here r []) eqn:E; [discriminate|].
    intros _ pre s0 H. symmetry in H. apply app_eq_nil in H.
    destruct H as [_ ->]. exact E.
  - destruct (match_here r (c :: s')) eqn:E; [discriminate|].
    intros H pre s0 Hs. destruct pre as [|x pre]; simpl in Hs.
    + subst s0. exact E.
    + injection Hs as _ Hs. exact (IH H pre s0 Hs).
Qed.

(** ** Substrings *)

Lemma startsWith_app (p s : jsstring) : startsWith p (p ++ s) = true.
Proof.
  induction p as [|c p IH]; simpl; [reflexivity|].
  rewrite N.eqb_refl. exact IH.
Qed.

Lemma startsWith_sound (p s : jsstring) :
  startsWith p s = true -> exists post, s = p ++ post.
Proof.
  revert s. induction p as [|c p IH]; intros s H.
  - exists s. reflexivity.
  - destruct s as [|x s]; [discriminate H|]. simpl in H.
    apply andb_prop in H. destruct H as [Hc H]. apply N.eqb_eq in Hc.
    subst x. destruct (IH s H) as (post & ->). exists post. reflexivity.
Qed.

Lemma includes_head (s p : jsstring) :
  startsWith p s = true -> includes s p = true.
Proof. destruct s; simpl; intros ->; reflexivity. Qed.

Lemma includes_app (pre p post : jsstring) :
  includes (pre ++ p ++ post) p = true.
Proof.
  induction pre as [|c pre IH].
  - cbn [app]. apply includes_head, startsWith_app.
  - simpl. rewrite IH. apply orb_true_r.
Qed.

Lemma includes_sound (s p : jsstring) :
  includes s p = true -> exists pre post, s = pre ++ p ++ post.
Proof.
  induction s as [|c s IH]; simpl; intros H.
  - rewrite orb_false_r in H. destruct (startsWith_sound _ _ H) as (post & E).
    exists [], post. exact E.
  - apply orb_prop in H. destruct H as [H|H].
    + destruct (startsWith_sound _ _ H) as (post & E). exists [], post. exact E.
    + destruct (IH H) as (pre & post & ->). exists (c :: pre), post.
      reflexivity.
Qed.

(** ** The id of an assignment *)

Lemma match_here_id (s : jsstring) :
  match_here re_id s
  = if startsWith (js "id=") s && digit_next (skipn 3 s)
    then Some (mkMatch (js "id=" ++ fst (span_digits (skipn 3 s)))
                 [fst (span_digits (skipn 3 s))])
    else None.
Proof.
  unfold match_here, re_id.
  change (lit "id=") with (RSeq (RChar 105) (RSeq (RChar 100) (RChar 61)))%N.
  change (js "id=") with [105; 100; 61]%N.
  cbn [rmatch startsWith].
  destruct s as [|c1 s]; [reflexivity|].
  rewrite (N.eqb_sym c1). destruct (105 =? c1)%N eqn:Ec1; [|reflexivity].
  apply N.eqb_eq in Ec1; subst c1.
  destruct s as [|c2 s]; [reflexivity|].
  rewrite (N.eqb_sym c2). destruct (100 =? c2)%N eqn:Ec2; [|reflexivity].
  apply N.eqb_eq in Ec2; subst c2.
  destruct s as [|c3 s1]; [reflexivity|].
  rewrite (N.eqb_sym c3). destruct (61 =? c3)%N eqn:Ec3; [|reflexivity].
  apply N.eqb_eq in Ec3; subst c3.
  cbn [andb skipn].
  rewrite rep_digits_greedy by discriminate.
  destruct (span_digits_spec s1) as (E & Hd & Hn).
  destruct (span_digits s1) as [d rest]; simpl in *.
  subst s1. destruct d as [|c d]; simpl.
  - destruct rest as [|c rest]; [reflexivity|]. simpl in Hn |- *.
    rewrite Hn. reflexivity.
  - apply andb_prop in Hd. destruct Hd as [Hc Hd]. rewrite Hc.
    rewrite (consumed_app (c :: d) rest
             : consumed (c :: d ++ rest) rest = c :: d).
    change (consumed (_ :: _ :: _ :: c :: d ++ rest) rest)
      with (consumed ((js "id=" ++ c :: d) ++ rest) rest).
    rewrite consumed_app. reflexivity.
Qed.

Section Ids.

Variable mathRandom : jsstring.

(** The id of an assignment is read off the first [id=] of the link that a
    digit follows, whatever parameter name ends there: it is the whole run
    of digits after it.  The random text is the id exactly when no [id=]
    of the link is followed by a digit. *)
Theorem idOf_digits_after_id (url : jsstring) :
  (exists pre d post,
      url = pre ++ js "id=" ++ d ++ post
      /\ d <> [] /\ forallb is_digit d = true /\ digit_next post = false
      /\ idOf mathRandom url = d)
  \/ (idOf mathRandom url = mathRandom
      /\ forall pre post,
           url = pre ++ js "id=" ++ post -> digit_next post = false).
Proof.
  unfold idOf. destruct (jsmatch re_id url) as [m|] eqn:Hm.
  - left. destruct (jsmatch_sound _ _ _ Hm) as (pre & s0 & -> & H0).
    rewrite match_here_id in H0.
    destruct (startsWith (js "id=") s0) eqn:Hs; [|discriminate H0].
    destruct (startsWith_sound _ _ Hs) as (s1 & ->).
    change (skipn 3 (js "id=" ++ s1)) with s1 in H0.
    destruct (digit_next s1) eqn:Hn; [|discriminate H0].
    injection H0 as <-.
    destruct (span_digits_spec s1) as (E & Hd & Hr).
    exists pre, (fst (span_digits s1)), (snd (span_digits s1)).
    assert (Hne : fst (span_digits s1) <> []).
    { destruct s1 as [|c r]; [discriminate Hn|]. simpl in Hn |- *.
      rewrite Hn. destruct (span_digits r). discriminate. }
    repeat split; try assumption.
    + rewrite <- E. reflexivity.
    + unfold capture. simpl.
      destruct (fst (span_digits s1)); [destruct (Hne eq_refl) | reflexivity].
  - right. split; [reflexivity|]. intros pre post ->.
    pose proof (jsmatch_none _ _ Hm pre _ eq_refl) as H0.
    rewrite match_here_id in H0. rewrite startsWith_app in H0.
    change (skipn 3 (js "id=" ++ post)) with post in H0.
    destruct (digit_next post); [discriminate H0 | reflexivity].
Qed.

End Ids.

(** A text that holds a phrase holds whatever the phrase holds. *)
Lemma includes_within (pre w post p : jsstring) :
  includes w p = true -> includes (pre ++ w ++ post) p = true.
Proof.
  intros H. destruct (includes_sound _ _ H) as (a & b & ->).
  replace (pre ++ (a ++ p ++ b) ++ post) with ((pre ++ a) ++ p ++ (b ++ post))
    by (rewrite <- !app_assoc; reflexivity).
  apply includes_app.
Qed.

Lemma toLowerCase_app (a b : jsstring) :
  toLowerCase (a ++ b) = toLowerCase a ++ toLowerCase b.
Proof. apply map_app. Qed.

(** ** Submission and completion status *)

(** The status of an assignment is read by substring, "submitted" and
    "complete" first: a status text that holds a phrase whose lower-case
    form holds one of them (so "Not submitted", "Incomplete",
    "Submitted late") is classified as submitted, in either case of
    letters and whatever stands around it. *)
Theorem status_submitted_by_substring (e : Element) (pre w post : jsstring) :
  textContent e = pre ++ w ++ post ->
  includes (toLowerCase w) (js "submitted")
  || includes (toLowerCase w) (js "complete") = true ->
  submissionStatusOf (Some e) = submitted.
Proof.
  intros Ht Hw. unfold submissionStatusOf. cbv zeta.
  rewrite Ht, !toLowerCase_app.
  apply orb_prop in Hw.
  destruct Hw as [Hw|Hw];
    rewrite (includes_within _ _ _ _ Hw); [reflexivity|].
  rewrite orb_true_r. reflexivity.
Qed.

Section Completion.

Variable newDate : jsstring -> Date.

(** [extractZybookIntegration] reports one of three completion statuses,
    and "Completed" as soon as the trimmed status text holds a phrase whose
    lower-case form holds "complete", such as "Incomplete". *)
Theorem zybook_completion_status (el : Element) :
  let data := extractZybookIntegration_callback newDate el in
  In (zd_completionStatus data) completionStatuses
  /\ forall e pre w post,
       querySelector el
         ".status, .completion-status, .completion-manual, .completion-auto"
       = Some e ->
       trim (textContent e) = pre ++ w ++ post ->
       includes (toLowerCase w) (js "complete") = true ->
       zd_completionStatus data = js "Completed".
Proof.
  unfold extractZybookIntegration_callback. cbv zeta.
  cbn [zd_completionStatus]. split.
  - destruct (querySelector el _) as [e|]; [|right; right; left; reflexivity].
    destruct (_ || _); [left; reflexivity|].
    destruct (_ || _); [right; left; reflexivity|].
    right; right; left; reflexivity.
  - intros e pre w post He Ht Hw. rewrite He, Ht, !toLowerCase_app.
    rewrite (includes_within _ _ _ _ Hw). reflexivity.
Qed.

End Completion.

(** ** File types *)













(** ** Grades without a maximum *)

Section NoMaximum.

Variable newDate : jsstring -> Date.

(** A gradebook row whose maximum-grade cell is missing or blank has the
    maximum-grade text "0" and no usable percentage, whatever its grade:
    [extractGrade] reports 0 and [extractGradeData] reports [null].  The
    denominator 100 is reached only by a maximum-grade text that holds no
    number. *)
Theorem percentage_without_maximum (el : Element) :
  orNull (trimmedText (querySelector el ".max-grade, .total-points, .out-of"))
  = None ->
  let data := extractGrade_callback newDate el in
  gd_maxGrade data = js "0"
  /\ gd_percentage data = Some 0%float
  /\ forall data',
       extractGradeData_callback newDate el = Ok data' ->
       gd_maxGrade data' = js "0" /\ gd_percentage data' = None.
Proof.
  intros H.
  assert (Hm : orDefault
                 (trimmedText
                    (querySelector el ".max-grade, .total-points, .out-of"))
                 (js "0") = js "0").
  { destruct (trimmedText _) as [[|c t]|];
      [reflexivity | discriminate H | reflexivity]. }
  assert (Hz : numberIn (js "0") = Some 0%float) by (vm_compute; reflexivity).
  cbv zeta. split; [|split].
  - unfold extractGrade_callback. cbv zeta. cbn [gd_maxGrade]. exact Hm.
  - rewrite extractGrade_percentage. cbv zeta.
    unfold extractGrade_callback at 1. cbv zeta. cbn [gd_maxGrade].
    rewrite Hm. unfold maxGradeValueOf. rewrite Hz. reflexivity.
  - intros data' Hd.
    pose proof (extractGradeData_percentage newDate el data' Hd) as Hp.
    assert (Hg : gd_maxGrade data' = js "0").
    { revert Hd. unfold extractGradeData_callback. cbv zeta.
      match goal with
      | |- match ?d with _ => _ end = _ -> _ => destruct d; [|discriminate]
      end.
      intros E. injection E as <-. cbn [gd_maxGrade]. exact Hm. }
    split; [exact Hg|]. rewrite Hp, Hg. unfold maxGradeValueOf. rewrite Hz.
    reflexivity.
Qed.

End NoMaximum.

(** ** Records lost to a date *)

Section LostRecords.

Variable newDate : jsstring -> Date.
Variable mathRandom : jsstring.





End LostRecords.

(** ** Cleaning, again *)

Lemma length_collapse_ws (s : jsstring) :
  forall b, List.length (collapse_ws b s) <= List.length s.
Proof.
  induction s as [|c r IH]; intros b; simpl; [apply le_n|].
  destruct (is_ws c); [destruct b|]; simpl;
    try apply le_n_S; try apply le_S; apply IH.
Qed.

Lemma length_trimStart (s : jsstring) :
  List.length (trimStart s) <= List.length s.
Proof.
  induction s as [|c r IH]; simpl; [apply le_n|].
  destruct (is_ws c); [apply le_S, IH | apply le_n].
Qed.

Lemma length_trimEnd (s : jsstring) :
  List.length (trimEnd s) <= List.length s.
Proof.
  induction s as [|c r IH]; simpl; [apply le_n|].
  destruct (trimEnd r) as [|d r'].
  - destruct (is_ws c); simpl; lia.
  - simpl in *. lia.
Qed.

Lemma words_from_nil (s : jsstring) :
  forall cur, words_from cur s = [] <-> cur = [] /\ forallb is_ws s = true.
Proof.
  induction s as [|c r IH]; intros cur; simpl.
  - destruct cur; split; try discriminate; auto.
    intros [H _]. discriminate H.
  - destruct (is_ws c) eqn:Hc; simpl.
    + destruct cur as [|x cur].
      * rewrite IH. tauto.
      * split; [discriminate | intros [H _]; discriminate H].
    + rewrite IH. split; [|intros [_ H]; discriminate H].
      intros [H _]. destruct cur; discriminate H.
Qed.

Lemma ws_free_normal (s : jsstring) :
  existsb is_ws s = false ->
  (forall b, ws_normal b s = true) /\ last_is_ws s = false.
Proof.
  induction s as [|c r IH]; simpl; [split; reflexivity|].
  intros H. apply orb_false_elim in H. destruct H as [Hc Hr].
  destruct (IH Hr) as [Hn Hl]. rewrite Hc. split; [intros _; apply Hn|].
  destruct r; [reflexivity | exact Hl].
Qed.

(** [cleanText] never lengthens a text; its result is empty exactly for a
    text of whitespace only; and a text without whitespace is returned as
    it is. *)
Theorem cleanText_shrinks (x : jsstring) :
  List.length (cleanText x) <= List.length x
  /\ (cleanText x = [] <-> forallb is_ws x = true)
  /\ (existsb is_ws x = false -> cleanText x = x).
Proof.
  split; [|split].
  - rewrite cleanText_strip_collapse. unfold strip_ends.
    pose proof (length_trimEnd (trimStart (collapse_ws false x))).
    pose proof (length_trimStart (collapse_ws false x)).
    pose proof (length_collapse_ws x false). lia.
  - pose proof (cleanText_words x) as Hw. unfold words in Hw.
    split; intros H.
    + rewrite H in Hw. simpl in Hw. symmetry in Hw.
      apply words_from_nil in Hw. apply Hw.
    + assert (E : words_from [] x = [])
        by (apply words_from_nil; split; [reflexivity | exact H]).
      rewrite (clean_unwords _ (cleanText_is_clean x)).
      unfold words. rewrite Hw, E. reflexivity.
  - intros H. apply clean_fixed. unfold is_clean.
    destruct (ws_free_normal x H) as [Hn Hl]. rewrite Hn, Hl. reflexivity.
Qed.

(** ** The patterns of [parseDate] *)

Section Patterns.

Variable newDate : jsstring -> Date.

Lemma digit_facts (c : jschar) :
  is_digit c = true ->
  is_date_sep c = false /\ is_word c = true /\ (c =? 32)%N = false
  /\ (c =? 45)%N = false /\ (c =? 44)%N = false.
Proof.
  unfold is_date_sep, is_word, is_digit. intros H.
  apply andb_prop in H. destruct H as [H1 H2].
  apply N.leb_le in H1, H2.
  change (chr "/") with 47%N. change (chr "-") with 45%N.
  assert (E : forall n, (n < 48)%N -> (c =? n)%N = false)
    by (intros n Hn; apply N.eqb_neq; lia).
  rewrite !E by lia.
  assert (Hd : ((48 <=? c) && (c <=? 57))%N = true)
    by (apply andb_true_intro; split; apply N.leb_le; lia).
  rewrite Hd. simpl. repeat split; apply E; lia.
Qed.

(** One step of the matcher on a text of digits and hyphens. *)
Ltac digit_step :=
  progress (cbn -[is_digit is_date_sep is_word N.eqb consumed];
            repeat match goal with
                   | H : ?t = _ |- context [?t] => rewrite H
                   end).

(** What the four patterns find in an ISO date. *)
Lemma iso_matches (y1 y2 y3 y4 m1 m2 d1 d2 : jschar) :
  forallb is_digit [y1; y2; y3; y4; m1; m2; d1; d2] = true ->
  let iso := [y1; y2; y3; y4; 45; m1; m2; 45; d1; d2]%N in
  let short := [y3; y4; 45; m1; m2; 45; d1; d2]%N in
  jsmatch re_numeric_date iso = Some (mkMatch short [short])
  /\ jsmatch re_month_day_year iso = None
  /\ jsmatch re_iso_date iso = Some (mkMatch iso [iso])
  /\ jsmatch re_day_month_year iso = None.
Proof.
  intros H iso short. subst iso short. cbn [forallb] in H.
  repeat (apply andb_prop in H; let H' := fresh "Hd" in destruct H as [H' H]).
  clear H.
  repeat match goal with
         | H : is_digit ?c = true |- _ =>
             let F := fresh "F" in
             pose proof (digit_facts c H) as F;
             destruct F as (? & ? & ? & ? & ?); revert H
         end.
  intros.
  assert (C1 : is_digit 45%N = false) by reflexivity.
  assert (C2 : is_word 45%N = false) by reflexivity.
  assert (C3 : is_date_sep 45%N = true) by reflexivity.
  assert (C4 : (45 =? 45)%N = true) by reflexivity.
  assert (C5 : (45 =? 32)%N = false) by reflexivity.
  assert (C6 : (45 =? 44)%N = false) by reflexivity.
  unfold re_numeric_date, re_month_day_year, re_iso_date, re_day_month_year.
  change (chr "-") with 45%N. change (chr " ") with 32%N.
  change (chr ",") with 44%N.
  repeat split; unfold match_here; repeat digit_step; reflexivity.
Qed.

(** The numeric pattern comes first and allows a hyphen between its
    numbers, so in an ISO date [YYYY-MM-DD] it finds [YY-MM-DD], the text
    without the century: that text goes to the runtime's [Date], and the
    ISO pattern is reached only when the runtime rejects it. *)
Theorem parseDate_iso_date_shadowed (y1 y2 y3 y4 m1 m2 d1 d2 : jschar) :
  forallb is_digit [y1; y2; y3; y4; m1; m2; d1; d2] = true ->
  let iso := [y1; y2; y3; y4; 45; m1; m2; 45; d1; d2]%N in
  let short := [y3; y4; 45; m1; m2; 45; d1; d2]%N in
  parseDate newDate iso
  = if negb (isInvalid (newDate short)) then Some (newDate short)
    else if negb (isInvalid (newDate iso)) then Some (newDate iso)
    else None.
Proof.
  intros H iso short.
  destruct (iso_matches y1 y2 y3 y4 m1 m2 d1 d2 H) as (M1 & M2 & M3 & M4).
  fold iso short in M1, M2, M3, M4.
  unfold parseDate, datePatterns.
  change (truthy iso) with true. cbn [negb parseDate_loop].
  rewrite M1, M2, M3, M4. unfold capture. cbn [groups Nat.pred nth].
  destruct (isInvalid (newDate short)); [|reflexivity].
  destruct (isInvalid (newDate iso)); reflexivity.
Qed.

End Patterns.

(** The ISO date of 31 December 2025 under a runtime that reads
    "25-12-31" as a date of its own. *)
Lemma parseDate_iso_date_shadowed_witness :
  parseDate
    (fun text => if jseqb text (js "25-12-31") then mkDate (Ms 0)
                 else mkDate (Ms 1767139200000))
    (js "2025-12-31")
  = Some (mkDate (Ms 0)).
Proof.
  apply (parseDate_iso_date_shadowed
           (fun text => if jseqb text (js "25-12-31") then mkDate (Ms 0)
                        else mkDate (Ms 1767139200000))
           50 48 50 53 49 50 51 49)%N.
  reflexivity.
Defined.

(* ===================================================================== *)
(** * Further properties of the scraper object *)
(* ===================================================================== *)

Section Outcomes.

Context {W : Type} (D : Driver W).
Variable newDate : jsstring -> Date.
Variable mathRandom : jsstring.
Variable credentials : MoodleCredentials.

Lemma bind_ok_inv {A B} (m : M W A) (k : A -> M W B) (s s' : St W) (b : B) :
  bind m k s = (s', Ok b) ->
  exists s1 a, m s = (s1, Ok a) /\ k a s1 = (s', Ok b).
Proof.
  unfold bind. destruct (m s) as [s1 [a|msg]]; [|discriminate].
  intros H. exists s1, a. split; [reflexivity | exact H].
Qed.

Lemma only_ret {A} (v : A) : only_returns (W:=W) v (ret v).
Proof. intros s s' a E. unfold ret in E. injection E as _ <-. reflexivity. Qed.

Lemma only_throw {A} (v : A) (msg : string) :
  only_returns (W:=W) v (throw msg).
Proof. intros s s' a E. discriminate E. Qed.

Lemma only_bind {A B} (v : B) (m : M W A) (k : A -> M W B) :
  (forall a, only_returns v (k a)) -> only_returns v (bind m k).
Proof.
  intros Hk s s' b E. destruct (bind_ok_inv _ _ _ _ _ E) as (s1 & a & _ & E2).
  exact (Hk a _ _ _ E2).
Qed.

Lemma only_try_catch {A} (v : A) (m : M W A) (h : string -> M W A) :
  only_returns v m -> (forall msg, only_returns v (h msg)) ->
  only_returns v (try_catch m h).
Proof.
  intros Hm Hh s s' a. unfold try_catch.
  destruct (m s) as [s1 [x|msg]] eqn:E1; intros E.
  - injection E as <- <-. exact (Hm _ _ _ E1).
  - exact (Hh msg _ _ _ E).
Qed.

(** Applies the lemmas above along the structure of a method. *)
Ltac only_tac :=
  repeat first
    [ apply only_ret | apply only_throw
    | apply only_bind; intros ?
    | apply only_try_catch; [|intros ?]
    | match goal with
      | |- only_returns _ (if ?c then _ else _) => destruct c
      | |- only_returns _ (match ?x with _ => _ end) => destruct x
      end ].

Ltac keeps' :=
  repeat first
    [ apply keeps_ret | apply keeps_throw | apply keeps_log
    | apply keeps_act | apply keeps_read | apply (keeps_firstPresent D)
    | apply keeps_requirePage
    | apply keeps_bind; [|intros ?]
    | apply keeps_try_catch; [|intros ?]
    | match goal with
      | |- keeps_object (if ?c then _ else _) => destruct c
      | |- keeps_object (match ?x with _ => _ end) => destruct x
      end ].

(** ** [login] and [navigateToClass] *)

(** [MoodleScraper.login] has two outcomes: it resolves to [true], or it
    throws; it never resolves to [false].  Without a page it throws
    "Browser not initialized" and does nothing; with a page every error,
    whatever its origin, has its message prefixed by "Login failed: ".  In
    either case the browser and the page of the scraper are the ones it
    had. *)
Theorem login_true_or_throws (s : St W) :
  let s' := fst (login D credentials s) in
  let r := snd (login D credentials s) in
  same_object s s'
  /\ (page s = None -> s' = s /\ r = Throw "Browser not initialized")
  /\ (page s <> None ->
      r = Ok true
      \/ exists msg, r = Throw (String.append "Login failed: " msg)).
Proof.
  cbv zeta. split; [|split].
  - destruct (login D credentials s) as [s' r] eqn:E.
    exact (login_keeps_object D credentials s s' r E).
  - intros Hp. unfold login, requirePage. rewrite Hp. split; reflexivity.
  - intros Hp. unfold login, requirePage.
    destruct (page s) as [p|]; [|destruct (Hp eq_refl)].
    unfold try_catch.
    match goal with
    | |- context [match ?m s with _ => _ end] =>
        assert (Ho : only_returns true m);
        [|destruct (m s) as [s1 [b|msg]] eqn:E]
    end.
    + unfold findLoginSelector, findPasswordSelector, findLoginButton,
        orThrow, click_and_wait, verifyLogin.
      only_tac.
    + left. rewrite (Ho _ _ _ E). reflexivity.
    + right. exists msg. reflexivity.
Qed.

(** The errors of [navigateToClass]: without a page, "Browser not
    initialized"; a navigation that rejects passes its own message on,
    unwrapped; and whatever makes the wait for the course content reject,
    the message is the fixed one about the class URL. *)
Theorem navigateToClass_errors (s : St W) :
  (page s = None ->
   navigateToClass D credentials s = (s, Throw "Browser not initialized"))
  /\ (forall p w1 r1,
        page s = Some p ->
        drv_goto D (classUrl credentials) (world s) = (w1, r1) ->
        navigateToClass D credentials s
        = match r1 with
          | Throw msg =>
              (with_actions s w1 [AGoto (classUrl credentials)], Throw msg)
          | Ok _ =>
              let (w2, r2) :=
                drv_waitForSelector D
                  ".course-content, .main-course-page, #page-content" w1 in
              (with_actions s w2 [AGoto (classUrl credentials)],
               match r2 with
               | Ok _ => Ok tt
               | Throw _ =>
                   Throw
                     "Could not access class page. Please verify the class URL."
               end)
          end).
Proof.
  split.
  - intros Hp. unfold navigateToClass, requirePage. rewrite Hp. reflexivity.
  - intros p w1 r1 Hp Hg. unfold navigateToClass.
    cbv beta iota zeta delta
      [requirePage try_catch bind page_goto log act ret throw].
    cbn [world browser page launched live trace].
    rewrite Hp, Hg. unfold with_actions. rewrite Hp.
    destruct r1 as [[]|msg]; cbv beta iota.
    + cbn [world browser page launched live trace].
      destruct (drv_waitForSelector D _ w1) as [w2 [[]|msg2]]; reflexivity.
    + reflexivity.
Qed.

(** ** [close] *)

(** [close] that resolves leaves the scraper without browser; a second
    [close] then does nothing.  With a browser held it clears the page
    too and closes that browser and no other.  [close] that rejects keeps
    the fields, so that the browser is still held. *)
Theorem close_clears_or_keeps (s : St W) :
  let s' := fst (close D s) in
  match snd (close D s) with
  | Ok _ =>
      browser s' = None
      /\ close D s' = (s', Ok tt)
      /\ (browser s = None -> s' = s)
      /\ (forall b, browser s = Some b ->
            page s' = None
            /\ live s' = List.remove Nat.eq_dec b (live s)
            /\ trace s' = AClose b :: trace s)
  | Throw _ => same_object s s' /\ browser s <> None
  end.
Proof.
  cbv zeta. destruct (browser s) as [b|] eqn:Hb.
  - destruct (drv_browserClose D (world s)) as [w' [[]|msg]] eqn:Hd.
    + destruct (close_outcomes D s b w' Hb) as [Hok _]. rewrite (Hok Hd).
      cbn [fst snd browser page live trace].
      split; [reflexivity|]. split; [reflexivity|].
      split; [discriminate|].
      intros b' E. injection E as <-. repeat split.
    + destruct (close_outcomes D s b w' Hb) as [_ Herr].
      rewrite (Herr msg Hd). cbn [fst snd].
      split; [repeat split | discriminate].
  - assert (E : close D s = (s, Ok tt))
      by (unfold close; rewrite Hb; reflexivity).
    rewrite E. cbn [fst snd].
    split; [exact Hb|]. split; [exact E|]. split; [reflexivity|].
    intros b E'. discriminate E'.
Qed.

Lemma initialize_launched (s s1 : St W) :
  initialize D s = (s1, Ok tt) -> launched s1 = S (launched s).
Proof.
  cbv beta iota zeta delta [initialize bind act adopt_browser set_page].
  cbn [world browser page launched live trace].
  destruct (drv_launch D (world s)) as [w1 [[]|m1]]; cbv beta iota;
    [|discriminate].
  cbn [world browser page launched live trace].
  destruct (drv_newPage D w1) as [w2 [[]|m2]]; cbv beta iota;
    [|discriminate].
  cbn [world browser page launched live trace].
  destruct (drv_setViewport D w2) as [w3 [[]|m3]]; cbv beta iota;
    [|discriminate].
  intros E. injection E as <-. reflexivity.
Qed.

Lemma navigateToClass_keeps_object :
  keeps_object (navigateToClass D credentials).
Proof. unfold navigateToClass, page_goto. keeps'. Qed.

Lemma scrapeAssignments_keeps_object :
  keeps_object (scrapeAssignments D newDate mathRandom).
Proof. unfold scrapeAssignments. keeps'. Qed.

Lemma scrapeGrades_keeps_object : keeps_object (scrapeGrades D newDate).
Proof. unfold scrapeGrades, page_query. keeps'. Qed.

Lemma scrapeFiles_keeps_object : keeps_object (scrapeFiles D).
Proof. unfold scrapeFiles. keeps'. Qed.

Lemma scrapeZybookIntegrations_keeps_object :
  keeps_object (scrapeZybookIntegrations D newDate).
Proof. unfold scrapeZybookIntegrations. keeps'. Qed.

Lemma remove_head (b : nat) (l : list nat) :
  List.remove Nat.eq_dec b (b :: l) = List.remove Nat.eq_dec b l.
Proof.
  simpl. destruct (Nat.eq_dec b b) as [_|H]; [reflexivity|].
  destruct (H eq_refl).
Qed.

(** ** [scrapeAll] and [scrapeMoodle] *)

(** The steps behind a [scrapeAll] that returns: [initialize], the
    methods that leave the fields alone, then [close]. *)
Lemma scrapeAll_success_steps (s s' : St W) (data : ScrapedData) :
  scrapeAll D newDate mathRandom credentials s = (s', Ok data) ->
  exists s1 s7,
    initialize D s = (s1, Ok tt) /\ same_object s1 s7
    /\ close D s7 = (s', Ok tt).
Proof.
  unfold scrapeAll. intros H.
  destruct (bind_ok_inv _ _ _ _ _ H) as (s1 & [] & Hi & H1). clear H.
  destruct (bind_ok_inv _ _ _ _ _ H1) as (s2 & b & Hl & H2). clear H1.
  destruct (bind_ok_inv _ _ _ _ _ H2) as (s3 & [] & Hn & H3). clear H2.
  destruct (bind_ok_inv _ _ _ _ _ H3) as (s4 & a & Ha & H4). clear H3.
  destruct (bind_ok_inv _ _ _ _ _ H4) as (s5 & g & Hg & H5). clear H4.
  destruct (bind_ok_inv _ _ _ _ _ H5) as (s6 & f & Hf & H6). clear H5.
  destruct (bind_ok_inv _ _ _ _ _ H6) as (s7 & z & Hz & H7). clear H6.
  destruct (bind_ok_inv _ _ _ _ _ H7) as (s8 & [] & Hc & H8). clear H7.
  unfold ret in H8. injection H8 as <- _.
  exists s1, s7. split; [exact Hi|]. split; [|exact Hc].
  repeat (eapply same_object_trans;
          [first [ eapply (login_keeps_object D credentials), Hl
                 | eapply navigateToClass_keeps_object, Hn
                 | eapply scrapeAssignments_keeps_object, Ha
                 | eapply scrapeGrades_keeps_object, Hg
                 | eapply scrapeFiles_keeps_object, Hf
                 | eapply scrapeZybookIntegrations_keeps_object, Hz ]|]).
  apply same_object_refl.
Qed.

Lemma close_held (s s' : St W) (b : nat) :
  browser s = Some b -> close D s = (s', Ok tt) ->
  browser s' = None /\ page s' = None /\ launched s' = launched s
  /\ live s' = List.remove Nat.eq_dec b (live s).
Proof.
  intros Hb Hc. unfold close in Hc. rewrite Hb in Hc.
  cbv beta iota zeta delta [bind act forget_browser] in Hc.
  destruct (drv_browserClose D (world s)) as [w' [[]|msg]];
    [|discriminate Hc].
  injection Hc as <-. repeat split.
Qed.

(** When [scrapeAll] returns its data, the browser it launched is closed
    and the fields are cleared; a browser that was open before is still
    open, and the scraper object no longer knows it. *)
Theorem scrapeAll_success_closes_own_browser (s s' : St W)
    (data : ScrapedData) :
  scrapeAll D newDate mathRandom credentials s = (s', Ok data) ->
  browser s' = None /\ page s' = None
  /\ launched s' = S (launched s)
  /\ live s' = List.remove Nat.eq_dec (launched s) (live s).
Proof.
  intros H.
  destruct (scrapeAll_success_steps s s' data H) as (s1 & s7 & Hi & Hk & Hc).
  destruct (initialize_adopts D s s1 Hi) as (Hb1 & _ & Hv1).
  pose proof (initialize_launched s s1 Hi) as Hn1.
  destruct Hk as (Kb & _ & Kn & Kv).
  destruct (close_held s7 s' (launched s) ltac:(congruence) Hc)
    as (Hb & Hp & Hn & Hv).
  split; [exact Hb|]. split; [exact Hp|]. split; [congruence|].
  rewrite Hv, Kv, Hv1. apply remove_head.
Qed.

(** [scrapeMoodle] on a new scraper object calls [initialize] itself and
    then [scrapeAll], which calls it again: whenever [scrapeMoodle]
    returns its data, two browsers were launched and the first of them is
    still open, held by nobody. *)
Theorem scrapeMoodle_success_leaves_first_browser (w : W) (s' : St W)
    (data : ScrapedData) :
  scrapeMoodle D newDate mathRandom credentials (newScraper w)
  = (s', Ok data) ->
  browser s' = None /\ page s' = None /\ launched s' = 2 /\ live s' = [0].
Proof.
  unfold scrapeMoodle, try_finally.
  destruct (bind (initialize D) _ _) as [s3 r] eqn:H.
  destruct (close D s3) as [s4 [[]|msg]] eqn:Hc; [|discriminate].
  intros E. injection E as <- ->.
  destruct (bind_ok_inv _ _ _ _ _ H) as (s1 & [] & Hi & H1). clear H.
  destruct (bind_ok_inv _ _ _ _ _ H1) as (s2 & b & Hl & H2). clear H1.
  destruct (initialize_adopts D _ s1 Hi) as (Hb1 & Hp1 & Hv1).
  pose proof (initialize_launched _ s1 Hi) as Hn1.
  destruct (login_keeps_object D credentials s1 s2 _ Hl)
    as (Kb & Kp & Kn & Kv).
  cbn [newScraper launched live] in Hb1, Hv1, Hn1.
  destruct (scrapeAll_success_steps s2 s3 data H2)
    as (sa & sb & Hi2 & Hk & Hc2).
  destruct (initialize_adopts D s2 sa Hi2) as (Hb4 & _ & Hv4).
  pose proof (initialize_launched s2 sa Hi2) as Hn4.
  destruct Hk as (Jb & _ & Jn & Jv).
  destruct (close_held sb s3 1 ltac:(congruence) Hc2)
    as (Hb3 & Hp3 & Hn3 & Hv3).
  unfold close in Hc. rewrite Hb3 in Hc. unfold ret in Hc.
  injection Hc as <-.
  split; [exact Hb3|]. split; [exact Hp3|]. split; [congruence|].
  rewrite Hv3, Jv, Hv4, Kv, Kn, Hv1, Hn1. reflexivity.
Qed.

(** When the first [login] of [scrapeMoodle] throws and the browser closes,
    [scrapeMoodle] throws the same error with the browser closed and the
    fields cleared: the [finally] does what [scrapeAll] alone does not. *)
Theorem scrapeMoodle_closes_after_failed_login (w w' : W) (s1 s2 : St W)
    (msg : string) :
  initialize D (newScraper w) = (s1, Ok tt) ->
  login D credentials s1 = (s2, Throw msg) ->
  drv_browserClose D (world s2) = (w', Ok tt) ->
  scrapeMoodle D newDate mathRandom credentials (newScraper w)
  = (mkSt w' None None 1 [] (AClose 0 :: trace s2), Throw msg).
Proof.
  intros Hi Hl Hc.
  destruct (initialize_adopts D _ s1 Hi) as (Hb1 & Hp1 & Hv1).
  pose proof (initialize_launched _ s1 Hi) as Hn1.
  destruct (login_keeps_object D credentials s1 s2 _ Hl)
    as (Kb & Kp & Kn & Kv).
  cbn [newScraper launched live] in Hb1, Hv1, Hn1.
  unfold scrapeMoodle, try_finally.
  unfold bind at 1. rewrite Hi. unfold bind at 1. rewrite Hl.
  destruct (close_outcomes D s2 0 w' ltac:(congruence)) as [Hok _].
  rewrite (Hok Hc). rewrite Kn, Hn1, Kv, Hv1. reflexivity.
Qed.

End Outcomes.

Section ScrapeMethods.

Context {W : Type} (D : Driver W).
Variable newDate : jsstring -> Date.

(** The scrape methods on a page never throw.  [scrapeFiles] and
    [scrapeZybookIntegrations] only read the page, and a rejected
    enumeration gives the empty list.  [scrapeGrades] gives the empty list
    and does nothing when the page shows no link to the gradebook or the
    lookup rejects; when the link is there it clicks it, and gives the rows
    of the page it lands on, or the empty list when the click, the
    navigation or the enumeration rejects. *)
Theorem scrape_methods_never_throw (s : St W) (p : nat) :
  page s = Some p ->
  scrapeFiles D s
  = (s, Ok match drv_queryAll D
                   "a[href*='resource'], a[href*='folder'], .activity.resource"
                   (world s) with
           | Ok elements => successes extractFileData elements
           | Throw _ => []
           end)
  /\ scrapeZybookIntegrations D newDate s
     = (s, Ok match drv_queryAll D
                      "a[href*='zybook'], a[href*='zybooks'], .activity.lti"
                      (world s) with
              | Ok elements => successes (extractZybookData newDate) elements
              | Throw _ => []
              end)
  /\ scrapeGrades D newDate s
     = match drv_query D
               "a[href*='grade'], a:contains('Grade'), a:contains('Gradebook')"
               (world s) with
       | Ok (Some link) =>
           let (w1, r1) := drv_clickHandle D link (world s) in
           match r1 with
           | Ok _ =>
               let (w2, r2) := drv_waitForNavigation D w1 in
               (with_actions s w2 [AClickHandle],
                Ok match r2, drv_queryAll D "tr.graderow, .gradestable tr" w2
                   with
                   | Ok _, Ok gradeRows =>
                       successes (extractGradeData newDate) gradeRows
                   | _, _ => []
                   end)
           | Throw _ => (with_actions s w1 [AClickHandle], Ok [])
           end
       | _ => (s, Ok [])
       end.
Proof.
  intros Hp. split; [|split].
  - unfold scrapeFiles.
    cbv beta iota zeta delta [requirePage try_catch bind read ret].
    rewrite Hp. destruct (drv_queryAll D _ (world s)); [|reflexivity].
    rewrite extractEach_successes. reflexivity.
  - unfold scrapeZybookIntegrations.
    cbv beta iota zeta delta [requirePage try_catch bind read ret].
    rewrite Hp. destruct (drv_queryAll D _ (world s)); [|reflexivity].
    rewrite extractEach_successes. reflexivity.
  - unfold scrapeGrades.
    cbv beta iota zeta delta
      [requirePage try_catch bind page_query read ret log act].
    cbn [world browser page launched live trace].
    rewrite Hp. unfold with_actions. rewrite Hp.
    destruct (drv_query D _ (world s)) as [[link|]|msg]; try reflexivity.
    destruct (drv_clickHandle D link (world s)) as [w1 [[]|m1]];
      cbv beta iota; [|rewrite ?Hp; reflexivity].
    cbn [world browser page launched live trace].
    destruct (drv_waitForNavigation D w1) as [w2 [[]|m2]];
      cbv beta iota; [|rewrite ?Hp; reflexivity].
    cbn [world browser page launched live trace].
    destruct (drv_queryAll D _ w2); [|rewrite ?Hp; reflexivity].
    rewrite extractEach_successes, ?Hp. reflexivity.
Qed.

End ScrapeMethods.

(* ===================================================================== *)
(** * Properties of [MoodleAuth] *)
(* ===================================================================== *)

Section AuthProperties.

Context {W : Type} (D : Driver W).
Variable credentials : MoodleCredentials.
Variable originOf : jsstring -> Result jsstring.
Variable valueOf : ElementHandle -> Result jsstring.
Variable messageOf : jsstring -> string.

Lemma isAlreadyLoggedIn_read (s : St W) :
  exists b,
    Auth.isAlreadyLoggedIn D s = (s, Ok b)
    /\ (b = true <->
        Forall (fun sel => drv_query D sel (world s) = Ok None)
          Auth.loginIndicators
        /\ anyPresentIn D (world s) Auth.loggedInIndicators = Ok true).
Proof.
  unfold Auth.isAlreadyLoggedIn, try_catch, bind.
  destruct (noneFound_spec D Auth.loginIndicators s) as (r & -> & Hiff).
  destruct r as [[|]|msg].
  - rewrite anyPresent_read.
    destruct (anyPresentIn D (world s) Auth.loggedInIndicators)
      as [[|]|msg] eqn:Ha.
    + exists true. split; [reflexivity|]. split; [|reflexivity].
      intros _. split; [apply Hiff|]; reflexivity.
    + exists false. split; [reflexivity|]. split; [discriminate|].
      intros [_ H]. discriminate H.
    + exists false. split; [reflexivity|]. split; [discriminate|].
      intros [_ H]. discriminate H.
  - exists false. split; [reflexivity|]. split; [discriminate|].
    intros [H _]. apply Hiff in H. discriminate H.
  - exists false. split; [reflexivity|]. split; [discriminate|].
    intros [H _]. apply Hiff in H. discriminate H.
Qed.

(** [validateSession] never throws.  It answers [true] exactly when the
    navigation to the class URL resolves, each of the five lookups of a
    login indicator resolves to no element, and a lookup of a signed-in
    indicator finds one before any rejects: a page that shows neither a
    login form nor a user menu counts as signed out. *)
Theorem validateSession_never_throws (s : St W) :
  exists s' b,
    Auth.validateSession D credentials s = (s', Ok b)
    /\ same_object s s'
    /\ (b = true <->
        exists w',
          drv_goto D (classUrl credentials) (world s) = (w', Ok tt)
          /\ Forall (fun sel => drv_query D sel w' = Ok None)
               Auth.loginIndicators
          /\ anyPresentIn D w' Auth.loggedInIndicators = Ok true).
Proof.
  unfold Auth.validateSession.
  cbv beta iota zeta delta [try_catch bind page_goto log act ret].
  cbn [world browser page launched live trace].
  destruct (drv_goto D (classUrl credentials) (world s))
    as [w' [[]|msg]] eqn:Hg.
  - match goal with
    | |- context [Auth.isAlreadyLoggedIn D ?s1] =>
        destruct (isAlreadyLoggedIn_read s1) as (b & -> & Hiff)
    end.
    cbn [world] in Hiff.
    eexists _, b. split; [reflexivity|]. split; [repeat split|].
    rewrite Hiff. split.
    + intros H. exists w'. split; [reflexivity | exact H].
    + intros (w'' & E & H). injection E as <-. exact H.
  - eexists _, false. split; [reflexivity|]. split; [repeat split|].
    split; [discriminate|]. intros (w'' & E & _). discriminate E.
Qed.



Lemma only_checkErrors_tt (selectors : list string) :
  only_returns tt (Auth.checkErrors D messageOf selectors).
Proof. intros s s' [] _. reflexivity. Qed.

Lemma checkErrors_quiet (selectors : list string) (s : St W) :
  Forall (fun sel => drv_query D sel (world s) = Ok None) selectors ->
  Auth.checkErrors D messageOf selectors s = (s, Ok tt).
Proof.
  induction 1 as [|sel rest Hq _ IH]; simpl; [reflexivity|].
  unfold bind, page_query, read. rewrite Hq. exact IH.
Qed.

Lemma verifyLoginSuccess_true_or_throws (s : St W) :
  snd (Auth.verifyLoginSuccess D messageOf s) = Ok true
  \/ exists msg,
       snd (Auth.verifyLoginSuccess D messageOf s)
       = Throw (String.append "Login verification failed: " msg).
Proof.
  unfold Auth.verifyLoginSuccess, try_catch.
  match goal with
  | |- context [match ?m s with _ => _ end] =>
      assert (Ho : only_returns true m);
      [|destruct (m s) as [s1 [b|msg]] eqn:E]
  end.
  - apply only_bind. intros _. apply only_bind. intros _.
    apply only_bind. intros [form|]; [apply only_throw|].
    apply only_bind. intros [|]; apply only_ret.
  - left. rewrite (Ho _ _ _ E). reflexivity.
  - right. exists msg. reflexivity.
Qed.

(** [verifyLoginSuccess] resolves to [true] or throws an error whose
    message begins with "Login verification failed: "; it never resolves
    to [false].  Once the wait is over, a page that shows no error element
    and no login form is a success whether or not it shows any sign of a
    signed-in user; and a page that still shows the login form is a
    failure. *)
Theorem verifyLoginSuccess_outcomes (s : St W) :
  let r := snd (Auth.verifyLoginSuccess D messageOf s) in
  (r = Ok true
   \/ exists msg,
        r = Throw (String.append "Login verification failed: " msg))
  /\ (forall w1 signs,
        drv_waitForTimeout D 2000 (world s) = (w1, Ok tt) ->
        Forall (fun sel => drv_query D sel w1 = Ok None)
          Auth.errorSelectors ->
        drv_query D Auth.loginFormSelector w1 = Ok None ->
        anyPresentIn D w1 Auth.successIndicators = Ok signs ->
        r = Ok true)
  /\ (forall w1 form,
        drv_waitForTimeout D 2000 (world s) = (w1, Ok tt) ->
        Forall (fun sel => drv_query D sel w1 = Ok None)
          Auth.errorSelectors ->
        drv_query D Auth.loginFormSelector w1 = Ok (Some form) ->
        r = Throw
              "Login verification failed: Login failed - still on login page").
Proof.
  cbv zeta. split; [|split].
  - apply verifyLoginSuccess_true_or_throws.
  - intros w1 signs Hw He Hf Ha. unfold Auth.verifyLoginSuccess.
    cbv beta iota zeta delta [try_catch bind act page_query read ret throw].
    cbn [world browser page launched live trace]. rewrite Hw.
    rewrite checkErrors_quiet by exact He.
    cbn [world]. rewrite Hf. rewrite anyPresent_read. cbn [world].
    rewrite Ha. destruct signs; reflexivity.
  - intros w1 form Hw He Hf. unfold Auth.verifyLoginSuccess.
    cbv beta iota zeta delta [try_catch bind act page_query read ret throw].
    cbn [world browser page launched live trace]. rewrite Hw.
    rewrite checkErrors_quiet by exact He.
    cbn [world]. rewrite Hf. reflexivity.
Qed.

(** [MoodleAuth.login] resolves to [true] or throws an error whose message
    begins with "Authentication failed: "; it never resolves to [false].
    When the class page already shows a signed-in user it returns at once:
    the navigation to the class URL is all it did, and no credential was
    typed. *)
Theorem auth_login_outcomes (s : St W) :
  let run := Auth.login D credentials originOf valueOf messageOf s in
  (snd run = Ok true
   \/ exists msg,
        snd run = Throw (String.append "Authentication failed: " msg))
  /\ (forall w1,
        drv_goto D (classUrl credentials) (world s) = (w1, Ok tt) ->
        Forall (fun sel => drv_query D sel w1 = Ok None)
          Auth.loginIndicators ->
        anyPresentIn D w1 Auth.loggedInIndicators = Ok true ->
        run = (with_actions s w1 [AGoto (classUrl credentials)], Ok true)).
Proof.
  cbv zeta. split.
  - unfold Auth.login, try_catch.
    match goal with
    | |- context [match ?m s with _ => _ end] =>
        assert (Ho : only_returns true m);
        [|destruct (m s) as [s1 [b|msg]] eqn:E]
    end.
    + apply only_bind. intros _. apply only_bind. intros [|]; [apply only_ret|].
      do 5 (apply only_bind; intros ?).
      intros s1 s2 ok E.
      pose proof (verifyLoginSuccess_true_or_throws s1) as [H|(msg & H)];
        rewrite E in H; cbn [snd] in H; [|discriminate H].
      injection H as ->. reflexivity.
    + left. rewrite (Ho _ _ _ E). reflexivity.
    + right. exists msg. reflexivity.
  - intros w1 Hg Hl Ha. unfold Auth.login.
    cbv beta iota zeta delta [try_catch bind page_goto log act].
    cbn [world browser page launched live trace]. rewrite Hg.
    match goal with
    | |- context [Auth.isAlreadyLoggedIn D ?s1] =>
        destruct (isAlreadyLoggedIn_read s1) as (b & -> & Hiff)
    end.
    cbn [world] in Hiff.
    assert (Hb : b = true) by (apply Hiff; split; assumption).
    rewrite Hb. reflexivity.
Qed.

End AuthProperties.

Section MoreLifecycle.

Context {W : Type} (D : Driver W).

(** [initialize] never loses a browser it launched: when it throws,
    either the launch itself rejected and nothing changed but the world,
    or the browser was launched and the scraper object holds it, so that a
    later [close] closes it. *)
Theorem initialize_failure_keeps_browser (s : St W) :
  let s' := fst (initialize D s) in
  match snd (initialize D s) with
  | Ok _ =>
      browser s' = Some (launched s) /\ page s' = Some (launched s)
      /\ live s' = launched s :: live s
  | Throw _ =>
      (same_object s s' /\ is_ok (snd (drv_launch D (world s))) = false)
      \/ (browser s' = Some (launched s)
          /\ live s' = launched s :: live s
          /\ (page s' = page s \/ page s' = Some (launched s)))
  end.
Proof.
  cbv zeta.
  cbv beta iota zeta delta [initialize bind act adopt_browser set_page].
  cbn [world browser page launched live trace].
  destruct (drv_launch D (world s)) as [w1 [[]|m1]]; cbv beta iota;
    cbn [fst snd world browser page launched live trace is_ok];
    [|left; repeat split].
  destruct (drv_newPage D w1) as [w2 [[]|m2]]; cbv beta iota;
    cbn [fst snd world browser page launched live trace];
    [|right; split; [reflexivity|]; split; [reflexivity|]; left; reflexivity].
  destruct (drv_setViewport D w2) as [w3 [[]|m3]]; cbv beta iota;
    cbn [fst snd world browser page launched live trace].
  - repeat split.
  - right. split; [reflexivity|]. split; [reflexivity|]. right. reflexivity.
Qed.

End MoreLifecycle.

Section LoginUrl.

Context {W : Type} (D : Driver W).
Variable originOf : jsstring -> Result jsstring.

Lemma tryLoginPaths_range (baseUrl : jsstring) (paths : list string) :
  forall s s' found,
    Auth.tryLoginPaths D baseUrl paths s = (s', Ok (Some found)) ->
    exists path, In path paths /\ found = baseUrl ++ js path.
Proof.
  induction paths as [|path rest IH]; intros s s' found; simpl.
  - discriminate.
  - unfold bind at 1.
    destruct (try_catch _ _ s) as [s1 [[|]|msg]]; [| |discriminate].
    + unfold ret. intros E. injection E as _ <-.
      exists path. split; [left|]; reflexivity.
    + intros E. destruct (IH _ _ _ E) as (p & Hin & ->).
      exists p. split; [right; exact Hin | reflexivity].
Qed.

(** [findLoginUrl] parses the current URL before it looks at the page: on
    a URL the runtime cannot parse it throws, login form or not.
    Otherwise a page that shows the login form gives its own URL, with no
    navigation.  And whatever it returns is the current URL, the link of
    the page to a login, or one of the five login paths under the origin
    of the current URL. *)
Theorem findLoginUrl_range (s : St W) :
  let currentUrl := drv_url D (world s) in
  (forall msg,
     originOf currentUrl = Throw msg ->
     Auth.findLoginUrl D originOf s = (s, Throw msg))
  /\ (forall baseUrl form,
        originOf currentUrl = Ok baseUrl ->
        drv_query D Auth.loginFormSelector (world s) = Ok (Some form) ->
        Auth.findLoginUrl D originOf s = (s, Ok currentUrl))
  /\ (forall s' loginUrl,
        Auth.findLoginUrl D originOf s = (s', Ok loginUrl) ->
        loginUrl = currentUrl
        \/ (exists link,
              drv_query D "a[href*='login']" (world s) = Ok (Some link)
              /\ Auth.hrefOf link = Ok loginUrl /\ loginUrl <> [])
        \/ (exists baseUrl path,
              originOf currentUrl = Ok baseUrl
              /\ In path Auth.loginPaths
              /\ loginUrl = baseUrl ++ js path)).
Proof.
  cbv zeta. unfold Auth.findLoginUrl.
  cbv beta iota zeta delta [bind Auth.page_url Auth.lift page_query read ret].
  split; [|split].
  - intros msg ->. reflexivity.
  - intros baseUrl form -> ->. reflexivity.
  - intros s' loginUrl.
    destruct (originOf (drv_url D (world s))) as [baseUrl|msg];
      [|discriminate].
    destruct (drv_query D Auth.loginFormSelector (world s)) as [[form|]|msg];
      [| |discriminate].
    + intros E. injection E as _ <-. left. reflexivity.
    + destruct (drv_query D "a[href*='login']" (world s))
        as [[link|]|msg] eqn:Hl; [| |discriminate].
      * destruct (Auth.hrefOf link) as [[|c u]|msg] eqn:Hh;
          cbn [truthy]; [| |discriminate].
        -- destruct (Auth.tryLoginPaths D baseUrl Auth.loginPaths s)
             as [s1 [[found|]|msg]] eqn:Ht; [| |discriminate].
           ++ intros E. injection E as _ <-. right. right.
              destruct (tryLoginPaths_range _ _ _ _ _ Ht) as (p & Hin & ->).
              exists baseUrl, p. repeat split. exact Hin.
           ++ intros E. injection E as _ <-. left. reflexivity.
        -- intros E. injection E as _ <-. right. left.
           exists link. repeat split; [exact Hh | discriminate].
      * destruct (Auth.tryLoginPaths D baseUrl Auth.loginPaths s)
          as [s1 [[found|]|msg]] eqn:Ht; [| |discriminate].
        -- intros E. injection E as _ <-. right. right.
           destruct (tryLoginPaths_range _ _ _ _ _ Ht) as (p & Hin & ->).
           exists baseUrl, p. repeat split. exact Hin.
        -- intros E. injection E as _ <-. left. reflexivity.
Qed.

End LoginUrl.

Section LoginForm.

Context {W : Type} (D : Driver W).
Variable credentials : MoodleCredentials.

(** [performLogin] on a form with its three controls, without a token to
    set (none was found, or the form has no token field): the username
    field is clicked and receives the e-mail, the password field is
    clicked and receives the password, the submit control is clicked, and
    the outcome is the outcome of the navigation that follows. *)
Theorem performLogin_fills_then_submits (s : St W)
    (csrfToken : option jsstring) (u pw b : string) (w1 w2 w3 w4 w5 w6 : W)
    (r : Result unit) :
  firstPresentIn D (world s) usernameFieldSelectors = Ok (Some u) ->
  firstPresentIn D (world s) passwordFieldSelectors = Ok (Some pw) ->
  firstPresentIn D (world s) submitButtonSelectors = Ok (Some b) ->
  drv_click D u (world s) = (w1, Ok tt) ->
  drv_type D u (email credentials) w1 = (w2, Ok tt) ->
  drv_click D pw w2 = (w3, Ok tt) ->
  drv_type D pw (password credentials) w3 = (w4, Ok tt) ->
  orNull csrfToken = None
  \/ drv_query D "input[name='logintoken'], input[name='_token']" w4
     = Ok None ->
  drv_click D b w4 = (w5, Ok tt) ->
  drv_waitForNavigation D w5 = (w6, r) ->
  performLogin D credentials csrfToken s
  = (with_actions s w6
       [AClick u; AType u (email credentials);
        AClick pw; AType pw (password credentials); AClick b], r).
Proof.
  intros Hu Hpw Hb H1 H2 H3 H4 Ht H5 H6.
  unfold performLogin, findUsernameField, findPasswordField, findSubmitButton.
  unfold bind at 1. rewrite firstPresent_read, Hu.
  unfold bind at 1. rewrite firstPresent_read, Hpw.
  unfold bind at 1. rewrite firstPresent_read, Hb.
  cbv beta iota zeta delta
    [bind page_type page_click page_query log act ret read click_and_wait].
  cbn [world browser page launched live trace].
  rewrite H1. cbv beta iota. cbn [world browser page launched live trace].
  rewrite H2. cbv beta iota. cbn [world browser page launched live trace].
  rewrite H3. cbv beta iota. cbn [world browser page launched live trace].
  rewrite H4. cbv beta iota. cbn [world browser page launched live trace].
  destruct csrfToken as [[|c t]|];
    cbv beta iota; cbn [world browser page launched live trace];
    try (rewrite H5; cbv beta iota;
         cbn [world browser page launched live trace];
         rewrite H6; destruct r; reflexivity).
  destruct Ht as [Ht|Ht]; [discriminate Ht|]. rewrite Ht. cbv beta iota.
  cbn [world browser page launched live trace].
  rewrite H5. cbv beta iota. cbn [world browser page launched live trace].
  rewrite H6. destruct r; reflexivity.
Qed.

(** [MoodleScraper.login] on a form with its three controls, when every
    action resolves: the e-mail and the password are typed into the fields
    found, the button is clicked, and after the wait the verdict is read
    off the content of the page alone: the login fails exactly when the
    content holds "Invalid login", "Login failed" or "incorrect",
    wherever in the page that is. *)
Theorem login_verdict_by_content (s : St W) (p : nat)
    (w1 w2 w3 w4 w5 w6 : W) (e pw b : string) (pageContent : jsstring) :
  page s = Some p ->
  drv_goto D (classUrl credentials) (world s) = (w1, Ok tt) ->
  firstPresentIn D w1 loginSelectors = Ok (Some e) ->
  firstPresentIn D w1 passwordSelectors = Ok (Some pw) ->
  drv_type D e (email credentials) w1 = (w2, Ok tt) ->
  drv_type D pw (password credentials) w2 = (w3, Ok tt) ->
  firstPresentIn D w3 loginButtonSelectors = Ok (Some b) ->
  drv_click D b w3 = (w4, Ok tt) ->
  drv_waitForNavigation D w4 = (w5, Ok tt) ->
  drv_waitForTimeout D 2000 w5 = (w6, Ok tt) ->
  drv_content D w6 = Ok pageContent ->
  login D credentials s
  = (with_actions s w6
       [AGoto (classUrl credentials); AType e (email credentials);
        AType pw (password credentials); AClick b],
     if includes pageContent (js "Invalid login")
        || includes pageContent (js "Login failed")
        || includes pageContent (js "incorrect")
     then Throw "Login failed: Invalid credentials"
     else Ok true).
Proof.
  intros Hp Hg He Hpw Ht1 Ht2 Hb Hc Hn Hw Hpc.
  pose proof (loginSelectors_not_empty e (firstPresentIn_member D _ _ _ He))
    as Hne.
  pose proof (passwordSelectors_not_empty pw
                (firstPresentIn_member D _ _ _ Hpw)) as Hnpw.
  unfold login, findLoginSelector, findPasswordSelector, findLoginButton,
    verifyLogin.
  cbv beta iota zeta delta
    [requirePage try_catch bind page_goto page_type page_click page_query
     log act ret throw read orThrow click_and_wait].
  cbn [world browser page launched live trace].
  rewrite Hp, Hg. cbv beta iota.
  rewrite firstPresent_read. cbn [world]. rewrite He. cbv beta iota.
  rewrite firstPresent_read. cbn [world]. rewrite Hpw. cbv beta iota.
  rewrite Hne, Hnpw. cbn [orb].
  cbn [world browser page launched live trace].
  rewrite Ht1. cbv beta iota.
  cbn [world browser page launched live trace].
  rewrite Ht2. cbv beta iota.
  rewrite firstPresent_read. cbn [world]. rewrite Hb. cbv beta iota.
  cbn [world browser page launched live trace].
  rewrite Hc. cbv beta iota. cbn [world browser page launched live trace].
  rewrite Hn. cbv beta iota. cbn [world browser page launched live trace].
  rewrite Hw. cbv beta iota. cbn [world browser page launched live trace].
  rewrite Hpc. cbv beta iota.
  unfold with_actions. rewrite Hp.
  destruct (includes pageContent (js "Invalid login")
            || includes pageContent (js "Login failed")
            || includes pageContent (js "incorrect")); reflexivity.
Qed.

End LoginForm.

(** ** The indicators of a two-factor challenge *)

Lemma lower_char_not_upper (c : jschar) : is_upper (lower_char c) = false.
Proof.
  unfold lower_char. destruct (is_upper c) eqn:E; [|exact E].
  unfold is_upper in *. apply andb_prop in E. destruct E as [E1 E2].
  apply N.leb_le in E1, E2. apply andb_false_intro2. apply N.leb_gt. lia.
Qed.

Lemma toLowerCase_no_upper (s : jsstring) :
  existsb is_upper (toLowerCase s) = false.
Proof.
  induction s as [|c r IH]; simpl; [reflexivity|].
  rewrite lower_char_not_upper. exact IH.
Qed.

(** A lower-cased text holds no phrase that has an upper-case letter. *)
Lemma lowered_excludes_upper (s p : jsstring) :
  existsb is_upper p = true -> includes (toLowerCase s) p = false.
Proof.
  intros Hp. destruct (includes (toLowerCase s) p) eqn:E; [|reflexivity].
  destruct (includes_sound _ _ E) as (pre & post & H).
  pose proof (toLowerCase_no_upper s) as Hn.
  rewrite H, !existsb_app, Hp, orb_true_r in Hn. discriminate Hn.
Qed.

(** [detect2FA] looks for its indicators in the lower-cased content of the
    page, and the indicator "SMS code" has upper-case letters: no content
    ever matches it, and the answer is the one of the other thirteen
    indicators. *)
Theorem detect2FA_sms_indicator_never_matches (pageContent : jsstring) :
  let found := fun indicator =>
    includes (toLowerCase pageContent) (js indicator) in
  In "SMS code" twoFactorIndicators
  /\ found "SMS code" = false
  /\ existsb found twoFactorIndicators
     = existsb found
         (filter (fun indicator => negb (String.eqb indicator "SMS code"))
            twoFactorIndicators).
Proof.
  intros found.
  assert (H : found "SMS code" = false)
    by (apply lowered_excludes_upper; reflexivity).
  split; [|split; [exact H|]].
  - unfold twoFactorIndicators. simpl. tauto.
  - change (filter _ twoFactorIndicators)
      with ["two-factor"; "authentication code"; "verification code";
            "authenticator app"; "text message"; "duo mobile";
            "duo security"; "duo authentication"; "duosecurity.com";
            "push notification"; "duo push"; "checking for request";
            "waiting for response"].
    unfold twoFactorIndicators. cbn [existsb]. rewrite H. reflexivity.
Qed.

(* ===================================================================== *)
(** * Instances *)
(* ===================================================================== *)

(** A status line that says "Not submitted". *)
Lemma status_submitted_by_substring_witness :
  submissionStatusOf (Some (textElement (js "Status: Not submitted yet")))
  = submitted.
Proof.
  apply (status_submitted_by_substring _
           (js "Status: ") (js "Not submitted") (js " yet"));
    reflexivity.
Defined.

(** An external tool whose status reads "Incomplete". *)
Lemma zybook_completion_status_witness :
  zd_completionStatus
    (extractZybookIntegration_callback noDate
       (toolWithStatus (js "Incomplete")))
  = js "Completed".
Proof.
  apply (proj2 (zybook_completion_status noDate
                  (toolWithStatus (js "Incomplete")))
           (textElement (js "Incomplete")) (js "In") (js "complete") []);
    reflexivity.
Defined.

(** A row graded 85 without a maximum. *)
Lemma percentage_without_maximum_witness :
  gd_maxGrade (extractGrade_callback noDate (gradeOnlyRow (js "85")))
  = js "0"
  /\ gd_percentage (extractGrade_callback noDate (gradeOnlyRow (js "85")))
     = Some 0%float.
Proof.
  destruct (percentage_without_maximum noDate (gradeOnlyRow (js "85"))
              eq_refl) as (H1 & H2 & _).
  split; [exact H1 | exact H2].
Defined.






(** ** Runs of the scraper *)

Lemma navigateToClass_errors_witness :
  navigateToClass timeoutDriver sampleCredentials initializedScraper
  = (with_actions initializedScraper tt [AGoto (classUrl sampleCredentials)],
     Throw "Could not access class page. Please verify the class URL.").
Proof.
  exact (proj2 (navigateToClass_errors timeoutDriver sampleCredentials
                  initializedScraper) 0 tt (Ok tt) eq_refl eq_refl).
Defined.

(** The file entries of the listing: the detached one is skipped. *)
Lemma scrape_methods_never_throw_witness :
  scrapeFiles listingDriver initializedScraper
  = (initializedScraper,
     Ok [mkMoodleFile (js "Unknown File") [] (js "Unknown size") [] []]).
Proof.
  exact (proj1 (scrape_methods_never_throw listingDriver noDate
                  initializedScraper 0 eq_refl)).
Defined.

(** A whole run on the page that accepts the login. *)
Lemma scrapeAll_success_closes_own_browser_witness :
  let run :=
    scrapeAll loginPageDriver noDate [] sampleCredentials (newScraper tt) in
  snd run = Ok (mkScrapedData [] [] [] [])
  /\ browser (fst run) = None /\ live (fst run) = [].
Proof.
  cbv zeta.
  assert (E : scrapeAll loginPageDriver noDate [] sampleCredentials
                (newScraper tt)
              = (fst (scrapeAll loginPageDriver noDate [] sampleCredentials
                        (newScraper tt)),
                 Ok (mkScrapedData [] [] [] [])))
    by (vm_compute; reflexivity).
  destruct (scrapeAll_success_closes_own_browser loginPageDriver noDate []
              sampleCredentials _ _ _ E) as (Hb & _ & _ & Hl).
  split; [rewrite E; reflexivity|]. split; [exact Hb | exact Hl].
Defined.

Lemma scrapeMoodle_success_leaves_first_browser_witness :
  let run :=
    scrapeMoodle loginPageDriver noDate [] sampleCredentials (newScraper tt) in
  snd run = Ok (mkScrapedData [] [] [] [])
  /\ browser (fst run) = None /\ live (fst run) = [0].
Proof.
  cbv zeta.
  assert (E : scrapeMoodle loginPageDriver noDate [] sampleCredentials
                (newScraper tt)
              = (fst (scrapeMoodle loginPageDriver noDate [] sampleCredentials
                        (newScraper tt)),
                 Ok (mkScrapedData [] [] [] [])))
    by (vm_compute; reflexivity).
  destruct (scrapeMoodle_success_leaves_first_browser loginPageDriver noDate
              [] sampleCredentials _ _ _ E) as (Hb & _ & _ & Hl).
  split; [rewrite E; reflexivity|]. split; [exact Hb | exact Hl].
Defined.

(** A run on the blank page: the first [login] throws. *)
Lemma scrapeMoodle_closes_after_failed_login_witness :
  scrapeMoodle blankDriver noDate [] sampleCredentials (newScraper tt)
  = (mkSt tt None None 1 []
       (AClose 0
        :: trace (fst (login blankDriver sampleCredentials
                         initializedScraper))),
     Throw "Login failed: Could not find email/username input field").
Proof.
  apply (scrapeMoodle_closes_after_failed_login blankDriver noDate []
           sampleCredentials tt tt initializedScraper
           (fst (login blankDriver sampleCredentials initializedScraper)));
    reflexivity.
Defined.

Lemma performLogin_fills_then_submits_witness :
  performLogin loginPageDriver sampleCredentials None initializedScraper
  = (with_actions initializedScraper tt
       [AClick "input[name='username']";
        AType "input[name='username']" (email sampleCredentials);
        AClick "input[name='password']";
        AType "input[name='password']" (password sampleCredentials);
        AClick "button[type='submit']"], Ok tt).
Proof.
  apply (performLogin_fills_then_submits loginPageDriver sampleCredentials
           initializedScraper None "input[name='username']"
           "input[name='password']" "button[type='submit']"
           tt tt tt tt tt tt (Ok tt));
    try reflexivity.
  left. reflexivity.
Defined.

Lemma login_verdict_by_content_witness :
  login loginPageDriver sampleCredentials initializedScraper
  = (with_actions initializedScraper tt
       [AGoto (classUrl sampleCredentials);
        AType "input[name='username']" (email sampleCredentials);
        AType "input[name='password']" (password sampleCredentials);
        AClick "button[type='submit']"], Ok true).
Proof.
  apply (login_verdict_by_content loginPageDriver sampleCredentials
           initializedScraper 0 tt tt tt tt tt tt
           "input[name='username']" "input[name='password']"
           "button[type='submit']" []);
    reflexivity.
Defined.

(** The class page of a signed-in user. *)
Lemma auth_login_outcomes_witness :
  Auth.login signedInDriver sampleCredentials
    (fun url => Ok url) (fun _ => Ok []) (fun _ => EmptyString)
    initializedScraper
  = (with_actions initializedScraper tt [AGoto (classUrl sampleCredentials)],
     Ok true).
Proof.
  apply (proj2 (auth_login_outcomes signedInDriver sampleCredentials
                  (fun url => Ok url) (fun _ => Ok []) (fun _ => EmptyString)
                  initializedScraper) tt);
    [reflexivity | repeat constructor | reflexivity].
Defined.

(** A page with nothing on it after the form was sent. *)
Lemma verifyLoginSuccess_outcomes_witness :
  snd (Auth.verifyLoginSuccess blankDriver (fun _ => EmptyString)
         initializedScraper)
  = Ok true.
Proof.
  apply (proj1 (proj2 (verifyLoginSuccess_outcomes blankDriver
                         (fun _ => EmptyString) initializedScraper))
           tt false);
    [reflexivity | repeat constructor | reflexivity | reflexivity].
Defined.
